(** * Risk decision pipeline of the PFM backend: a shallow embedding

    The development follows the Python sources
      - [app/risk_engine.py]   (feature extractor, linear scorer, calibrator,
                                runtime configuration),
      - [app/threat_intel.py]  (reputation flags and their fixed bumps),
      - [app/anomaly_engine.py] (train-on-call anomaly facade),
      - [app/main.py]          (login orchestration, profile learning,
                                configuration endpoint, lock-out, client
                                address and travel speed, transaction
                                score, order statistics, anomaly end
                                points),
      - [app/routers/fed.py], [app/routers/fed_sim.py]
                               (clipping, application and replay of
                                federated weights).

    Modelling conventions.
      - Python [int] is [Z]; Python [float] is a real number [R]: the
        rounding error of binary64 arithmetic is outside the model, every
        other operation ([round], [int], [max], [min], comparisons) is the
        Python one.
      - Python [str] is [string]; [dict] with string keys is [gmap string _]
        when only lookups matter and an association list in insertion order
        when the code iterates over it.
      - naive [datetime] values are counts of microseconds ([Z]).
      - a raised exception is the [Err] case of [result]; module globals and
        object attributes are threaded explicitly as state. *)

From Stdlib Require Import ZArith Reals Lra Lia String Ascii List Bool.
From stdpp Require Import gmap strings list pretty sorting.

Open Scope Z_scope.

(** ** Python values, exceptions and built-ins *)

Module Py.

(** The exception classes that the modelled code can raise. *)
Inductive exn_kind :=
| TypeError | ValueError | AttributeError | RuntimeError | IndexError | LibraryError.

(** An exception object: its class and the text that [str(e)] returns. *)
Record exn := Raise { exn_class : exn_kind; exn_msg : string }.

Definition str_exn (e : exn) : string := exn_msg e.

Inductive result (A : Type) :=
| Ok (a : A)
| Err (e : exn).
Arguments Ok {A} a.
Arguments Err {A} e.

Definition bind {A B} (r : result A) (k : A -> result B) : result B :=
  match r with
  | Ok a => k a
  | Err e => Err e
  end.

Definition is_ok {A} (r : result A) : bool :=
  match r with Ok _ => true | Err _ => false end.

(** JSON-like values, as they reach functions typed [Dict[str, Any]]. *)
#[warnings="-register-all"]
Inductive val :=
| VNone
| VBool (b : bool)
| VInt (z : Z)
| VFloat (r : R)
| VStr (s : string)
| VDict (items : list (string * val)).

(** Python's parsers of numeric literals ([float("1.5")], [int("42")]) are
    part of the interpreter, not of this repository: they are taken as an
    interface.  [None] stands for the [ValueError] that Python raises. *)
Class Parsers := {
  float_of_str : string -> option R;
  int_of_str : string -> option Z
}.

(** Largest integer below a real, and Python's [int(x)] on a float
    (truncation toward zero). *)
Definition floor (x : R) : Z := Int_part x.

Definition trunc (x : R) : Z :=
  if Rle_dec 0 x then floor x else (- floor (- x)).

(** Python 3 [round(x)] on a float: nearest integer, ties to even. *)
Definition round (x : R) : Z :=
  let f := floor x in
  let d := (x - IZR f)%R in
  if Rlt_dec d (1/2) then f
  else if Rlt_dec (1/2) d then f + 1
  else if Z.even f then f else f + 1.

(** Truth value of an object in a condition. *)
Definition truthy (v : val) : bool :=
  match v with
  | VNone => false
  | VBool b => b
  | VInt z => negb (z =? 0)
  | VFloat r => if Req_dec_T r 0 then false else true
  | VStr s => negb (String.eqb s "")
  | VDict items => match items with [] => false | _ => true end
  end.

(** [float(v)]. *)
Definition float `{Parsers} (v : val) : result R :=
  match v with
  | VFloat r => Ok r
  | VInt z => Ok (IZR z)
  | VBool b => Ok (if b then 1%R else 0%R)
  | VStr s =>
      match float_of_str s with
      | Some r => Ok r
      | None => Err (Raise ValueError "could not convert string to float")
      end
  | VNone => Err (Raise TypeError "float() argument must be a string or a real number, not 'NoneType'")
  | VDict _ => Err (Raise TypeError "float() argument must be a string or a real number, not 'dict'")
  end.

(** [int(v)]. *)
Definition int `{Parsers} (v : val) : result Z :=
  match v with
  | VInt z => Ok z
  | VFloat r => Ok (trunc r)
  | VBool b => Ok (if b then 1 else 0)
  | VStr s =>
      match int_of_str s with
      | Some z => Ok z
      | None => Err (Raise ValueError "invalid literal for int() with base 10")
      end
  | VNone => Err (Raise TypeError "int() argument must be a string, a bytes-like object or a real number, not 'NoneType'")
  | VDict _ => Err (Raise TypeError "int() argument must be a string, a bytes-like object or a real number, not 'dict'")
  end.

(** ASCII case mapping of [str.upper] and [str.lower]. *)
Definition upper_ascii (c : ascii) : ascii :=
  let n := nat_of_ascii c in
  if (Nat.leb 97 n && Nat.leb n 122)%bool then ascii_of_nat (n - 32) else c.

Definition lower_ascii (c : ascii) : ascii :=
  let n := nat_of_ascii c in
  if (Nat.leb 65 n && Nat.leb n 90)%bool then ascii_of_nat (n + 32) else c.

Fixpoint upper (s : string) : string :=
  match s with
  | EmptyString => EmptyString
  | String c s' => String (upper_ascii c) (upper s')
  end.

Fixpoint lower (s : string) : string :=
  match s with
  | EmptyString => EmptyString
  | String c s' => String (lower_ascii c) (lower s')
  end.

(** [dict.get(k, d)]. *)
Definition get {A} (m : gmap string A) (k : string) (d : A) : A :=
  default d (m !! k).

(** A naive [datetime], as microseconds; [(a - b).days] and [a.hour]. *)
Definition datetime := Z.

Definition us_per_day : Z := 86400000000.
Definition us_per_hour : Z := 3600000000.

Definition timedelta_days (a b : datetime) : Z := (a - b) / us_per_day.
Definition hour (t : datetime) : Z := (t / us_per_hour) mod 24.

End Py.

(** ** app/risk_engine.py *)

Module RiskEngine.

Record RiskConfig := {
  weights : gmap string R;
  scale : R;
  intercept : R;
  step_up_threshold : Z;
  hard_deny_threshold : Z
}.

(** The value of the module global [CONFIG = RiskConfig()] at import. *)
Definition default_weights : gmap string R :=
  list_to_map
    [ ("bias", (-1.5)%R);
      ("new_device", 2.2%R);
      ("untrusted_device", 1.6%R);
      ("ip_changed", 0.6%R);
      ("new_city", 1.0%R);
      ("rare_city", 0.5%R);
      ("odd_hour", 0.4%R);
      ("uncommon_hour", 0.25%R);
      ("impossible_travel", 2.4%R);
      ("consecutive_fails", 0.65%R);
      ("no_prior_success_cap", 0.0%R);
      ("device_age_decay", 0.0%R) ].

Definition CONFIG_initial : RiskConfig :=
  {| weights := default_weights;
     scale := 1.0%R;
     intercept := 0.0%R;
     step_up_threshold := 60;
     hard_deny_threshold := 90 |}.

Definition _sigmoid (x : R) : R :=
  if Rle_dec 0 x then
    let z := exp (- x) in (1.0 / (1.0 + z))%R
  else
    let z := exp x in (z / (1.0 + z))%R.

Definition _z (v mean mad : R) : R :=
  if Rle_dec mad 1e-6 then 0.0%R else (Rabs (v - mean) / mad)%R.

(** A row of [recent_rows]: the attributes of [models.LoginEvent] that the
    pipeline reads. *)
Record LoginEvent := {
  ev_ip : option string;
  ev_device_hash : option string;
  ev_success : bool;
  ev_ts : Py.datetime;
  ev_risk_score : Z;
  ev_risk_reason : string
}.

(** The [notes] dictionary of [login_features]: [speed_kmh] is rounded to
    one decimal, [last_success_ts] keeps the time stamp that the source
    renders in ISO format, [hour_count] is present only when the hour
    features are computed. *)
Record Notes := {
  note_city : string;
  note_prior_successes : Z;
  note_hour_count : option Z;
  note_speed_kmh : option R;
  note_last_success_ts : option Py.datetime
}.

(** [recent_rows[:-1]]. *)
Definition all_but_last {A} (l : list A) : list A := removelast l.

(** [sum(1 for r in rows if getattr(r, "success", False))]. *)
Definition count_successes (rows : list LoginEvent) : Z :=
  Z.of_nat (length (filter (fun r => ev_success r = true) rows)).

(** Truth value of an [Optional[str]]. *)
Definition str_truthy (s : option string) : bool :=
  match s with
  | Some s => negb (String.eqb s "")
  | None => false
  end.

(** [s or ""]. *)
Definition str_or_empty (s : option string) : string :=
  if str_truthy s then default "" s else "".

Definition flag (b : bool) : R := if b then 1.0%R else 0.0%R.

(** [login_features]: the feature dictionary, in insertion order, and the
    notes. *)
Definition login_features
    (recent_rows : list LoginEvent)
    (login_cities : gmap string Z)
    (login_hours_hist : gmap string Z)
    (device_trust : gmap string bool)
    (ip_city : string)
    (is_private_ip : bool)
    (device_hash : option string)
    (known_device : bool)
    (ip_changed : bool)
    (consecutive_fails : Z)
    (now : Py.datetime)
    (last_success_ts : option Py.datetime)
    (speed_kmh : option R)
  : list (string * R) * Notes :=
  let new_device := flag (str_truthy device_hash && negb known_device) in
  let trusted := Py.get device_trust (str_or_empty device_hash) false in
  let untrusted_device := flag (negb trusted) in
  let f_ip_changed := flag ip_changed in
  let dev_like := is_private_ip || String.eqb ip_city "Unknown" in
  let prior_successes := count_successes (all_but_last recent_rows) in
  let '(new_city, rare_city) :=
    if negb dev_like && (1 <=? prior_successes) then
      let seen_city := Py.get login_cities ip_city 0 in
      (flag (seen_city =? 0), flag ((seen_city <=? 2) && (0 <? seen_city)))
    else (0.0%R, 0.0%R) in
  let '(odd_hour, uncommon_hour, hour_note) :=
    if 3 <=? prior_successes then
      let hh := pretty (Py.hour now) in
      let hour_count := Py.get login_hours_hist hh 0 in
      (flag (hour_count =? 0),
       flag ((hour_count <=? 2) && (0 <? hour_count)),
       Some hour_count)
    else (0.0%R, 0.0%R, None) in
  let impossible_travel :=
    match speed_kmh with
    | Some s => if Rlt_dec 750.0 s then 1.0%R else 0.0%R
    | None => 0.0%R
    end in
  let f_consecutive_fails := IZR (Z.max consecutive_fails 0) in
  ([ ("new_device", new_device);
     ("untrusted_device", untrusted_device);
     ("ip_changed", f_ip_changed);
     ("new_city", new_city);
     ("rare_city", rare_city);
     ("odd_hour", odd_hour);
     ("uncommon_hour", uncommon_hour);
     ("impossible_travel", impossible_travel);
     ("consecutive_fails", f_consecutive_fails) ],
   {| note_city := ip_city;
      note_prior_successes := prior_successes;
      note_hour_count := hour_note;
      note_speed_kmh := (fun s => (IZR (Py.round (s * 10)) / 10)%R) <$> speed_kmh;
      note_last_success_ts := last_success_ts |}).

(** [features[k]] for a feature dictionary in insertion order. *)
Definition feature (f : list (string * R)) (k : string) : option R :=
  snd <$> List.find (fun kv => String.eqb (fst kv) k) f.

(** One entry of the contribution trace: the fields that the source formats
    as ["name × weight -> contribution"]. *)
Record Part := { part_name : string; part_weight : R; part_contribution : R }.

Definition nonzero (x : R) : bool := if Req_dec_T x 0 then false else true.

(** The loop body of [linear_score]: accumulator [(s, parts)]. *)
Definition linear_step (cfg : RiskConfig) (acc : R * list Part) (kv : string * R)
  : R * list Part :=
  let '(s, parts) := acc in
  let '(k, v) := kv in
  let w := Py.get (weights cfg) k 0.0%R in
  let parts' :=
    if nonzero v && nonzero w
    then parts ++ [ {| part_name := k; part_weight := w; part_contribution := (v * w)%R |} ]
    else parts in
  ((s + w * v)%R, parts').

Definition linear_score (features : list (string * R)) (cfg : RiskConfig)
  : Z * list Part :=
  let s := Py.get (weights cfg) "bias" 0.0%R in
  let '(s, parts) := fold_left (linear_step cfg) features (s, []) in
  let s := (scale cfg * s + intercept cfg)%R in
  let p := _sigmoid s in
  let total := Z.max 0 (Z.min (Py.round (p * 100)) 100) in
  (total, parts).

Definition apply_post_rules
    (total : Z) (prior_successes : Z)
    (known_device_first_seen : option Py.datetime) (now : Py.datetime) : Z :=
  let total := if prior_successes =? 0 then Z.min total 55 else total in
  let total :=
    match known_device_first_seen with
    | Some first_seen =>
        let days := Z.max (Py.timedelta_days now first_seen) 0 in
        let half_life := 30.0%R in
        let factor := Rpower 0.5 (IZR days / half_life) in
        if 0 <? days then Py.round (IZR total * factor) else total
    | None => total
    end in
  Z.max 0 (Z.min total 100).

Definition score_login
    (cfg : RiskConfig)
    (recent_rows : list LoginEvent)
    (login_cities : gmap string Z)
    (login_hours_hist : gmap string Z)
    (device_trust : gmap string bool)
    (ip_city : string)
    (is_private_ip : bool)
    (device_hash : option string)
    (known_device : bool)
    (ip_changed : bool)
    (consecutive_fails : Z)
    (now : Py.datetime)
    (last_success_ts : option Py.datetime)
    (speed_kmh : option R)
    (known_device_first_seen : option Py.datetime)
  : Z * list Part * (list (string * R) * Notes) :=
  let '(feats, notes) :=
    login_features recent_rows login_cities login_hours_hist device_trust
      ip_city is_private_ip device_hash known_device ip_changed
      consecutive_fails now last_success_ts speed_kmh in
  let '(total, parts) := linear_score feats cfg in
  let total :=
    apply_post_rules total (note_prior_successes notes)
      known_device_first_seen now in
  (total, parts, (feats, notes)).

(** [get_config]: a copy of the fields of the global. *)
Definition get_config (CONFIG : RiskConfig) : RiskConfig := CONFIG.

(** [{k: float(v) for k, v in d.items()}]: evaluated in full, left to right,
    before [dict.update] runs. *)
Fixpoint float_items `{Py.Parsers} (items : list (string * Py.val))
  : Py.result (list (string * R)) :=
  match items with
  | [] => Py.Ok []
  | (k, v) :: rest =>
      Py.bind (Py.float v) (fun r =>
      Py.bind (float_items rest) (fun rs => Py.Ok ((k, r) :: rs)))
  end.

(** [d.update(new)]: later items win. *)
Definition dict_update (d : gmap string R) (new : list (string * R)) : gmap string R :=
  fold_left (fun m kv => <[fst kv := snd kv]> m) new d.

Definition set_weights (c : RiskConfig) (w : gmap string R) : RiskConfig :=
  {| weights := w; scale := scale c; intercept := intercept c;
     step_up_threshold := step_up_threshold c;
     hard_deny_threshold := hard_deny_threshold c |}.

Definition set_scale (c : RiskConfig) (x : R) : RiskConfig :=
  {| weights := weights c; scale := x; intercept := intercept c;
     step_up_threshold := step_up_threshold c;
     hard_deny_threshold := hard_deny_threshold c |}.

Definition set_intercept (c : RiskConfig) (x : R) : RiskConfig :=
  {| weights := weights c; scale := scale c; intercept := x;
     step_up_threshold := step_up_threshold c;
     hard_deny_threshold := hard_deny_threshold c |}.

Definition set_step_up_threshold (c : RiskConfig) (x : Z) : RiskConfig :=
  {| weights := weights c; scale := scale c; intercept := intercept c;
     step_up_threshold := x;
     hard_deny_threshold := hard_deny_threshold c |}.

Definition set_hard_deny_threshold (c : RiskConfig) (x : Z) : RiskConfig :=
  {| weights := weights c; scale := scale c; intercept := intercept c;
     step_up_threshold := step_up_threshold c;
     hard_deny_threshold := x |}.

(** One [if "key" in new_cfg: CONFIG.key = conv(new_cfg["key"])] statement.
    The result pairs the outcome with the global as the statement leaves
    it: an exception leaves the assignments already made in place. *)
Definition assign_field {A} (new_cfg : gmap string Py.val) (key : string)
    (conv : Py.val -> Py.result A) (set : RiskConfig -> A -> RiskConfig)
    (CONFIG : RiskConfig) : Py.result unit * RiskConfig :=
  match new_cfg !! key with
  | Some v =>
      match conv v with
      | Py.Ok a => (Py.Ok tt, set CONFIG a)
      | Py.Err e => (Py.Err e, CONFIG)
      end
  | None => (Py.Ok tt, CONFIG)
  end.

Definition assign_weights `{Py.Parsers} (new_cfg : gmap string Py.val)
    (CONFIG : RiskConfig) : Py.result unit * RiskConfig :=
  match new_cfg !! "weights" with
  | Some (Py.VDict items) =>
      match float_items items with
      | Py.Ok ws => (Py.Ok tt, set_weights CONFIG (dict_update (weights CONFIG) ws))
      | Py.Err e => (Py.Err e, CONFIG)
      end
  | _ => (Py.Ok tt, CONFIG)
  end.

(** Sequencing of statements that mutate the global. *)
Definition seq_stmt (s1 s2 : RiskConfig -> Py.result unit * RiskConfig)
    (CONFIG : RiskConfig) : Py.result unit * RiskConfig :=
  match s1 CONFIG with
  | (Py.Ok _, c1) => s2 c1
  | (Py.Err e, c1) => (Py.Err e, c1)
  end.

(** The five conditional assignments of [update_config], in order. *)
Definition update_statements `{Py.Parsers} (new_cfg : gmap string Py.val)
  : RiskConfig -> Py.result unit * RiskConfig :=
  seq_stmt (assign_weights new_cfg)
  (seq_stmt (assign_field new_cfg "scale" Py.float set_scale)
  (seq_stmt (assign_field new_cfg "intercept" Py.float set_intercept)
  (seq_stmt (assign_field new_cfg "step_up_threshold" Py.int set_step_up_threshold)
            (assign_field new_cfg "hard_deny_threshold" Py.int set_hard_deny_threshold)))).

(** [update_config]: the returned dictionary or the exception, and the
    global [CONFIG] afterwards. *)
Definition update_config `{Py.Parsers} (new_cfg : gmap string Py.val)
    (CONFIG : RiskConfig) : Py.result RiskConfig * RiskConfig :=
  match update_statements new_cfg CONFIG with
  | (Py.Ok _, c) => (Py.Ok (get_config c), c)
  | (Py.Err e, c) => (Py.Err e, c)
  end.

End RiskEngine.

(** ** app/threat_intel.py *)

Module ThreatIntel.

Definition TI_DEFAULT_SCORE_BUMPS : gmap string Z :=
  list_to_map
    [ ("ti_bad_ip", 30);
      ("ti_tor_exit", 25);
      ("ti_bad_asn", 15);
      ("ti_disposable_email", 15);
      ("ti_breached_cred", 0) ].

(** [TI_DEFAULT_SCORE_BUMPS[k]]; the table is constant and holds every key
    that the code indexes it with. *)
Definition bump (k : string) : Z := Py.get TI_DEFAULT_SCORE_BUMPS k 0.

(** The standard [ipaddress] module, as an interface: parsing of an address
    ([None] for the exception) and membership of an address in a network. *)
Class IpAddress := {
  ip_addr : Type;
  ip_net : Type;
  ip_address : string -> option ip_addr;
  net_contains : ip_net -> ip_addr -> bool
}.

Section Lookup.
Context `{IpAddress}.

(** The feeds held in [_STATE]. *)
Record State := {
  ip_bad : list ip_net;
  ip_tor : list ip_net;
  asn_bad : gset string;
  bad_domains : gset string
}.

Definition _asn_for_ip (ip : string) : option string := None.

Definition _ip_in (nets : list ip_net) (ip : string) : bool :=
  match ip_address ip with
  | None => false
  | Some ip_obj => existsb (fun n => net_contains n ip_obj) nets
  end.

(** The dictionary returned by [lookup_ip]. *)
Record IpFlags := {
  ti_bad_ip : bool;
  ti_tor_exit : bool;
  ti_bad_asn : bool;
  ti_asn : option string;
  ti_labels : list string;
  ti_score_bump_suggest : Z
}.

Definition no_flags : IpFlags :=
  {| ti_bad_ip := false; ti_tor_exit := false; ti_bad_asn := false;
     ti_asn := None; ti_labels := []; ti_score_bump_suggest := 0 |}.

Definition mark_bad_ip (out : IpFlags) : IpFlags :=
  {| ti_bad_ip := true; ti_tor_exit := ti_tor_exit out;
     ti_bad_asn := ti_bad_asn out; ti_asn := ti_asn out;
     ti_labels := ti_labels out ++ ["bad_ip"];
     ti_score_bump_suggest := ti_score_bump_suggest out + bump "ti_bad_ip" |}.

Definition mark_tor_exit (out : IpFlags) : IpFlags :=
  {| ti_bad_ip := ti_bad_ip out; ti_tor_exit := true;
     ti_bad_asn := ti_bad_asn out; ti_asn := ti_asn out;
     ti_labels := ti_labels out ++ ["tor_exit"];
     ti_score_bump_suggest := ti_score_bump_suggest out + bump "ti_tor_exit" |}.

Definition set_asn (out : IpFlags) (asn : string) : IpFlags :=
  {| ti_bad_ip := ti_bad_ip out; ti_tor_exit := ti_tor_exit out;
     ti_bad_asn := ti_bad_asn out; ti_asn := Some asn;
     ti_labels := ti_labels out;
     ti_score_bump_suggest := ti_score_bump_suggest out |}.

Definition mark_bad_asn (out : IpFlags) (asn : string) : IpFlags :=
  {| ti_bad_ip := ti_bad_ip out; ti_tor_exit := ti_tor_exit out;
     ti_bad_asn := true; ti_asn := ti_asn out;
     ti_labels := ti_labels out ++ [String.append "bad_asn:" asn];
     ti_score_bump_suggest := ti_score_bump_suggest out + bump "ti_bad_asn" |}.

(** [lookup_ip], as a function of the feeds it reads (the source memoises
    it with [lru_cache]; this is the memoised function). *)
Definition lookup_ip (TI_ENABLE : bool) (_STATE : State) (ip : string) : IpFlags :=
  let out := no_flags in
  if negb TI_ENABLE then out
  else
    match ip_address ip with
    | None => out
    | Some _ =>
        let out := if _ip_in (ip_bad _STATE) ip then mark_bad_ip out else out in
        let out := if _ip_in (ip_tor _STATE) ip then mark_tor_exit out else out in
        match _asn_for_ip ip with
        | Some asn =>
            if negb (String.eqb asn "") then
              let out := set_asn out asn in
              if bool_decide (asn ∈ asn_bad _STATE) then mark_bad_asn out asn else out
            else out
        | None => out
        end
    end.

(** [email.split("@", 1)[1]] when ["@" in email]. *)
Fixpoint after_at (email : string) : option string :=
  match email with
  | EmptyString => None
  | String c rest => if Ascii.eqb c "@" then Some rest else after_at rest
  end.

Definition is_space (c : ascii) : bool :=
  let n := nat_of_ascii c in
  ((Nat.leb 9 n && Nat.leb n 13) || (Nat.leb 28 n && Nat.leb n 32))%bool.

Fixpoint lstrip (s : string) : string :=
  match s with
  | EmptyString => EmptyString
  | String c rest => if is_space c then lstrip rest else s
  end.

Fixpoint rstrip (s : string) : string :=
  match s with
  | EmptyString => EmptyString
  | String c rest =>
      match rstrip rest with
      | EmptyString => if is_space c then EmptyString else String c EmptyString
      | r => String c r
      end
  end.

Definition strip (s : string) : string := rstrip (lstrip s).

Record EmailFlags := { ti_disposable_email : bool; domain : option string }.

Definition check_email_domain (TI_ENABLE : bool) (_STATE : State) (email : string)
  : EmailFlags :=
  let out := {| ti_disposable_email := false; domain := None |} in
  if negb TI_ENABLE || String.eqb email "" then out
  else
    match after_at email with
    | None => out
    | Some d =>
        let domain := Py.lower (strip d) in
        {| ti_disposable_email := bool_decide (domain ∈ bad_domains _STATE);
           domain := Some domain |}
    end.

(** [check_breached_cred]: the placeholder always answers [False]. *)
Definition check_breached_cred (email : string) : bool := false.

End Lookup.

End ThreatIntel.

(** ** app/main.py *)

Module Main.

Import RiskEngine.

(** The module globals that [login] and [put_risk_config] share. *)
Record Globals := {
  RISK_STEP_UP_THRESHOLD : Z;
  RISK_HARD_DENY : Z;
  CONFIG : RiskConfig
}.

(** Lines 181-184: the thresholds are read from the environment at import
    and copied into [risk_engine.CONFIG]. *)
Definition startup (env_step_up env_hard_deny : Z) : Globals :=
  {| RISK_STEP_UP_THRESHOLD := env_step_up;
     RISK_HARD_DENY := env_hard_deny;
     CONFIG := set_hard_deny_threshold
                 (set_step_up_threshold CONFIG_initial env_step_up)
                 env_hard_deny |}.

(** Rendering of a float with the format [+.2f], used for the trace; part
    of the interpreter. *)
Class FloatFormat := { format_signed_2f : R -> string }.

(** [f"{k} × {w:+.2f} -> {v*w:+.2f}"]. *)
Definition render_part `{FloatFormat} (p : Part) : string :=
  String.append (part_name p)
    (String.append " × "
      (String.append (format_signed_2f (part_weight p))
        (String.append " -> " (format_signed_2f (part_contribution p))))).

(** ["|".join(parts)]. *)
Fixpoint join_bar (parts : list string) : string :=
  match parts with
  | [] => ""
  | [p] => p
  | p :: rest => String.append p (String.append "|" (join_bar rest))
  end.

(** [login], lines 350-367: the threat-intelligence bumps applied after
    [score_login]; returns [total_score] and the extended trace. *)
Definition login_ti_fusion
    (base_score : Z) (parts : list string)
    (ti_ip : ThreatIntel.IpFlags) (ti_email : ThreatIntel.EmailFlags)
    (ti_breach : bool) : Z * list string :=
  let extra := ThreatIntel.ti_score_bump_suggest ti_ip in
  let '(extra, parts) :=
    if ThreatIntel.ti_disposable_email ti_email
    then (extra + ThreatIntel.bump "ti_disposable_email",
          parts ++ [String.append "ti_disposable_email +" (pretty (ThreatIntel.bump "ti_disposable_email"))])
    else (extra, parts) in
  let '(extra, parts) :=
    if ti_breach
    then (extra + ThreatIntel.bump "ti_breached_cred",
          parts ++ [String.append "ti_breached_cred +" (pretty (ThreatIntel.bump "ti_breached_cred"))])
    else (extra, parts) in
  let parts :=
    if ThreatIntel.ti_bad_ip ti_ip
    then parts ++ [String.append "ti_bad_ip +" (pretty (ThreatIntel.bump "ti_bad_ip"))]
    else parts in
  let parts :=
    if ThreatIntel.ti_tor_exit ti_ip
    then parts ++ [String.append "ti_tor_exit +" (pretty (ThreatIntel.bump "ti_tor_exit"))]
    else parts in
  let parts :=
    if ThreatIntel.ti_bad_asn ti_ip
    then parts ++ [String.append "ti_bad_asn +" (pretty (ThreatIntel.bump "ti_bad_asn"))]
    else parts in
  let total_score := Z.min 100 (base_score + extra) in
  (total_score, parts).

(** What [login] answers once the password is verified. *)
Inductive LoginResponse :=
| HTTPException (status_code : Z) (detail : string)
| Token (risk_score : Z) (step_up_required : bool) (message : string).

(** [login], lines 369-416: the decision on the fused score.  The result
    is the [LoginEvent] row that is committed and the response; the
    bookkeeping of the device record and the issue of the access token,
    which do not influence the decision, are left out. *)
Definition login_decision
    (g : Globals) (recent : list LoginEvent) (total_score : Z)
    (parts : list string) (ip : option string) (device_hash : option string)
    (now : Py.datetime) : LoginEvent * LoginResponse :=
  let had_success := existsb ev_success recent in
  if (RISK_HARD_DENY g <=? total_score) && had_success then
    ({| ev_ip := ip; ev_device_hash := device_hash; ev_success := false;
        ev_ts := now; ev_risk_score := total_score;
        ev_risk_reason := String.append "hard_deny|" (join_bar parts) |},
     HTTPException 403 "Login blocked for security")
  else
    let step_up := RISK_STEP_UP_THRESHOLD g <=? total_score in
    ({| ev_ip := ip; ev_device_hash := device_hash; ev_success := true;
        ev_ts := now; ev_risk_score := total_score;
        ev_risk_reason := join_bar parts |},
     Token total_score step_up (if step_up then "step-up suggested" else "ok")).

(** The three outcomes of the decision policy, read off the response. *)
Inductive Decision := ALLOW | STEP_UP | HARD_DENY.

Definition decision_of (r : LoginResponse) : Decision :=
  match r with
  | HTTPException _ _ => HARD_DENY
  | Token _ true _ => STEP_UP
  | Token _ false _ => ALLOW
  end.

(** [schemas.RiskConfigIn]: every field is optional; the outer [option]
    records whether the request set the field at all, which is what
    [model_to_dict(body, exclude_unset=True)] keeps. *)
Record RiskConfigIn := {
  in_weights : option (option (list (string * R)));
  in_scale : option (option R);
  in_intercept : option (option R);
  in_step_up_threshold : option (option Z);
  in_hard_deny_threshold : option (option Z)
}.

Definition opt_val {A} (f : A -> Py.val) (o : option A) : Py.val :=
  match o with Some a => f a | None => Py.VNone end.

Definition put_field {A} (key : string) (f : A -> Py.val)
    (fld : option (option A)) (d : gmap string Py.val) : gmap string Py.val :=
  match fld with
  | Some o => <[key := opt_val f o]> d
  | None => d
  end.

Definition model_to_dict_exclude_unset (body : RiskConfigIn) : gmap string Py.val :=
  put_field "weights"
    (fun ws => Py.VDict (map (fun kv => (fst kv, Py.VFloat (snd kv))) ws))
    (in_weights body)
  (put_field "scale" Py.VFloat (in_scale body)
  (put_field "intercept" Py.VFloat (in_intercept body)
  (put_field "step_up_threshold" Py.VInt (in_step_up_threshold body)
  (put_field "hard_deny_threshold" Py.VInt (in_hard_deny_threshold body) ∅)))).

(** [put_risk_config]: the response or the exception, and the globals
    afterwards. *)
Definition put_risk_config `{Py.Parsers} (body : RiskConfigIn) (g : Globals)
  : Py.result RiskConfig * Globals :=
  match update_config (model_to_dict_exclude_unset body) (CONFIG g) with
  | (Py.Ok updated, c) =>
      (Py.Ok updated,
       {| RISK_STEP_UP_THRESHOLD := step_up_threshold updated;
          RISK_HARD_DENY := hard_deny_threshold updated;
          CONFIG := c |})
  | (Py.Err e, c) =>
      (Py.Err e,
       {| RISK_STEP_UP_THRESHOLD := RISK_STEP_UP_THRESHOLD g;
          RISK_HARD_DENY := RISK_HARD_DENY g;
          CONFIG := c |})
  end.

(** One entry of [tx_category_stats]: [{"n": .., "median": .., "mad": ..}]. *)
Record CatStats := { n : Z; median : R; mad : R }.

(** The columns of [models.UserIntel]. *)
Record UserIntel := {
  login_hours_hist : gmap string Z;
  login_cities : gmap string Z;
  device_trust : gmap string bool;
  tx_category_stats : gmap string CatStats;
  tx_merchant_counts : gmap string Z
}.

(** The row that [_get_or_create_intel] creates: a zero-filled histogram
    over the 24 hours and empty maps. *)
Definition new_intel : UserIntel :=
  {| login_hours_hist := list_to_map (map (fun h => (pretty h, 0)) (seqZ 0 24));
     login_cities := ∅;
     device_trust := ∅;
     tx_category_stats := ∅;
     tx_merchant_counts := ∅ |}.

Definition _get_or_create_intel (db : gmap Z UserIntel) (user_id : Z)
  : UserIntel * gmap Z UserIntel :=
  match db !! user_id with
  | Some intel => (intel, db)
  | None => (new_intel, <[user_id := new_intel]> db)
  end.

(** The statistics update of [_learn_tx] for one category entry. *)
Definition learn_stats (s : CatStats) (amount : R) : CatStats :=
  let alpha := 0.1%R in
  let '(median', mad') :=
    if n s =? 0 then (amount, 0.0%R)
    else
      let median' := ((1 - alpha) * median s + alpha * amount)%R in
      (median', ((1 - alpha) * mad s + alpha * Rabs (amount - median'))%R) in
  {| n := n s + 1; median := median'; mad := mad' |}.

Definition zero_stats : CatStats := {| n := 0; median := 0.0%R; mad := 0.0%R |}.

(** [_learn_tx] on the intel row of the user. *)
Definition learn_tx_intel (intel : UserIntel) (amount : R) (category : string)
    (merchant : option string) : UserIntel :=
  let stats := tx_category_stats intel in
  let s := Py.get stats category zero_stats in
  let stats := <[category := learn_stats s amount]> stats in
  let mcounts := tx_merchant_counts intel in
  let mcounts :=
    if str_truthy merchant then
      let key := Py.lower (str_or_empty merchant) in
      <[key := Py.get mcounts key 0 + 1]> mcounts
    else mcounts in
  {| login_hours_hist := login_hours_hist intel;
     login_cities := login_cities intel;
     device_trust := device_trust intel;
     tx_category_stats := stats;
     tx_merchant_counts := mcounts |}.

Definition _learn_tx (db : gmap Z UserIntel) (user_id : Z) (amount : R)
    (category : string) (merchant : option string) : gmap Z UserIntel :=
  let '(intel, db) := _get_or_create_intel db user_id in
  <[user_id := learn_tx_intel intel amount category merchant]> db.

(** Replaying a sequence of amounts of one category for one user. *)
Definition replay (db : gmap Z UserIntel) (user_id : Z) (category : string)
    (amounts : list R) : gmap Z UserIntel :=
  fold_left (fun db a => _learn_tx db user_id a category None) amounts db.

(** The statistics of a category after the replay; zero when absent. *)
Definition stats_of (db : gmap Z UserIntel) (user_id : Z) (category : string)
  : CatStats :=
  match db !! user_id with
  | Some intel => Py.get (tx_category_stats intel) category zero_stats
  | None => zero_stats
  end.

End Main.

(** ** app/anomaly_engine.py *)

Module AnomalyEngine.

(** A transaction row, [Dict[str, Any]]. *)
Abbreviation Row := (gmap string Py.val).

(** A [numpy] matrix, row by row. *)
Abbreviation Matrix := (list (list R)).

(** A [details] dictionary. *)
Abbreviation Details := (gmap string Py.val).

(** [_stable_hash]: FNV-1a on 32 bits. *)
Definition fnv_step (h : Z) (ch : ascii) : Z :=
  Z.land (Z.lxor h (Z.of_nat (nat_of_ascii ch)) * 16777619) 4294967295.

Definition _stable_hash (s : string) : Z :=
  if String.eqb s "" then 0
  else fold_left fnv_step (list_ascii_of_string s) 2166136261.

(** [x or d]. *)
Definition or_else (x d : Py.val) : Py.val := if Py.truthy x then x else d.

(** [v.upper()] and [v.lower()] are methods of [str] only. *)
Definition str_upper (v : Py.val) : Py.result string :=
  match v with
  | Py.VStr s => Py.Ok (Py.upper s)
  | _ => Py.Err (Py.Raise Py.AttributeError "object has no attribute 'upper'")
  end.

Definition str_lower (v : Py.val) : Py.result string :=
  match v with
  | Py.VStr s => Py.Ok (Py.lower s)
  | _ => Py.Err (Py.Raise Py.AttributeError "object has no attribute 'lower'")
  end.

(** The loop body of [featurize_rows]. *)
Definition featurize_row `{Py.Parsers} (r : Row) : Py.result (list R) :=
  Py.bind (Py.float (or_else (default (Py.VFloat 0.0) (r !! "amount")) (Py.VFloat 0.0))) (fun amt =>
  Py.bind (str_upper (or_else (default Py.VNone (r !! "category")) (Py.VStr ""))) (fun cat =>
  Py.bind (str_lower (or_else (default Py.VNone (r !! "merchant")) (Py.VStr ""))) (fun merch =>
    let log_amt := ln (1 + Rmax amt 0.0) in
    let cat_bucket := _stable_hash cat mod 1000 in
    let merch_bucket := _stable_hash merch mod 2000 in
    Py.Ok [ log_amt; (IZR cat_bucket / 999.0)%R; (IZR merch_bucket / 1999.0)%R ]))).

Fixpoint featurize_rows `{Py.Parsers} (rows : list Row) : Py.result Matrix :=
  match rows with
  | [] => Py.Ok []
  | r :: rest =>
      Py.bind (featurize_row r) (fun x =>
      Py.bind (featurize_rows rest) (fun xs => Py.Ok (x :: xs)))
  end.

Record IFConfig := {
  contamination : R;
  n_estimators : Z;
  random_state : Z;
  if_min_train_rows : Z
}.

Definition IFConfig_default : IFConfig :=
  {| contamination := 0.08%R; n_estimators := 200; random_state := 42;
     if_min_train_rows := 10 |}.

Record AEConfig := {
  ae_min_train_rows : Z;
  epochs : Z;
  batch_size : Z;
  lr : R;
  hidden_dim : Z;
  bottleneck_dim : Z;
  device : string;
  score_percentile : R
}.

Definition AEConfig_default : AEConfig :=
  {| ae_min_train_rows := 40; epochs := 40; batch_size := 64; lr := 1e-3%R;
     hidden_dim := 16; bottleneck_dim := 4; device := "cpu";
     score_percentile := 95.0%R |}.

Record DetectorConfig := {
  method : option string;
  iforest_cfg : IFConfig;
  autoenc_cfg : AEConfig
}.

Definition DetectorConfig_default : DetectorConfig :=
  {| method := Some "auto"; iforest_cfg := IFConfig_default;
     autoenc_cfg := AEConfig_default |}.

(** scikit-learn, PyTorch and numpy, as an interface.  Every call may raise.
    [ae_train_loop] is the optimisation loop of [AutoencoderDetector.train]:
    it updates the network in place, so it yields the network as the loop
    leaves it together with the outcome.  A fitted scaler or model is a
    truthy object. *)
Class Backend := {
  TORCH_AVAILABLE : bool;
  scaler : Type;
  if_model : Type;
  ae_model : Type;
  StandardScaler_fit : Matrix -> Py.result scaler;
  scaler_transform : scaler -> Matrix -> Py.result Matrix;
  IsolationForest_fit : IFConfig -> Matrix -> Py.result if_model;
  decision_function : if_model -> Matrix -> Py.result (list R);
  AE_new : AEConfig -> Matrix -> Py.result ae_model;
  ae_train_loop : AEConfig -> ae_model -> Matrix -> Py.result unit * ae_model;
  ae_forward : ae_model -> Matrix -> Py.result Matrix;
  np_percentile : list R -> R -> Py.result R
}.

(** Computations that read and write the attributes of an object and may
    raise: the outcome and the attributes afterwards. *)
Definition M (S A : Type) : Type := S -> Py.result A * S.

Definition ret {S A} (a : A) : M S A := fun s => (Py.Ok a, s).

Definition raise {S A} (e : Py.exn) : M S A := fun s => (Py.Err e, s).

Definition lift {S A} (r : Py.result A) : M S A := fun s => (r, s).

Definition mbind {S A B} (m : M S A) (k : A -> M S B) : M S B :=
  fun s =>
    match m s with
    | (Py.Ok a, s') => k a s'
    | (Py.Err e, s') => (Py.Err e, s')
    end.

Definition modify {S} (f : S -> S) : M S unit := fun s => (Py.Ok tt, f s).

Definition gets {S A} (f : S -> A) : M S A := fun s => (Py.Ok (f s), s).

(** [try: m except Exception as e: h e]. *)
Definition try_except {S A} (m : M S A) (h : Py.exn -> M S A) : M S A :=
  fun s =>
    match m s with
    | (Py.Ok a, s') => (Py.Ok a, s')
    | (Py.Err e, s') => h e s'
    end.

Notation "'let*' x ':=' m 'in' k" := (mbind m (fun x => k))
  (at level 10, x pattern, m at level 100, k at level 200).

Notation "m ';;' k" := (mbind m (fun _ => k))
  (at level 100, k at level 200, right associativity).

Section Detectors.
Context `{Py.Parsers} `{Backend}.

(** The attributes of an [IsolationForestDetector] ([cfg] is never
    assigned after construction and is passed along). *)
Record IFState := {
  if_scaler : option scaler;
  if_fitted : option if_model
}.

Definition IFState_init : IFState := {| if_scaler := None; if_fitted := None |}.

Definition if_set_model (m : option if_model) (s : IFState) : IFState :=
  {| if_scaler := if_scaler s; if_fitted := m |}.

Definition if_set_scaler (sc : option scaler) (s : IFState) : IFState :=
  {| if_scaler := sc; if_fitted := if_fitted s |}.

Definition len {A} (l : list A) : Z := Z.of_nat (length l).

(** [IsolationForestDetector.train]. *)
Definition if_train (cfg : IFConfig) (rows : list Row) : M IFState Z :=
  if len rows <? if_min_train_rows cfg then
    modify (if_set_model None) ;; ret 0
  else
    let* X := lift (featurize_rows rows) in
    let* sc := lift (StandardScaler_fit X) in
    modify (if_set_scaler (Some sc)) ;;
    let* Xs := lift (scaler_transform sc X) in
    let* m := lift (IsolationForest_fit cfg Xs) in
    modify (if_set_model (Some m)) ;;
    ret (len rows).

(** [np.clip(x, lo, hi)]. *)
Definition np_clip (x lo hi : R) : R := Rmin (Rmax x lo) hi.

(** [xs[0]]. *)
Definition index0 {A} (xs : list A) : Py.result A :=
  match xs with
  | x :: _ => Py.Ok x
  | [] => Py.Err (Py.Raise Py.IndexError "index 0 is out of bounds")
  end.

Definition not_trained : Z * Details :=
  (0, {[ "reason" := Py.VStr "model_not_trained" ]}).

(** [IsolationForestDetector.score_one]. *)
Definition if_score_one (row : Row) : M IFState (Z * Details) :=
  let* st := gets (fun s => s) in
  match if_fitted st, if_scaler st with
  | Some model, Some sc =>
      let* X := lift (featurize_rows [row]) in
      let* Xs := lift (scaler_transform sc X) in
      let* raws := lift (decision_function model Xs) in
      let* raw := lift (index0 raws) in
      let score := Py.trunc (np_clip ((0.5 - raw) * 100.0) 0.0 100.0) in
      ret (score, {[ "raw_score" := Py.VFloat raw ]})
  | _, _ => ret not_trained
  end.

(** The attributes of an [AutoencoderDetector]. *)
Record AEState := {
  ae_scaler : option scaler;
  ae_fitted : option ae_model;
  thresholds : gmap string R
}.

Definition AEState_init : AEState :=
  {| ae_scaler := None; ae_fitted := None; thresholds := ∅ |}.

Definition ae_set_model (m : option ae_model) (s : AEState) : AEState :=
  {| ae_scaler := ae_scaler s; ae_fitted := m; thresholds := thresholds s |}.

Definition ae_set_scaler (sc : option scaler) (s : AEState) : AEState :=
  {| ae_scaler := sc; ae_fitted := ae_fitted s; thresholds := thresholds s |}.

Definition ae_set_thresholds (t : gmap string R) (s : AEState) : AEState :=
  {| ae_scaler := ae_scaler s; ae_fitted := ae_fitted s; thresholds := t |}.

Definition _ensure_torch {S} : M S unit :=
  if TORCH_AVAILABLE then ret tt
  else raise (Py.Raise Py.RuntimeError
         "PyTorch is not available. Install torch to use autoencoder mode.").

Definition sum_R (xs : list R) : R := fold_left Rplus xs 0%R.

Definition mean_R (xs : list R) : R := (sum_R xs / IZR (len xs))%R.

(** Squared differences of two rows, entry by entry. *)
Fixpoint sq_diff (a b : list R) : list R :=
  match a, b with
  | x :: a', y :: b' => ((x - y) * (x - y))%R :: sq_diff a' b'
  | _, _ => []
  end.

(** [np.mean((recon - Xs) ** 2, axis=1)]. *)
Fixpoint mse_rows (recon Xs : Matrix) : list R :=
  match recon, Xs with
  | r :: recon', x :: Xs' => mean_R (sq_diff r x) :: mse_rows recon' Xs'
  | _, _ => []
  end.

(** [float(np.mean((y - Xs) ** 2))] over all entries. *)
Definition mse_all (y Xs : Matrix) : R :=
  mean_R (concat (map (fun p => sq_diff (fst p) (snd p)) (combine y Xs))).

(** In-place training of the network held in [self.model]. *)
Definition ae_run_loop (cfg : AEConfig) (Xs : Matrix) : M AEState unit :=
  fun s =>
    match ae_fitted s with
    | Some m =>
        let '(r, m') := ae_train_loop cfg m Xs in
        (r, ae_set_model (Some m') s)
    | None => (Py.Ok tt, s)
    end.

(** [AutoencoderDetector.train]. *)
Definition ae_train (cfg : AEConfig) (rows : list Row) : M AEState Z :=
  _ensure_torch ;;
  if len rows <? ae_min_train_rows cfg then
    modify (ae_set_model None) ;; ret 0
  else
    let* X := lift (featurize_rows rows) in
    let* sc := lift (StandardScaler_fit X) in
    modify (ae_set_scaler (Some sc)) ;;
    let* Xs := lift (scaler_transform sc X) in
    let* m := lift (AE_new cfg Xs) in
    modify (ae_set_model (Some m)) ;;
    ae_run_loop cfg Xs ;;
    let* st := gets (fun s => s) in
    let* recon :=
      lift (match ae_fitted st with
            | Some m => ae_forward m Xs
            | None => Py.Ok []
            end) in
    let err := mse_rows recon Xs in
    let* p95 := lift (np_percentile err (score_percentile cfg)) in
    let* p99 := lift (np_percentile err 99.0%R) in
    let* med := lift (np_percentile err 50.0%R) in
    modify (ae_set_thresholds
              (<["median" := med]> (<["p99" := p99]> (<["p95" := p95]> ∅)))) ;;
    ret (len rows).

(** [AutoencoderDetector.score_one]. *)
Definition ae_score_one (cfg : AEConfig) (row : Row) : M AEState (Z * Details) :=
  _ensure_torch ;;
  let* st := gets (fun s => s) in
  match ae_fitted st, ae_scaler st with
  | Some model, Some sc =>
      let* X := lift (featurize_rows [row]) in
      let* Xs := lift (scaler_transform sc X) in
      let* y := lift (ae_forward model Xs) in
      let err := mse_all y Xs in
      let p95 := Py.get (thresholds st) "p95" err in
      let p99 := Py.get (thresholds st) "p99" (Rmax err (p95 + 1e-6)) in
      let score :=
        if Rle_dec err p95 then
          Py.trunc (np_clip (err / (p95 + 1e-9) * 50.0) 0.0 50.0)
        else
          50 + Py.trunc (np_clip ((err - p95) / (p99 - p95 + 1e-9) * 50.0) 0.0 50.0) in
      ret (score, (Py.VFloat <$> thresholds st) ∪ {[ "recon_error" := Py.VFloat err ]})
  | _, _ => ret not_trained
  end.

(** The attributes of an [AnomalyDetector]. *)
Record DetState := {
  iforest : IFState;
  autoenc : AEState
}.

Definition DetState_init : DetState :=
  {| iforest := IFState_init; autoenc := AEState_init |}.

(** Running a method of [self.iforest] or [self.autoenc]. *)
Definition on_iforest {A} (m : M IFState A) : M DetState A :=
  fun s =>
    let '(r, i) := m (iforest s) in
    (r, {| iforest := i; autoenc := autoenc s |}).

Definition on_autoenc {A} (m : M AEState A) : M DetState A :=
  fun s =>
    let '(r, a) := m (autoenc s) in
    (r, {| iforest := iforest s; autoenc := a |}).

(** The tuple [(used, n_train, score, details)] of the two local helpers. *)
Definition Tried : Type := string * Z * Z * Details.

Definition _try_iforest (cfg : DetectorConfig) (hist_rows : list Row)
    (newest_row : Row) : M DetState Tried :=
  let* n := on_iforest (if_train (iforest_cfg cfg) hist_rows) in
  let* sd := on_iforest (if_score_one newest_row) in
  ret ("iforest", n, fst sd, snd sd).

Definition _try_autoenc (cfg : DetectorConfig) (hist_rows : list Row)
    (newest_row : Row) : M DetState Tried :=
  let* n := on_autoenc (ae_train (autoenc_cfg cfg) hist_rows) in
  let* sd := on_autoenc (ae_score_one (autoenc_cfg cfg) newest_row) in
  ret ("autoenc", n, fst sd, snd sd).

(** [{"fallback": "iforest", "reason": str(e), **details}]: the entries of
    [details] are written last and win. *)
Definition with_fallback (e : Py.exn) (details : Details) : Details :=
  details ∪ <["reason" := Py.VStr (Py.str_exn e)]>
              (<["fallback" := Py.VStr "iforest"]> ∅).

(** The returned tuple [(method_used, score, details, n_train)]. *)
Definition Scored : Type := string * Z * Details * Z.

Definition returned (t : Tried) : Scored :=
  let '(used, n_train, score, details) := t in (used, score, details, n_train).

Definition fallback_handler (cfg : DetectorConfig) (hist_rows : list Row)
    (newest_row : Row) (e : Py.exn) : M DetState Scored :=
  let* t := _try_iforest cfg hist_rows newest_row in
  let '(used, n_train, score, details) := t in
  ret (used, score, with_fallback e details, n_train).

(** [(force_method or self.cfg.method or "auto").lower()]. *)
Definition chosen_method (cfg : DetectorConfig) (force_method : option string)
  : string :=
  Py.lower
    (if RiskEngine.str_truthy force_method then default "" force_method
     else if RiskEngine.str_truthy (method cfg) then default "" (method cfg)
     else "auto").

(** [AnomalyDetector.train_and_score]. *)
Definition train_and_score (cfg : DetectorConfig) (hist_rows : list Row)
    (newest_row : Row) (force_method : option string) : M DetState Scored :=
  let method := chosen_method cfg force_method in
  if String.eqb method "iforest" then
    let* t := _try_iforest cfg hist_rows newest_row in
    ret (returned t)
  else if String.eqb method "autoenc" then
    try_except
      (let* t := _try_autoenc cfg hist_rows newest_row in
       let '(used, n_train, score, details) := t in
       if n_train =? 0 then
         let* t := _try_iforest cfg hist_rows newest_row in
         ret (returned t)
       else ret (used, score, details, n_train))
      (fallback_handler cfg hist_rows newest_row)
  else if TORCH_AVAILABLE && (ae_min_train_rows (autoenc_cfg cfg) <=? len hist_rows) then
    try_except
      (let* t := _try_autoenc cfg hist_rows newest_row in
       ret (returned t))
      (fallback_handler cfg hist_rows newest_row)
  else
    let* t := _try_iforest cfg hist_rows newest_row in
    ret (returned t).

(** The outcome of [_try_iforest] as a function of its arguments alone:
    training overwrites the attributes that scoring reads, so the outcome
    does not depend on the attributes the detector had before (lemma
    [try_iforest_outcome] below). *)
Definition iforest_outcome (cfg : DetectorConfig) (hist_rows : list Row)
    (newest_row : Row) : Py.result Tried :=
  if len hist_rows <? if_min_train_rows (iforest_cfg cfg) then
    Py.Ok ("iforest", 0, 0, {[ "reason" := Py.VStr "model_not_trained" ]})
  else
    Py.bind (featurize_rows hist_rows) (fun X =>
    Py.bind (StandardScaler_fit X) (fun sc =>
    Py.bind (scaler_transform sc X) (fun Xs =>
    Py.bind (IsolationForest_fit (iforest_cfg cfg) Xs) (fun model =>
    Py.bind (featurize_rows [newest_row]) (fun X1 =>
    Py.bind (scaler_transform sc X1) (fun Xs1 =>
    Py.bind (decision_function model Xs1) (fun raws =>
    Py.bind (index0 raws) (fun raw =>
      Py.Ok ("iforest", len hist_rows,
             Py.trunc (np_clip ((0.5 - raw) * 100.0) 0.0 100.0),
             {[ "raw_score" := Py.VFloat raw ]}))))))))).

End Detectors.

End AnomalyEngine.

(** ** Definitions that follow the wording of the specification, and
    concrete instances of the interfaces *)

Module Spec.

Import RiskEngine.

(** The logistic function of the specification's formula. *)
Definition sigmoid (z : R) : R := (1 / (1 + exp (- z)))%R.

(** The weight of a feature: the configured one, 0.0 when the name is
    absent from the configuration. *)
Definition weight (cfg : RiskConfig) (k : string) : R :=
  match weights cfg !! k with
  | Some w => w
  | None => 0%R
  end.

(** The sum of [weight[k] * f[k]] over the entries of a feature vector. *)
Fixpoint weighted_sum (cfg : RiskConfig) (f : list (string * R)) : R :=
  match f with
  | [] => 0%R
  | (k, v) :: rest => (weight cfg k * v + weighted_sum cfg rest)%R
  end.

(** [round(100 * sigmoid(intercept + scale * (bias + sum)))], clamped. *)
Definition linear_score_formula (f : list (string * R)) (cfg : RiskConfig) : Z :=
  let z := (intercept cfg + scale cfg * (weight cfg "bias" + weighted_sum cfg f))%R in
  Z.max 0 (Z.min 100 (Py.round (100 * sigmoid z))).

(** Days since the device was first seen, as the calibrator counts them. *)
Definition days_since_first_seen (now first_seen : Py.datetime) : Z :=
  Z.max (Py.timedelta_days now first_seen) 0.

(** The half-life factor [0.5 ^ (days / 30)]. *)
Definition decay_factor (days : Z) : R := Rpower 0.5 (IZR days / 30).

(** First correction: the cold-start cap. *)
Definition cold_start_cap (prior_successes total : Z) : Z :=
  if prior_successes =? 0 then Z.min total 55 else total.

(** Second correction: the device-age decay of an integer score. *)
Definition device_age_decay (first_seen : option Py.datetime)
    (now : Py.datetime) (total : Z) : Z :=
  match first_seen with
  | Some fs =>
      if 0 <? days_since_first_seen now fs
      then Py.round (IZR total * decay_factor (days_since_first_seen now fs))
      else total
  | None => total
  end.

(** A feature is the indicator of a condition: 1 when it holds, 0 when it
    does not. *)
Definition indicator (f : list (string * R)) (k : string) (P : Prop) : Prop :=
  (feature f k = Some 1%R /\ P) \/ (feature f k = Some 0%R /\ ~ P).

(** The thresholds that [login] compares with are those of the
    configuration. *)
Definition aligned (g : Main.Globals) : Prop :=
  Main.RISK_STEP_UP_THRESHOLD g = step_up_threshold (Main.CONFIG g) /\
  Main.RISK_HARD_DENY g = hard_deny_threshold (Main.CONFIG g).

(** The account has a successful login among the events before the
    candidate. *)
Definition had_prior_success (recent : list LoginEvent) : Prop :=
  exists e, In e recent /\ ev_success e = true.

(** The reputation flags with the key of their bump. *)
Definition applicable_bumps (bad_ip tor_exit bad_asn disposable breached : bool)
  : list string :=
  (if bad_ip then ["ti_bad_ip"] else []) ++
  (if tor_exit then ["ti_tor_exit"] else []) ++
  (if bad_asn then ["ti_bad_asn"] else []) ++
  (if disposable then ["ti_disposable_email"] else []) ++
  (if breached then ["ti_breached_cred"] else []).

Definition sum_bumps (keys : list string) : Z :=
  fold_right (fun k acc => ThreatIntel.bump k + acc) 0 keys.

(** The fields of the configuration in the order [update_config] assigns
    them. *)
Inductive Field := FWeights | FScale | FIntercept | FStepUp | FHardDeny.

Definition field_index (f : Field) : nat :=
  match f with
  | FWeights => 0 | FScale => 1 | FIntercept => 2 | FStepUp => 3 | FHardDeny => 4
  end.

(** A field keeps its prior value. *)
Definition retained (f : Field) (before after : RiskConfig) : Prop :=
  match f with
  | FWeights => weights after = weights before
  | FScale => scale after = scale before
  | FIntercept => intercept after = intercept before
  | FStepUp => step_up_threshold after = step_up_threshold before
  | FHardDeny => hard_deny_threshold after = hard_deny_threshold before
  end.

(** The value of a field in the update cannot be converted. *)
Definition malformed `{Py.Parsers} (new_cfg : gmap string Py.val) (f : Field) : bool :=
  match f with
  | FWeights =>
      match new_cfg !! "weights" with
      | Some (Py.VDict items) => negb (Py.is_ok (float_items items))
      | _ => false
      end
  | FScale =>
      match new_cfg !! "scale" with
      | Some v => negb (Py.is_ok (Py.float v))
      | None => false
      end
  | FIntercept =>
      match new_cfg !! "intercept" with
      | Some v => negb (Py.is_ok (Py.float v))
      | None => false
      end
  | FStepUp =>
      match new_cfg !! "step_up_threshold" with
      | Some v => negb (Py.is_ok (Py.int v))
      | None => false
      end
  | FHardDeny =>
      match new_cfg !! "hard_deny_threshold" with
      | Some v => negb (Py.is_ok (Py.int v))
      | None => false
      end
  end.

(** The first malformed field of an update, in assignment order. *)
Definition first_malformed `{Py.Parsers} (new_cfg : gmap string Py.val)
  : option Field :=
  List.find (malformed new_cfg) [FWeights; FScale; FIntercept; FStepUp; FHardDeny].

End Spec.

Module Instances.

(** An interpreter stand-in that accepts no numeric string literal; the
    concrete inputs below contain none. *)
Definition no_literals : Py.Parsers :=
  {| Py.float_of_str := fun _ => None; Py.int_of_str := fun _ => None |}.

(** Addresses and networks as plain strings: every string is an address
    and a network holds the address of the same name. *)
Definition exact_match_ips : ThreatIntel.IpAddress :=
  {| ThreatIntel.ip_addr := string;
     ThreatIntel.ip_net := string;
     ThreatIntel.ip_address := fun s => Some s;
     ThreatIntel.net_contains := fun n a => String.eqb n a |}.

(** A backend whose calls all succeed: fitted objects carry no data, a
    transformed matrix is the matrix itself, and the forest answers with
    the constant decision value 0.1. *)
Definition constant_backend (torch : bool) : AnomalyEngine.Backend :=
  {| AnomalyEngine.TORCH_AVAILABLE := torch;
     AnomalyEngine.scaler := unit;
     AnomalyEngine.if_model := unit;
     AnomalyEngine.ae_model := unit;
     AnomalyEngine.StandardScaler_fit := fun _ => Py.Ok tt;
     AnomalyEngine.scaler_transform := fun _ X => Py.Ok X;
     AnomalyEngine.IsolationForest_fit := fun _ _ => Py.Ok tt;
     AnomalyEngine.decision_function := fun _ _ => Py.Ok [0.1%R];
     AnomalyEngine.AE_new := fun _ _ => Py.Ok tt;
     AnomalyEngine.ae_train_loop := fun _ m _ => (Py.Ok tt, m);
     AnomalyEngine.ae_forward := fun _ X => Py.Ok X;
     AnomalyEngine.np_percentile := fun _ _ => Py.Ok 0%R |}.

(** The same backend, except that fitting the scaler raises, as
    scikit-learn does when it validates its input. *)
Definition failing_scaler_backend : AnomalyEngine.Backend :=
  {| AnomalyEngine.TORCH_AVAILABLE := true;
     AnomalyEngine.scaler := unit;
     AnomalyEngine.if_model := unit;
     AnomalyEngine.ae_model := unit;
     AnomalyEngine.StandardScaler_fit :=
       fun _ => Py.Err (Py.Raise Py.ValueError "Input X contains infinity");
     AnomalyEngine.scaler_transform := fun _ X => Py.Ok X;
     AnomalyEngine.IsolationForest_fit := fun _ _ => Py.Ok tt;
     AnomalyEngine.decision_function := fun _ _ => Py.Ok [0.1%R];
     AnomalyEngine.AE_new := fun _ _ => Py.Ok tt;
     AnomalyEngine.ae_train_loop := fun _ m _ => (Py.Ok tt, m);
     AnomalyEngine.ae_forward := fun _ X => Py.Ok X;
     AnomalyEngine.np_percentile := fun _ _ => Py.Ok 0%R |}.

(** A well-formed transaction row and a row whose category is a number. *)
Definition food_row (amount : Z) : gmap string Py.val :=
  <["amount" := Py.VInt amount]> (<["category" := Py.VStr "FOOD"]> ∅).

Definition bad_category_row : gmap string Py.val :=
  <["amount" := Py.VInt 20]> (<["category" := Py.VInt 5]> ∅).

(** A successful login event from a private address. *)
Definition success_event (t : Py.datetime) : RiskEngine.LoginEvent :=
  {| RiskEngine.ev_ip := Some "10.0.0.1"; RiskEngine.ev_device_hash := Some "d1";
     RiskEngine.ev_success := true; RiskEngine.ev_ts := t;
     RiskEngine.ev_risk_score := 0; RiskEngine.ev_risk_reason := "" |}.

Definition day : Z := Py.us_per_day.

(** A time stamp: hour [h] of day [d]. *)
Definition at_hour (d h : Z) : Py.datetime := d * Py.us_per_day + h * Py.us_per_hour.

(** The hour histogram of an account whose three logins were at 9 o'clock. *)
Definition nine_oclock_hist : gmap string Z :=
  <["9" := 3]> (Main.login_hours_hist Main.new_intel).

End Instances.

(** ** Closed forms used to state how the risk engine behaves *)

Module Views.

Import RiskEngine.

(** The names of the feature vector, in the order [login_features] inserts
    them. *)
Definition FEATURE_ORDER : list string :=
  [ "new_device"; "untrusted_device"; "ip_changed"; "new_city"; "rare_city";
    "odd_hour"; "uncommon_hour"; "impossible_travel"; "consecutive_fails" ].



(** The value that a well-formed update gives to each field: the converted
    entry when the update has one, the prior value otherwise. *)
Definition updated_weights `{Py.Parsers} (new_cfg : gmap string Py.val)
    (c : RiskConfig) : gmap string R :=
  match new_cfg !! "weights" with
  | Some (Py.VDict items) =>
      match float_items items with
      | Py.Ok ws => dict_update (weights c) ws
      | Py.Err _ => weights c
      end
  | _ => weights c
  end.

Definition updated_float `{Py.Parsers} (new_cfg : gmap string Py.val)
    (key : string) (prior : R) : R :=
  match new_cfg !! key with
  | Some v => match Py.float v with Py.Ok r => r | Py.Err _ => prior end
  | None => prior
  end.

Definition updated_int `{Py.Parsers} (new_cfg : gmap string Py.val)
    (key : string) (prior : Z) : Z :=
  match new_cfg !! key with
  | Some v => match Py.int v with Py.Ok z => z | Py.Err _ => prior end
  | None => prior
  end.

Definition updated `{Py.Parsers} (new_cfg : gmap string Py.val)
    (c : RiskConfig) : RiskConfig :=
  {| weights := updated_weights new_cfg c;
     scale := updated_float new_cfg "scale" (scale c);
     intercept := updated_float new_cfg "intercept" (intercept c);
     step_up_threshold := updated_int new_cfg "step_up_threshold" (step_up_threshold c);
     hard_deny_threshold :=
       updated_int new_cfg "hard_deny_threshold" (hard_deny_threshold c) |}.

(** A field holds the value that the update gives it: the converted entry
    when the update has one, the prior value otherwise. *)
Definition assigned `{Py.Parsers} (f : Spec.Field) (new_cfg : gmap string Py.val)
    (before after : RiskConfig) : Prop :=
  match f with
  | Spec.FWeights => weights after = updated_weights new_cfg before
  | Spec.FScale => scale after = updated_float new_cfg "scale" (scale before)
  | Spec.FIntercept =>
      intercept after = updated_float new_cfg "intercept" (intercept before)
  | Spec.FStepUp =>
      step_up_threshold after
      = updated_int new_cfg "step_up_threshold" (step_up_threshold before)
  | Spec.FHardDeny =>
      hard_deny_threshold after
      = updated_int new_cfg "hard_deny_threshold" (hard_deny_threshold before)
  end.

(** The last value that a list of items binds a key to. *)
Fixpoint last_binding (k : string) (items : list (string * R)) : option R :=
  match items with
  | [] => None
  | (k', v) :: rest =>
      match last_binding k rest with
      | Some v' => Some v'
      | None => if String.eqb k' k then Some v else None
      end
  end.

(** A request sets a field to an explicit null. *)
Definition explicit_null {A} (fld : option (option A)) : bool :=
  match fld with
  | Some None => true
  | _ => false
  end.

(** A feature row: the logarithm of the amount, not negative, and two
    hash buckets scaled into [0, 1]. *)
Definition feature_row_ok (x : list R) : Prop :=
  exists a c m, x = [a; c; m] /\ (0 <= a)%R /\ (0 <= c <= 1)%R /\ (0 <= m <= 1)%R.

End Views.

(** ** app/threat_intel.py: the feed of disposable domains and the cache
    of [lookup_ip] *)

Module ThreatIntelFeeds.

Import ThreatIntel.

(** [s.split(",")]: the pieces between the commas; never empty. *)
Fixpoint split_comma (s : string) : list string :=
  match s with
  | EmptyString => [EmptyString]
  | String c rest =>
      if Ascii.eqb c ","
      then EmptyString :: split_comma rest
      else match split_comma rest with
           | p :: ps => String c p :: ps
           | [] => [String c EmptyString]
           end
  end.

(** [_parse_domains]. *)
Definition _parse_domains (csv : string) : gset string :=
  fold_left
    (fun out piece =>
       let d := Py.lower (strip piece) in
       if negb (String.eqb d "") then out ∪ {[ d ]} else out)
    (split_comma csv) ∅.

Section Cache.
Context `{IpAddress}.

(** [reload], as far as the feed of disposable domains goes: the setting
    is parsed when threat intelligence is enabled, and every feed is
    cleared when it is not. *)
Definition reload_bad_domains (TI_ENABLE : bool) (TI_BAD_EMAIL_DOMAINS : string)
    (st : State) : State :=
  if negb TI_ENABLE then
    {| ip_bad := []; ip_tor := []; asn_bad := ∅; bad_domains := ∅ |}
  else
    {| ip_bad := ip_bad st; ip_tor := ip_tor st; asn_bad := asn_bad st;
       bad_domains := _parse_domains TI_BAD_EMAIL_DOMAINS |}.

(** [@lru_cache(maxsize=10000)] on [lookup_ip]: the entries, most recently
    used first. *)
Definition maxsize : Z := 10000.

Definition Cache : Type := list (string * IpFlags).

Fixpoint cache_get (ip : string) (cache : Cache) : option IpFlags :=
  match cache with
  | [] => None
  | (k, v) :: rest => if String.eqb k ip then Some v else cache_get ip rest
  end.

Fixpoint cache_remove (ip : string) (cache : Cache) : Cache :=
  match cache with
  | [] => []
  | (k, v) :: rest =>
      if String.eqb k ip then cache_remove ip rest else (k, v) :: cache_remove ip rest
  end.

(** One call of the decorated [lookup_ip]: a hit returns the stored answer
    and makes the entry the most recent; a miss runs the function on the
    current feeds, and evicts the least recently used entry when the cache
    is full. *)
Definition lookup_ip_cached (TI_ENABLE : bool) (_STATE : State) (cache : Cache)
    (ip : string) : IpFlags * Cache :=
  match cache_get ip cache with
  | Some out => (out, (ip, out) :: cache_remove ip cache)
  | None =>
      let out := lookup_ip TI_ENABLE _STATE ip in
      (out, (ip, out) :: (if Z.of_nat (length cache) <? maxsize then cache
                          else removelast cache))
  end.

(** A sequence of calls, each with the feeds as they are at that moment
    ([reload] may run between two calls). *)
Definition lookups (TI_ENABLE : bool) (calls : list (State * string)) (cache : Cache)
  : Cache :=
  fold_left (fun c call => snd (lookup_ip_cached TI_ENABLE (fst call) c (snd call)))
    calls cache.

(** The first entry of [ip] in the cache holds [out] and has at most [i]
    entries before it. *)
Fixpoint within (ip : string) (out : IpFlags) (i : nat) (cache : Cache)
    {struct cache} : Prop :=
  match cache with
  | [] => False
  | (k, v) :: rest =>
      if String.eqb k ip then v = out
      else match i with
           | O => False
           | S i' => within ip out i' rest
           end
  end.

End Cache.

End ThreatIntelFeeds.

(** ** app/main.py: the lock-out gate of [login] *)

Module MainAuth.

Definition LOCK_WINDOW_MIN : Z := 15.
Definition MAX_FAILS : Z := 5.

(** [timedelta(minutes=m)], in microseconds. *)
Definition timedelta_minutes (m : Z) : Z := m * 60000000.

(** The columns of [models.User] that the gate reads and writes. *)
Record User := {
  failed_attempts : option Z;
  lock_until : option Py.datetime
}.

(** [user.failed_attempts or 0]. *)
Definition or_0 (o : option Z) : Z := default 0 o.

(** How the gate answers: 423, 401 with a [bad_password] event, or the
    password is verified and scoring goes on with [consecutive_fails]. *)
Inductive Gate :=
| Locked
| BadPassword
| Verified (consecutive_fails : Z).

(** [login], lines 213-214 and 252-267.  [now] is the clock when the lock
    is tested, [now'] the clock when a new lock is set, [ok] the result of
    [auth.verify_password]. *)
Definition login_gate (user : User) (now now' : Py.datetime) (ok : bool)
  : Gate * User :=
  if match lock_until user with
     | Some t => now <? t
     | None => false
     end
  then (Locked, user)
  else if negb ok then
    let fa := or_0 (failed_attempts user) + 1 in
    (BadPassword,
     {| failed_attempts := Some fa;
        lock_until := if MAX_FAILS <=? fa
                      then Some (now' + timedelta_minutes LOCK_WINDOW_MIN)
                      else lock_until user |})
  else
    (Verified (or_0 (failed_attempts user)),
     {| failed_attempts := Some 0; lock_until := None |}).

(** A sequence of login attempts on one account. *)
Fixpoint logins (user : User) (attempts : list (Py.datetime * Py.datetime * bool))
  : list Gate * User :=
  match attempts with
  | [] => ([], user)
  | (now, now', ok) :: rest =>
      let '(g, user) := login_gate user now now' ok in
      let '(gs, user) := logins user rest in
      (g :: gs, user)
  end.

End MainAuth.

(** ** app/main.py: client address, geolocation and travel speed *)

Module MainNet.

Import RiskEngine ThreatIntel ThreatIntelFeeds.

(** [math.sqrt] and [math.asin] raise outside their domain. *)
Definition math_sqrt (x : R) : Py.result R :=
  if Rle_dec 0 x then Py.Ok (sqrt x)
  else Py.Err (Py.Raise Py.ValueError "math domain error").

Definition math_asin (x : R) : Py.result R :=
  if Rle_dec (-1) x then
    if Rle_dec x 1 then Py.Ok (asin x)
    else Py.Err (Py.Raise Py.ValueError "math domain error")
  else Py.Err (Py.Raise Py.ValueError "math domain error").

Definition math_radians (x : R) : R := (x * (PI / 180))%R.

(** [_haversine_km]. *)
Definition _haversine_km (lat1 lon1 lat2 lon2 : R) : Py.result R :=
  let R := 6371.0%R in
  let p1 := math_radians lat1 in
  let p2 := math_radians lat2 in
  let dphi := math_radians (lat2 - lat1) in
  let dlambda := math_radians (lon2 - lon1) in
  let a := (sin (dphi / 2.0) ^ 2 + cos p1 * cos p2 * sin (dlambda / 2.0) ^ 2)%R in
  Py.bind (math_sqrt a) (fun r =>
  Py.bind (math_asin r) (fun s =>
  Py.Ok (2 * R * s)%R)).

(** The request as [_client_ip] reads it: the peer of the connection and
    the headers, under lower-case names. *)
Record Request := {
  client_host : option string;
  headers : gmap string string
}.

Definition _TRUSTED_PROXY_HEADERS : list string :=
  [ "x-forwarded-for"; "x-real-ip"; "cf-connecting-ip" ].

Section Net.
Context `{IpAddress}.

(** [ipaddress.ip_network(cidr, strict=False)] and [is_private], of the
    standard library; the two geolocation providers, which answer
    [(0.0, 0.0, "Unknown")] themselves when they fail. *)
Variable ip_network : string -> option ip_net.
Variable is_private : ip_addr -> bool.
Variable GEO_PROVIDER : string.
Variable _geo_ipinfo : string -> R * R * string.
Variable _geo_maxmind : string -> R * R * string.

(** The list of trusted proxies, read from the environment at import. *)
Variable TRUSTED_PROXIES : list string.

Definition _ip_in_trusted (peer_ip : string) : bool :=
  match TRUSTED_PROXIES with
  | [] => false
  | _ =>
      match ip_address peer_ip with
      | None => false
      | Some peer =>
          existsb (fun cidr =>
                     match ip_network cidr with
                     | Some n => net_contains n peer
                     | None => false
                     end)
                  TRUSTED_PROXIES
      end
  end.

(** The loop of [_client_ip] over the forwarding headers: the first header
    whose first comma-separated piece parses as an address wins. *)
Fixpoint forwarded_ip (hs : list string) (req : Request) : option string :=
  match hs with
  | [] => None
  | h :: rest =>
      match headers req !! h with
      | Some v =>
          if String.eqb v "" then forwarded_ip rest req
          else
            let ip := strip (hd EmptyString (split_comma v)) in
            match ip_address ip with
            | Some _ => Some ip
            | None => forwarded_ip rest req
            end
      | None => forwarded_ip rest req
      end
  end.

Definition _client_ip (req : Request) : string :=
  let peer := default "0.0.0.0" (client_host req) in
  if _ip_in_trusted peer then
    match forwarded_ip _TRUSTED_PROXY_HEADERS req with
    | Some ip => ip
    | None => peer
    end
  else peer.

Definition _is_private (ip : string) : bool :=
  match ip_address ip with
  | Some a => is_private a
  | None => true
  end.

Definition _geo_for_ip (ip : string) : R * R * string :=
  if _is_private ip || String.prefix "127." ip then (0.0%R, 0.0%R, "Unknown")
  else if String.eqb GEO_PROVIDER "IPINFO" then _geo_ipinfo ip
  else _geo_maxmind ip.

(** [a.ip or "127.0.0.1"]. *)
Definition ip_or_loopback (ip : option string) : string :=
  if str_truthy ip then default "" ip else "127.0.0.1".

(** [_last_two_success], local to [login]. *)
Definition _last_two_success (evts : list LoginEvent) : list LoginEvent :=
  let ss := List.filter ev_success evts in
  if (2 <=? length ss)%nat then drop (length ss - 2) ss else ss.

(** [timedelta.total_seconds()] of a difference in microseconds. *)
Definition total_seconds (d : Z) : R := (IZR d / 1000000)%R.

(** [login], lines 310-316: the speed between the last two successful
    logins, the candidate included. *)
Definition login_speed (candidate : list LoginEvent) : Py.result (option R) :=
  match _last_two_success candidate with
  | [a; b] =>
      let '(lat1, lon1, _) := _geo_for_ip (ip_or_loopback (ev_ip a)) in
      let '(lat2, lon2, _) := _geo_for_ip (ip_or_loopback (ev_ip b)) in
      Py.bind (_haversine_km lat1 lon1 lat2 lon2) (fun dist_km =>
      let dt_hours := Rmax (total_seconds (ev_ts b - ev_ts a) / 3600.0) 0.05 in
      Py.Ok (Some (dist_km / dt_hours)%R))
  | _ => Py.Ok None
  end.

(** The candidate event that [login] appends to the recent events. *)
Definition candidate_event (ip : string) (device_hash : option string)
    (now : Py.datetime) : LoginEvent :=
  {| ev_ip := Some ip; ev_device_hash := device_hash; ev_success := true;
     ev_ts := now; ev_risk_score := 0; ev_risk_reason := "" |}.

End Net.

End MainNet.

(** ** app/main.py: the learned profile and the transaction score *)

Module MainIntel.

Import RiskEngine Main MainNet.

(** Comparisons of floats as conditions. *)
Definition Rleb (x y : R) : bool := if Rle_dec x y then true else false.
Definition Rltb (x y : R) : bool := if Rlt_dec x y then true else false.

(** A row of [models.Transaction] as it is read back from the database
    (the amount is the stored one), and [schemas.TxScoreIn]. *)
Record Transaction := {
  t_amount : R;
  t_currency : option string;
  t_category : string;
  t_date : option string;
  t_merchant : option string
}.

Record TxScoreIn := {
  in_amount : R;
  in_currency : string;
  in_category : string;
  in_merchant : option string
}.

(** [m or None]. *)
Definition or_None (m : option string) : option string :=
  if str_truthy m then m else None.

(** The call of [_learn_tx] that [add_tx] makes once the row is stored. *)
Definition add_tx (db : gmap Z UserIntel) (user_id : Z) (tx : Transaction)
  : gmap Z UserIntel :=
  _learn_tx db user_id (t_amount tx) (Py.upper (t_category tx))
    (or_None (t_merchant tx)).

(** A sequence of calls of [add_tx] by one user. *)
Definition add_txs (db : gmap Z UserIntel) (user_id : Z) (txs : list Transaction)
  : gmap Z UserIntel :=
  fold_left (fun db tx => add_tx db user_id tx) txs db.

(** The amounts of the transactions of a category, in order, and the
    number of transactions that name a merchant, both up to the case of
    letters. *)
Definition category_amounts (category : string) (txs : list Transaction) : list R :=
  map t_amount
    (List.filter (fun tx => String.eqb (Py.upper (t_category tx)) category) txs).

Definition merchant_uses (key : string) (txs : list Transaction) : Z :=
  Z.of_nat (length
    (List.filter
       (fun tx => str_truthy (t_merchant tx)
                  && String.eqb (Py.lower (str_or_empty (t_merchant tx))) key)
       txs)).

(** The learned count of a merchant key; 0 when absent. *)
Definition merchant_count (db : gmap Z UserIntel) (user_id : Z) (key : string) : Z :=
  match db !! user_id with
  | Some intel => Py.get (tx_merchant_counts intel) key 0
  | None => 0
  end.

(** The [details] dictionary of [_score_tx]. *)
Record TxDetails := {
  d_median : R;
  d_mad : R;
  d_n : Z;
  d_z : R
}.

Definition COMMON_CURRENCIES : list string := [ "SAR"; "USD"; "EUR"; "GBP"; "AED" ].

(** [s in (..)] for a tuple of strings. *)
Definition str_in (s : string) (l : list string) : bool :=
  existsb (String.eqb s) l.

Section Score.

(** Rendering of a float with the format [.1f] and [round(z, 2)], of the
    interpreter. *)
Variable format_1f : R -> string.
Variable round_2 : R -> R.

(** [_score_tx]. *)
Definition _score_tx (intel : UserIntel) (payload : TxScoreIn)
  : Z * list string * TxDetails :=
  let amt := in_amount payload in
  let cat := Py.upper (in_category payload) in
  let merch := Py.lower (str_or_empty (in_merchant payload)) in
  let s := Py.get (tx_category_stats intel) cat zero_stats in
  let med := median s in
  let mad := mad s in
  let n := n s in
  let z := if Rle_dec mad 1e-6 then 0.0%R else (Rabs (amt - med) / mad)%R in
  let details := {| d_median := med; d_mad := mad; d_n := n; d_z := round_2 z |} in
  let '(score, parts) :=
    if 5 <=? n then
      let bump := Z.min (Py.trunc (z * 12)) 70 in
      (0 + bump,
       [ String.append "amount_deviation(z≈"
           (String.append (format_1f z)
              (String.append ") +" (pretty bump))) ])
    else (0, []) in
  let seen_merch := Py.get (tx_merchant_counts intel) merch 0 in
  let '(score, parts) :=
    if negb (String.eqb merch "") && (seen_merch =? 0) && Rleb 100 amt
    then (score + 20, parts ++ [ "new_merchant +20" ])
    else if negb (String.eqb merch "") && (seen_merch <=? 2) && Rleb 250 amt
    then (score + 10, parts ++ [ "rare_merchant +10" ])
    else (score, parts) in
  let cur := Py.upper (in_currency payload) in
  let '(score, parts) :=
    if negb (str_in cur COMMON_CURRENCIES) && Rltb 0 amt
    then (score + 10, parts ++ [ "uncommon_currency +10" ])
    else (score, parts) in
  (Z.min score 100, parts, details).

End Score.

Section Login.
Context `{ThreatIntel.IpAddress}.
Variable is_private : ThreatIntel.ip_addr -> bool.
Variable GEO_PROVIDER : string.
Variable _geo_ipinfo : string -> R * R * string.
Variable _geo_maxmind : string -> R * R * string.

(** [_learn_login] on the intel row of the user; [devices] maps the
    device hashes of the user's [DeviceFingerprint] rows to their
    [trusted] column. *)
Definition learn_login_intel (intel : UserIntel) (devices : gmap string bool)
    (ip : string) (device_hash : option string) (when : Py.datetime) : UserIntel :=
  let h := pretty (Py.hour when) in
  let hist := <[h := Py.get (login_hours_hist intel) h 0 + 1]> (login_hours_hist intel) in
  let city :=
    snd (_geo_for_ip is_private GEO_PROVIDER _geo_ipinfo _geo_maxmind
           (ip_or_loopback (Some ip))) in
  let cities := <[city := Py.get (login_cities intel) city 0 + 1]> (login_cities intel) in
  let devtrust :=
    if str_truthy device_hash then
      match devices !! default "" device_hash with
      | Some trusted => <[default "" device_hash := trusted]> (device_trust intel)
      | None => device_trust intel
      end
    else device_trust intel in
  {| login_hours_hist := hist;
     login_cities := cities;
     device_trust := devtrust;
     tx_category_stats := tx_category_stats intel;
     tx_merchant_counts := tx_merchant_counts intel |}.

Definition _learn_login (db : gmap Z UserIntel) (user_id : Z)
    (devices : gmap string bool) (ip : string) (device_hash : option string)
    (when : Py.datetime) : gmap Z UserIntel :=
  let '(intel, db) := _get_or_create_intel db user_id in
  <[user_id := learn_login_intel intel devices ip device_hash when]> db.

End Login.

End MainIntel.

(** ** app/main.py: order statistics of the log summaries *)

Module MainStats.

(** [sorted(xs)] on floats. *)
Definition sorted (xs : list R) : list R := @merge_sort R Rle Rle_dec xs.

Definition len (xs : list R) : Z := Z.of_nat (length xs).

(** [s[i]]: a negative index counts from the end, an index out of range
    raises. *)
Definition getitem (s : list R) (i : Z) : Py.result R :=
  let j := if i <? 0 then i + len s else i in
  match (if 0 <=? j then s !! Z.to_nat j else None) with
  | Some x => Py.Ok x
  | None => Py.Err (Py.Raise Py.IndexError "list index out of range")
  end.

(** [_median]. *)
Definition _median (xs : list R) : Py.result R :=
  match xs with
  | [] => Py.Ok 0.0%R
  | _ =>
      let s := sorted xs in
      let n := len s in
      let m := n / 2 in
      if negb (n mod 2 =? 0) then getitem s m
      else
        Py.bind (getitem s (m - 1)) (fun a =>
        Py.bind (getitem s m) (fun b =>
        Py.Ok ((a + b) / 2)%R))
  end.

(** [_mad]. *)
Definition _mad (xs : list R) (med : option R) : Py.result R :=
  match xs with
  | [] => Py.Ok 0.0%R
  | _ =>
      Py.bind (match med with
               | Some m => Py.Ok m
               | None => _median xs
               end) (fun med =>
      let devs := map (fun x => Rabs (x - med)) xs in
      Py.bind (_median devs) (fun d => Py.Ok (1.4826 * d)%R))
  end.

(** [_percentile]. *)
Definition _percentile (xs : list R) (p : R) : Py.result R :=
  match xs with
  | [] => Py.Ok 0.0%R
  | _ =>
      let s := sorted xs in
      let k := (IZR (len s - 1) * (p / 100.0))%R in
      let f := Py.floor k in
      let c := Z.min (f + 1) (len s - 1) in
      if f =? c then getitem s (Py.trunc k)
      else
        Py.bind (getitem s f) (fun sf =>
        Py.bind (getitem s c) (fun sc =>
        Py.bind (getitem s f) (fun sf' =>
        Py.Ok (sf + (sc - sf') * (k - IZR f))%R)))
  end.

End MainStats.

(** ** app/main.py: the anomaly end points *)

Module MainML.

Import RiskEngine AnomalyEngine MainIntel.

Definition opt_str (o : option string) : Py.val :=
  match o with
  | Some s => Py.VStr s
  | None => Py.VNone
  end.

(** The dictionary that [_load_tx_rows_for_ml] builds for a transaction. *)
Definition tx_row (t : Transaction) : Row :=
  <["amount" := Py.VFloat (t_amount t)]>
  (<["currency" := opt_str (t_currency t)]>
  (<["category" := Py.VStr (Py.upper (t_category t))]>
  (<["date" := opt_str (t_date t)]>
  (<["merchant" := opt_str (or_None (t_merchant t))]> ∅)))).

(** [_load_tx_rows_for_ml]; [stored] are the transactions of the user, in
    the order of their creation. *)
Definition _load_tx_rows_for_ml (stored : list Transaction) (drop_newest : bool)
  : list Row :=
  let rows := take 500 stored in
  match rows with
  | [] => []
  | _ =>
      let use := if drop_newest && (2 <=? len rows) then removelast rows else rows in
      map tx_row use
  end.


Record AnomalyScoreIn := {
  s_backend : string;
  s_amount : R;
  s_currency : string;
  s_category : string;
  s_merchant : option string
}.

Record MlScoreOut := {
  o_score : Z;
  o_backend : string;
  o_n_train : Z;
  o_details : Details
}.

(** [schemas.AnomalyTrainIn] and the answer of [ml_anomaly_train]. *)
Record AnomalyTrainIn := {
  b_backend : string;
  b_contamination : option R;
  b_n_estimators : option Z;
  b_random_state : option Z;
  b_min_train_rows : option Z;
  b_epochs : option Z;
  b_hidden_dim : option Z;
  b_bottleneck_dim : option Z;
  b_lr : option R;
  b_batch_size : option Z
}.

Record TrainOut := {
  r_ok : bool;
  r_backend : string;
  r_n_train : Z;
  r_details : Details
}.

(** The answer of [ml_anomaly_train] reports the outcome of a training:
    the count of a training that returned, or the failure with the text of
    the exception. *)
Definition reports (r : Py.result Z) (out : TrainOut) : Prop :=
  match r with
  | Py.Ok n => r_n_train out = n
  | Py.Err e =>
      r_ok out = false /\ r_n_train out = 0 /\
      r_details out = {[ "reason" := Py.VStr (Py.str_exn e) ]}
  end.

Definition train_if_cfg (body : AnomalyTrainIn) : IFConfig :=
  {| contamination := default (contamination IFConfig_default) (b_contamination body);
     n_estimators := default (n_estimators IFConfig_default) (b_n_estimators body);
     random_state := default (random_state IFConfig_default) (b_random_state body);
     if_min_train_rows :=
       default (if_min_train_rows IFConfig_default) (b_min_train_rows body) |}.

Definition train_ae_cfg (body : AnomalyTrainIn) : AEConfig :=
  {| ae_min_train_rows :=
       default (ae_min_train_rows AEConfig_default) (b_min_train_rows body);
     epochs := default (epochs AEConfig_default) (b_epochs body);
     batch_size := default (batch_size AEConfig_default) (b_batch_size body);
     lr := default (lr AEConfig_default) (b_lr body);
     hidden_dim := default (hidden_dim AEConfig_default) (b_hidden_dim body);
     bottleneck_dim := default (bottleneck_dim AEConfig_default) (b_bottleneck_dim body);
     device := device AEConfig_default;
     score_percentile := score_percentile AEConfig_default |}.

Section Endpoints.
Context `{Py.Parsers} `{Backend}.


(** [ml_anomaly_score]. *)
Definition ml_anomaly_score (stored : list Transaction) (body : AnomalyScoreIn)
  : Py.result MlScoreOut :=
  let hist := _load_tx_rows_for_ml stored false in
  if len hist <? 1 then
    Py.Ok {| o_score := 0; o_backend := s_backend body; o_n_train := 0;
             o_details := {[ "reason" := Py.VStr "model_not_trained" ]} |}
  else
    let backend := if String.eqb (s_backend body) "ae" then "autoenc"%string
                   else s_backend body in
    let row : Row :=
      <["amount" := Py.VFloat (s_amount body)]>
      (<["currency" := Py.VStr (Py.upper (s_currency body))]>
      (<["category" := Py.VStr (Py.upper (s_category body))]>
      (<["merchant" := opt_str (or_None (s_merchant body))]>
      (<["date" := Py.VNone]> ∅)))) in
    match fst (train_and_score DetectorConfig_default hist row (Some backend)
                 DetState_init) with
    | Py.Ok (used, score, details, n_train) =>
        Py.Ok {| o_score := score; o_backend := used; o_n_train := n_train;
                 o_details := details |}
    | Py.Err e => Py.Err e
    end.

(** The detector and the local variable [used] of [ml_anomaly_train],
    which the outer [except] clause reads. *)
Record TrainState := {
  det : DetState;
  used : string
}.

Definition on_det {A} (m : M DetState A) : M TrainState A :=
  fun s =>
    let '(r, d) := m (det s) in
    (r, {| det := d; used := used s |}).

Definition set_used (u : string) : M TrainState unit :=
  modify (fun s => {| det := det s; used := u |}).

Definition train_out (n_train : Z) (details : Details) : M TrainState TrainOut :=
  let* u := gets used in
  ret {| r_ok := 0 <? n_train; r_backend := u; r_n_train := n_train;
         r_details := details |}.

(** [ml_anomaly_train]. *)
Definition ml_anomaly_train (stored : list Transaction) (body : AnomalyTrainIn)
  : M TrainState TrainOut :=
  let hist := _load_tx_rows_for_ml stored false in
  let if_cfg := train_if_cfg body in
  let ae_cfg := train_ae_cfg body in
  set_used (b_backend body) ;;
  try_except
    (let* u := gets used in
     if String.eqb u "iforest" then
       let* n_train := on_det (on_iforest (if_train if_cfg hist)) in
       train_out n_train {[ "model" := Py.VStr "IsolationForest" ]}
     else if String.eqb u "ae" then
       let* n_train := on_det (on_autoenc (ae_train ae_cfg hist)) in
       train_out n_train {[ "model" := Py.VStr "Autoencoder" ]}
     else if ae_min_train_rows ae_cfg <=? len hist then
       try_except
         (let* n_train := on_det (on_autoenc (ae_train ae_cfg hist)) in
          set_used "autoenc" ;;
          train_out n_train {[ "model" := Py.VStr "Autoencoder" ]})
         (fun e =>
            set_used "iforest" ;;
            let* n_train := on_det (on_iforest (if_train if_cfg hist)) in
            train_out n_train
              (<["fallback_reason" := Py.VStr (Py.str_exn e)]>
                 {[ "model" := Py.VStr "IsolationForest" ]}))
     else
       set_used "iforest" ;;
       let* n_train := on_det (on_iforest (if_train if_cfg hist)) in
       train_out n_train {[ "model" := Py.VStr "IsolationForest" ]})
    (fun e =>
       let* u := gets used in
       ret {| r_ok := false; r_backend := u; r_n_train := 0;
              r_details := {[ "reason" := Py.VStr (Py.str_exn e) ]} |}).

End Endpoints.

End MainML.

(** ** app/routers/fed.py and app/routers/fed_sim.py *)

Module Fed.

Import RiskEngine.

Definition FEAT_NAMES : list string :=
  [ "bias"; "new_device"; "untrusted_device"; "ip_changed"; "new_city";
    "rare_city"; "odd_hour"; "uncommon_hour"; "impossible_travel";
    "consecutive_fails" ].

(** [{k: f(k) for k in FEAT_NAMES}]. *)
Definition over_features (f : string -> R) : gmap string R :=
  list_to_map (map (fun k => (k, f k)) FEAT_NAMES).

Definition _copy_weights (w : gmap string R) : gmap string R := w.

Definition _add_weights (a b : gmap string R) : gmap string R :=
  over_features (fun k => (Py.get a k 0.0 + Py.get b k 0.0)%R).

Definition _sub_weights (a b : gmap string R) : gmap string R :=
  over_features (fun k => (Py.get a k 0.0 - Py.get b k 0.0)%R).

Definition _scale_weights (w : gmap string R) (s : R) : gmap string R :=
  (fun v => (v * s)%R) <$> w.

(** The outcome of a computation that indexes dictionaries: a value, or
    [KeyError] for a missing key. *)
Inductive keyed (A : Type) :=
| Found (a : A)
| KeyError (key : string).
Arguments Found {A} a.
Arguments KeyError {A} key.

Definition kbind {A B} (r : keyed A) (k : A -> keyed B) : keyed B :=
  match r with
  | Found a => k a
  | KeyError key => KeyError key
  end.

(** [w[k]]: a missing key raises. *)
Definition getitem (w : gmap string R) (k : string) : keyed R :=
  match w !! k with
  | Some v => Found v
  | None => KeyError k
  end.

(** [sum(w[k] ** 2 for k in names)], from the start value. *)
Fixpoint sum_squares (w : gmap string R) (names : list string) (acc : R)
  : keyed R :=
  match names with
  | [] => Found acc
  | k :: rest =>
      kbind (getitem w k) (fun v => sum_squares w rest (acc + v ^ 2)%R)
  end.

Definition _l2_norm (w : gmap string R) : keyed R :=
  kbind (sum_squares w FEAT_NAMES 0%R) (fun s => Found (sqrt s)).

Definition _clip_l2 (delta : gmap string R) (clip : R) : keyed (gmap string R) :=
  kbind (_l2_norm delta) (fun n =>
  if Rle_dec n clip then Found delta
  else if Rle_dec clip 0 then Found delta
  else
    let scale := (clip / Rmax n 1e-12)%R in
    Found (_scale_weights delta scale)).

(** [{k: delta[k] + noise for k in names}], built key by key. *)
Fixpoint noisy_items (delta : gmap string R) (noise : string -> R)
    (names : list string) : keyed (list (string * R)) :=
  match names with
  | [] => Found []
  | k :: rest =>
      kbind (getitem delta k) (fun v =>
      kbind (noisy_items delta noise rest) (fun items =>
      Found ((k, (v + noise k)%R) :: items)))
  end.

(** [_dp_secure_update]; [gauss k] is the sample that [gauss(0.0, sigma)]
    yields for the feature [k]. *)
Definition _dp_secure_update (w_global w_local : gmap string R) (clip sigma : R)
    (gauss : string -> R) : keyed (gmap string R) :=
  let delta := _sub_weights w_local w_global in
  kbind (if Rlt_dec 0 clip then _clip_l2 delta clip else Found delta) (fun delta =>
  kbind (noisy_items delta
           (fun k => if Rlt_dec 0 sigma then gauss k else 0.0%R) FEAT_NAMES)
    (fun noisy =>
  Found (_add_weights w_global (list_to_map noisy)))).

(** The sum of the squares of a vector given as a function of the feature
    name; used to state what [_l2_norm] computes. *)
Fixpoint sumsq (f : string -> R) (names : list string) : R :=
  match names with
  | [] => 0%R
  | k :: rest => (f k ^ 2 + sumsq f rest)%R
  end.

(** The answer of [sim_apply_weights]. *)
Record FedApplyOut := {
  applied : bool;
  new_weights : gmap string R
}.

(** [merged]: the weights of the engine, with every feature overwritten. *)
Definition merged_weights (current new_w : gmap string R) : gmap string R :=
  fold_left (fun m k => <[k := Py.get new_w k 0.0%R]> m) FEAT_NAMES current.

(** [sim_apply_weights]; [FED_STATE_weights] is [FED_STATE.get("weights")]. *)
Definition sim_apply_weights `{Py.Parsers} (FED_STATE_weights : option (gmap string R))
    (CONFIG : RiskConfig) : Py.result FedApplyOut * RiskConfig :=
  match FED_STATE_weights with
  | Some w =>
      if bool_decide (w = ∅) then
        (Py.Ok {| applied := false; new_weights := ∅ |}, CONFIG)
      else
        let new_w := _copy_weights w in
        let cfg := get_config CONFIG in
        let merged := merged_weights (weights cfg) new_w in
        let new_cfg : gmap string Py.val :=
          {[ "weights" :=
               Py.VDict (map (fun kv => (fst kv, Py.VFloat (snd kv)))
                           (map_to_list merged)) ]} in
        match update_config new_cfg CONFIG with
        | (Py.Ok _, c) => (Py.Ok {| applied := true; new_weights := merged |}, c)
        | (Py.Err e, c) => (Py.Err e, c)
        end
  | None => (Py.Ok {| applied := false; new_weights := ∅ |}, CONFIG)
  end.

End Fed.

Module FedSim.

(** [_sigmoid] of fed_sim.py; the overflow that its [except] clause
    absorbs does not arise on real numbers. *)
Definition _sigmoid (x : R) : R := (1.0 / (1.0 + exp (- x)))%R.

(** [_score_feats]. *)
Definition _score_feats (weights : gmap string R) (feats : list (string * R)) : Z :=
  let z := Py.get weights "bias" 0.0%R in
  let z := fold_left (fun z nv => (z + Py.get weights (fst nv) 0.0 * snd nv)%R) feats z in
  let p := _sigmoid z in
  Py.round (100.0 * p).

End FedSim.

(** ** app/main.py: the reasons of a stored login event *)

Module MainLogs.

Import RiskEngine ThreatIntel.

(** [s.split(c)] for a separator of one character; never empty. *)
Fixpoint split_on (c : ascii) (s : string) : list string :=
  match s with
  | EmptyString => [EmptyString]
  | String a rest =>
      if Ascii.eqb a c
      then EmptyString :: split_on c rest
      else match split_on c rest with
           | p :: ps => String a p :: ps
           | [] => [String a EmptyString]
           end
  end.

(** [s.split(sep, 1)[0]]: what stands before the first occurrence of
    [sep]; all of [s] when it has none. *)
Fixpoint before (sep s : string) : string :=
  match s with
  | EmptyString => EmptyString
  | String a rest =>
      if String.prefix sep s then EmptyString else String a (before sep rest)
  end.

(** [_reason_tokens]. *)
Definition _reason_tokens (reason : option string) : list string :=
  if str_truthy reason then
    List.filter (fun name => negb (String.eqb name ""))
      (map (fun part => strip (before "×" part)) (split_on "|" (default "" reason)))
  else [].

(** A name that survives the trip through a stored reason: not empty, no
    bar, no byte of a multiplication sign, no blank at either end. *)
Fixpoint no_char (p : ascii -> bool) (s : string) : bool :=
  match s with
  | EmptyString => true
  | String a rest => negb (p a) && no_char p rest
  end.

Fixpoint last_char_ok (s : string) : bool :=
  match s with
  | EmptyString => false
  | String a EmptyString => negb (is_space a)
  | String _ rest => last_char_ok rest
  end.

Definition first_char_ok (s : string) : bool :=
  match s with
  | EmptyString => false
  | String a _ => negb (is_space a)
  end.

Definition is_bar (a : ascii) : bool := Ascii.eqb a "|".

Definition is_times_byte (a : ascii) : bool :=
  (Nat.eqb (nat_of_ascii a) 195 || Nat.eqb (nat_of_ascii a) 151)%bool.

Definition token_ok (s : string) : bool :=
  no_char is_bar s && no_char is_times_byte s && first_char_ok s && last_char_ok s.

End MainLogs.

(** ** Concrete inputs of the examples *)

Module Samples.

(** Updates of the configuration: [{"scale": 2.0}] and
    [{"weights": {"bias": 9.0}}]. *)
Definition scale_update : gmap string Py.val := {[ "scale" := Py.VFloat 2 ]}.

Definition bias_update : gmap string Py.val :=
  {[ "weights" := Py.VDict [("bias", Py.VFloat 9)] ]}.

(** The request [{"step_up_threshold": 10, "hard_deny_threshold": null}]. *)
Definition null_hard_deny_body : Main.RiskConfigIn :=
  {| Main.in_weights := None; Main.in_scale := None; Main.in_intercept := None;
     Main.in_step_up_threshold := Some (Some 10);
     Main.in_hard_deny_threshold := Some None |}.

(** Feeds that list one bad address, and empty feeds. *)
Definition bad_feed : @ThreatIntel.State Instances.exact_match_ips :=
  @ThreatIntel.Build_State Instances.exact_match_ips ["6.6.6.6"%string] [] ∅ ∅.

Definition empty_feed : @ThreatIntel.State Instances.exact_match_ips :=
  @ThreatIntel.Build_State Instances.exact_match_ips [] [] ∅ ∅.

(** A transaction of 100 at a cafe, written in mixed case. *)
Definition cafe_tx : MainIntel.Transaction :=
  {| MainIntel.t_amount := 100; MainIntel.t_currency := Some "SAR"%string;
     MainIntel.t_category := "Food"; MainIntel.t_date := Some "2024-01-01"%string;
     MainIntel.t_merchant := Some "Cafe"%string |}.

(** A request to score a transaction at the same cafe, in upper case. *)
Definition cafe_payload : MainIntel.TxScoreIn :=
  {| MainIntel.in_amount := 500; MainIntel.in_currency := "SAR";
     MainIntel.in_category := "food"; MainIntel.in_merchant := Some "CAFE"%string |}.

(** Three amounts. *)
Definition amounts : list R := [3%R; 1%R; 2%R].

(** Local weights that differ from empty global weights in the bias. *)
Definition local_weights : gmap string R := <["bias" := 3%R]> ∅.

(** A rendering of floats that ignores the number. *)
Definition plain_format : Main.FloatFormat :=
  {| Main.format_signed_2f := fun _ => "+0.00"%string |}.

(** The contribution of a new device. *)
Definition new_device_part : RiskEngine.Part :=
  {| RiskEngine.part_name := "new_device"; RiskEngine.part_weight := 1.2%R;
     RiskEngine.part_contribution := 1.2%R |}.

End Samples.


(** * Theorems *)

(** ** Facts about the Python built-ins *)

Module PyFacts.

Import Py.

Lemma floor_bounds (x : R) : (IZR (floor x) <= x < IZR (floor x) + 1)%R.
Proof.
  unfold floor. destruct (base_Int_part x) as [Hlo Hhi]. lra.
Qed.

Lemma floor_unique (x : R) (z : Z) :
  (IZR z <= x < IZR z + 1)%R -> floor x = z.
Proof.
  intros [Hlo Hhi]. unfold floor. symmetry. apply Int_part_spec. lra.
Qed.

Lemma floor_IZR (z : Z) : floor (IZR z) = z.
Proof. apply floor_unique. lra. Qed.

Lemma floor_mono (x y : R) : (x <= y)%R -> floor x <= floor y.
Proof.
  intros Hxy.
  pose proof (floor_bounds x) as Hx. pose proof (floor_bounds y) as Hy.
  assert (Hlt : (IZR (floor x) < IZR (floor y + 1))%R).
  { rewrite plus_IZR. lra. }
  apply lt_IZR in Hlt. lia.
Qed.

(** [round] stays within one of the floor. *)
Lemma round_cases (x : R) :
  (round x = floor x /\ (x - IZR (floor x) <= 1/2)%R) \/
  (round x = floor x + 1 /\ (1/2 <= x - IZR (floor x))%R).
Proof.
  unfold round.
  destruct (Rlt_dec (x - IZR (floor x)) (1/2)) as [Hlt | Hge].
  - left. split; [reflexivity | lra].
  - destruct (Rlt_dec (1/2) (x - IZR (floor x))) as [Hgt | Hle].
    + right. split; [reflexivity | lra].
    + destruct (Z.even (floor x)).
      * left. split; [reflexivity | lra].
      * right. split; [reflexivity | lra].
Qed.

Lemma round_IZR (z : Z) : round (IZR z) = z.
Proof.
  unfold round. rewrite floor_IZR.
  destruct (Rlt_dec (IZR z - IZR z) (1/2)) as [_ | Hn]; [reflexivity | lra].
Qed.

Lemma round_le_upper (x : R) (n : Z) : (x <= IZR n)%R -> round x <= n.
Proof.
  intros Hx. pose proof (floor_bounds x) as Hf.
  destruct (round_cases x) as [[-> Hd] | [-> Hd]].
  - apply le_IZR. lra.
  - assert (Hlt : (IZR (floor x) < IZR n)%R) by lra.
    apply lt_IZR in Hlt. lia.
Qed.

Lemma round_ge_lower (x : R) (n : Z) : (IZR n <= x)%R -> n <= round x.
Proof.
  intros Hx. pose proof (floor_bounds x) as Hf.
  assert (Hlt : (IZR n < IZR (floor x + 1))%R).
  { rewrite plus_IZR. lra. }
  apply lt_IZR in Hlt.
  destruct (round_cases x) as [[-> _] | [-> _]]; lia.
Qed.

Lemma round_spec (x : R) :
  ((x - IZR (floor x) < 1/2)%R /\ round x = floor x) \/
  ((1/2 < x - IZR (floor x))%R /\ round x = floor x + 1) \/
  ((x - IZR (floor x) = 1/2)%R /\
   round x = if Z.even (floor x) then floor x else floor x + 1).
Proof.
  unfold round.
  destruct (Rlt_dec (x - IZR (floor x)) (1/2)) as [Hlt | Hge].
  - left. split; [assumption | reflexivity].
  - destruct (Rlt_dec (1/2) (x - IZR (floor x))) as [Hgt | Hle].
    + right. left. split; [assumption | reflexivity].
    + right. right. split; [lra | reflexivity].
Qed.

Lemma round_mono (x y : R) : (x <= y)%R -> round x <= round y.
Proof.
  intros Hxy. pose proof (floor_mono x y Hxy) as Hfl.
  destruct (Z.eq_dec (floor x) (floor y)) as [Heq | Hne].
  - destruct (round_spec x) as [[Hx ->] | [[Hx ->] | [Hx ->]]];
      destruct (round_spec y) as [[Hy ->] | [[Hy ->] | [Hy ->]]];
      rewrite Heq in *;
      try (destruct (Z.even (floor y)); lia);
      try lia; exfalso; lra.
  - destruct (round_cases x) as [[-> _] | [-> _]];
      destruct (round_cases y) as [[-> _] | [-> _]]; lia.
Qed.

(** A real within less than one half of an integer rounds to it. *)
Lemma round_near (x : R) (n : Z) :
  (IZR n - 1/2 < x < IZR n + 1/2)%R -> round x = n.
Proof.
  intros [Hlo Hhi].
  apply Z.le_antisymm.
  - pose proof (floor_bounds x) as Hf.
    destruct (round_cases x) as [[-> Hd] | [-> Hd]].
    + assert (Hlt : (IZR (floor x) < IZR (n + 1))%R) by (rewrite plus_IZR; lra).
      apply lt_IZR in Hlt. lia.
    + assert (Hlt : (IZR (floor x) < IZR n)%R) by lra.
      apply lt_IZR in Hlt. lia.
  - pose proof (floor_bounds x) as Hf.
    destruct (round_cases x) as [[-> Hd] | [-> Hd]].
    + assert (Hlt : (IZR (n - 1) < IZR (floor x))%R) by (rewrite minus_IZR; lra).
      apply lt_IZR in Hlt. lia.
    + assert (Hlt : (IZR (n - 1) < IZR (floor x + 1))%R).
      { rewrite minus_IZR, plus_IZR. lra. }
      apply lt_IZR in Hlt. lia.
Qed.

Lemma trunc_IZR (z : Z) : trunc (IZR z) = z.
Proof.
  unfold trunc. destruct (Rle_dec 0 (IZR z)).
  - apply floor_IZR.
  - rewrite <- opp_IZR, floor_IZR. lia.
Qed.

Lemma bind_ok {A B} (r : result A) (k : A -> result B) (b : B) :
  bind r k = Ok b -> exists a, r = Ok a /\ k a = Ok b.
Proof. destruct r as [a | e]; simpl; [eauto | discriminate]. Qed.


Lemma is_ok_false {A} (r : result A) : is_ok r = false <-> exists e, r = Err e.
Proof.
  destruct r; simpl; split; intros Hx;
    try discriminate; eauto; destruct Hx as [? Hx]; discriminate.
Qed.

End PyFacts.

(** ** The linear scorer and the calibrator *)

Module RiskEngineFacts.

Import RiskEngine Spec PyFacts.

Lemma get_weight (cfg : RiskConfig) (k : string) :
  Py.get (weights cfg) k 0.0%R = weight cfg k.
Proof.
  unfold Py.get, weight. destruct (weights cfg !! k); simpl; [reflexivity | lra].
Qed.

(** The branch-stable sigmoid of the source is the logistic function. *)
Lemma _sigmoid_logistic (x : R) : _sigmoid x = sigmoid x.
Proof.
  unfold _sigmoid, sigmoid.
  pose proof (exp_pos x) as Hx. pose proof (exp_pos (- x)) as Hnx.
  destruct (Rle_dec 0 x) as [Hle | Hgt].
  - replace 1.0%R with 1%R by lra. reflexivity.
  - replace 1.0%R with 1%R by lra.
    rewrite exp_Ropp. field. split; lra.
Qed.

Lemma _sigmoid_range (x : R) : (0 < _sigmoid x < 1)%R.
Proof.
  rewrite _sigmoid_logistic. unfold sigmoid.
  pose proof (exp_pos (- x)) as Hnx.
  split.
  - apply Rdiv_lt_0_compat; lra.
  - apply Rmult_lt_reg_r with (1 + exp (- x))%R; [lra |].
    unfold Rdiv. rewrite Rmult_assoc, Rinv_l by lra. lra.
Qed.

(** The loop of [linear_score] accumulates the weighted sum. *)
Lemma fold_linear_step (cfg : RiskConfig) (f : list (string * R)) :
  forall (s : R) (parts : list Part),
    fst (fold_left (linear_step cfg) f (s, parts)) = (s + weighted_sum cfg f)%R.
Proof.
  induction f as [| [k v] rest IH]; intros s parts; simpl.
  - lra.
  - rewrite IH, get_weight. lra.
Qed.

Lemma linear_score_total (f : list (string * R)) (cfg : RiskConfig) :
  fst (linear_score f cfg) =
  Z.max 0 (Z.min (Py.round (_sigmoid (scale cfg *
     fst (fold_left (linear_step cfg) f (Py.get (weights cfg) "bias" 0.0%R, []))
     + intercept cfg) * 100)) 100).
Proof.
  unfold linear_score.
  destruct (fold_left (linear_step cfg) f (Py.get (weights cfg) "bias" 0.0%R, []))
    as [s parts].
  reflexivity.
Qed.

(** A feature whose name has no configured weight does not move the score. *)
Lemma linear_score_absent_weight (cfg : RiskConfig) (f1 f2 : list (string * R))
    (k : string) (v : R) :
  weights cfg !! k = None ->
  fst (linear_score (f1 ++ (k, v) :: f2) cfg) = fst (linear_score (f1 ++ f2) cfg).
Proof.
  intros Hk. rewrite !linear_score_total, !fold_linear_step.
  assert (Hsum : weighted_sum cfg (f1 ++ (k, v) :: f2) = weighted_sum cfg (f1 ++ f2)).
  { induction f1 as [| [k1 v1] f1 IH]; simpl.
    - unfold weight. rewrite Hk. lra.
    - rewrite IH. reflexivity. }
  rewrite Hsum. reflexivity.
Qed.

(** C4. For every feature vector and configuration, [linear_score] returns
    [round(100 * sigmoid(intercept + scale * (bias + sum of weight[k] * f[k])))]
    clamped to [0, 100], where [weight] is 0.0 for a name that is absent
    from [cfg.weights]. *)
Theorem linear_score_is_formula (f : list (string * R)) (cfg : RiskConfig) :
  fst (linear_score f cfg) = linear_score_formula f cfg /\
  0 <= fst (linear_score f cfg) <= 100.
Proof.
  split.
  - rewrite linear_score_total, fold_linear_step, get_weight, _sigmoid_logistic.
    unfold linear_score_formula. cbv zeta.
    rewrite (Z.min_comm 100).
    replace (scale cfg * (weight cfg "bias" + weighted_sum cfg f) + intercept cfg)%R
      with (intercept cfg + scale cfg * (weight cfg "bias" + weighted_sum cfg f))%R
      by lra.
    rewrite (Rmult_comm (sigmoid _) 100). reflexivity.
  - rewrite linear_score_total. lia.
Qed.

(** The decay factor lies in (0, 1] and strictly decreases with the days. *)
Lemma ln_half_neg : (ln 0.5 < 0)%R.
Proof.
  rewrite <- ln_1. apply ln_increasing; lra.
Qed.

Lemma decay_factor_pos (d : Z) : (0 < decay_factor d)%R.
Proof. unfold decay_factor, Rpower. apply exp_pos. Qed.

Lemma decay_factor_le_1 (d : Z) : 0 <= d -> (decay_factor d <= 1)%R.
Proof.
  intros Hd. unfold decay_factor, Rpower.
  rewrite <- exp_0.
  assert (Hd' : (0 <= IZR d)%R) by (apply IZR_le; assumption).
  pose proof ln_half_neg as Hln.
  destruct (Req_dec (IZR d / 30 * ln 0.5) 0) as [-> | Hne]; [lra |].
  left. apply exp_increasing.
  assert (Hq : (0 <= IZR d / 30)%R) by lra.
  nra.
Qed.


Lemma post_rules_structure (total ps : Z) (fs : option Py.datetime)
    (now : Py.datetime) :
  apply_post_rules total ps fs now =
  Z.max 0 (Z.min (device_age_decay fs now (cold_start_cap ps total)) 100).
Proof.
  unfold apply_post_rules, device_age_decay, cold_start_cap, decay_factor,
    days_since_first_seen.
  destruct fs as [first |]; [| reflexivity].
  cbv zeta.
  replace 30.0%R with 30%R by lra.
  reflexivity.
Qed.

(** Decay never raises a score above its non-negative part. *)
Lemma decayed_le (t d : Z) :
  0 < d -> Py.round (IZR t * decay_factor d) <= Z.max t 0.
Proof.
  intros Hd. apply round_le_upper.
  pose proof (decay_factor_pos d) as Hpos.
  pose proof (decay_factor_le_1 d ltac:(lia)) as Hle.
  destruct (Z.le_gt_cases 0 t) as [Ht | Ht].
  - rewrite Z.max_l by assumption.
    assert (Ht' : (0 <= IZR t)%R) by (apply IZR_le; assumption). nra.
  - rewrite Z.max_r by lia.
    assert (Ht' : (IZR t < 0)%R) by (apply IZR_lt; assumption). nra.
Qed.

(** C2. The calibrator is the cold-start cap (clamp to at most 55 when
    there is no prior success) followed by the device-age decay (multiply
    by [0.5 ^ (days / 30)] and round to the integer score when the first-seen
    date is known and [days > 0], nothing when [days = 0]) and a final clamp
    to [0, 100]; with zero prior successes the result is at most 55. *)
Theorem apply_post_rules_cap_then_decay (total : Z) (prior_successes : Z)
    (first_seen : option Py.datetime) (now : Py.datetime) :
  apply_post_rules total prior_successes first_seen now =
    Z.max 0 (Z.min (device_age_decay first_seen now
                      (cold_start_cap prior_successes total)) 100) /\
  (forall delta : Z,
     device_age_decay (Some (now - delta mod Py.us_per_day)) now total = total) /\
  apply_post_rules total 0 first_seen now <= 55.
Proof.
  split; [apply post_rules_structure |]. split.
  - intros delta.
    unfold device_age_decay, days_since_first_seen, Py.timedelta_days.
    replace (now - (now - delta mod Py.us_per_day)) with (delta mod Py.us_per_day) by lia.
    rewrite Z.div_small; [reflexivity |].
    apply Z.mod_pos_bound. reflexivity.
  - rewrite post_rules_structure.
    unfold cold_start_cap. simpl (0 =? 0).  cbv iota.
    unfold device_age_decay.
    destruct first_seen as [first |]; [| lia].
    destruct (Z.ltb_spec 0 (days_since_first_seen now first)) as [Hd | Hd]; [| lia].
    pose proof (decayed_le (Z.min total 55) _ Hd). lia.
Qed.

Lemma days_of_whole_days (d : Z) :
  0 <= d -> days_since_first_seen (d * Instances.day) 0 = d.
Proof.
  intros Hd. unfold days_since_first_seen, Py.timedelta_days, Instances.day.
  rewrite Z.sub_0_r, Z.div_mul by discriminate. lia.
Qed.

Lemma decay_factor_tens (k : nat) :
  decay_factor (30 * Z.of_nat k) = (0.5 ^ k)%R.
Proof.
  unfold decay_factor.
  replace (IZR (30 * Z.of_nat k) / 30)%R with (INR k).
  - apply Rpower_pow. lra.
  - rewrite mult_IZR, <- INR_IZR_INZ. field.
Qed.

(** A new account is capped at 55; a known device halves the score of an
    established account after 30 days. *)
Example cold_start_caps_80 : apply_post_rules 80 0 None 0 = 55.
Proof. reflexivity. Qed.

Example thirty_days_halve_80 :
  apply_post_rules 80 3 (Some 0) (30 * Instances.day) = 40.
Proof.
  rewrite post_rules_structure. unfold cold_start_cap, device_age_decay.
  simpl (3 =? 0). cbv iota.
  rewrite days_of_whole_days by lia. simpl (0 <? 30). cbv iota.
  change 30 with (30 * Z.of_nat 1). rewrite decay_factor_tens.
  rewrite (round_near _ 40); [reflexivity |]. cbn [pow]. lra.
Qed.






(** ** The feature extractor *)

Lemma flag_true_false : flag true <> flag false.
Proof. unfold flag. lra. Qed.

Lemma flag_values (b : bool) :
  (flag b = 1%R /\ b = true) \/ (flag b = 0%R /\ b = false).
Proof. destruct b; unfold flag; [left | right]; split; try reflexivity; lra. Qed.

Lemma indicator_of_flag (f : list (string * R)) (k : string) (b : bool) (P : Prop) :
  feature f k = Some (flag b) -> (b = true <-> P) -> indicator f k P.
Proof.
  intros Hf HP. unfold indicator. rewrite Hf.
  destruct (flag_values b) as [[-> Hb] | [-> Hb]].
  - left. split; [reflexivity | apply HP, Hb].
  - right. split; [reflexivity |]. intros HPn. apply HP in HPn. congruence.
Qed.

(** The four city and hour features, as [login_features] computes them. *)
Lemma login_features_city_hour_values
    (recent_rows : list LoginEvent) (login_cities login_hours_hist : gmap string Z)
    (device_trust : gmap string bool) (ip_city : string) (is_private_ip : bool)
    (device_hash : option string) (known_device ip_changed : bool)
    (consecutive_fails : Z) (now : Py.datetime)
    (last_success_ts : option Py.datetime) (speed_kmh : option R) :
  let f := fst (login_features recent_rows login_cities login_hours_hist
                  device_trust ip_city is_private_ip device_hash known_device
                  ip_changed consecutive_fails now last_success_ts speed_kmh) in
  let prior := count_successes (all_but_last recent_rows) in
  let seen_city := Py.get login_cities ip_city 0 in
  let hour_count := Py.get login_hours_hist (pretty (Py.hour now)) 0 in
  let city_ok := negb (is_private_ip || String.eqb ip_city "Unknown") && (1 <=? prior) in
  feature f "new_city" = Some (flag (city_ok && (seen_city =? 0))) /\
  feature f "rare_city" = Some (flag (city_ok && ((seen_city <=? 2) && (0 <? seen_city)))) /\
  feature f "odd_hour" = Some (flag ((3 <=? prior) && (hour_count =? 0))) /\
  feature f "uncommon_hour" =
    Some (flag ((3 <=? prior) && ((hour_count <=? 2) && (0 <? hour_count)))).
Proof.
  intros f prior seen_city hour_count city_ok.
  subst f. unfold login_features.
  fold prior. fold seen_city. fold hour_count. fold city_ok.
  destruct city_ok; destruct (3 <=? prior);
    unfold feature; simpl; repeat split; reflexivity.
Qed.

(** C5, as stated, fails: a login from a private address (geo-degraded:
    the city is "Unknown") at 3 o'clock, after three successful logins that
    were all at 9 o'clock, has [odd_hour] = 1: the hour features do not look
    at the address, so not all four features are 0 in a geo-degraded case. *)
Lemma geo_degraded_odd_hour_counterexample :
  let rows := [Instances.success_event (Instances.at_hour 1 9);
               Instances.success_event (Instances.at_hour 2 9);
               Instances.success_event (Instances.at_hour 3 9);
               Instances.success_event (Instances.at_hour 4 3)] in
  let f := fst (login_features rows ∅ Instances.nine_oclock_hist ∅ "Unknown" true
                  (Some "d1") true false 0 (Instances.at_hour 4 3) None None) in
  feature f "new_city" = Some 0%R /\
  feature f "rare_city" = Some 0%R /\
  feature f "odd_hour" = Some 1%R /\
  feature f "odd_hour" <> Some 0%R.
Proof.
  intros rows f.
  pose proof (login_features_city_hour_values rows ∅ Instances.nine_oclock_hist ∅
                "Unknown" true (Some "d1") true false 0 (Instances.at_hour 4 3)
                None None) as H.
  cbv zeta in H. fold f in H.
  destruct H as (Hnew & Hrare & Hodd & _).
  rewrite Hnew, Hrare, Hodd.
  change (count_successes (all_but_last rows)) with 3.
  assert (Hcount : Py.get Instances.nine_oclock_hist
                     (pretty (Py.hour (Instances.at_hour 4 3))) 0 = 0)
    by (vm_compute; reflexivity).
  rewrite Hcount.
  split; [simpl; unfold flag; f_equal; lra |].
  split; [simpl; unfold flag; f_equal; lra |].
  split; [simpl; unfold flag; f_equal; lra |].
  simpl. unfold flag. intros Heq. inversion Heq. lra.
Qed.

(** C5, amended. [new_city] and [rare_city] are computed only when the
    address is neither private nor unresolved and there is at least one
    prior success (excluding the candidate): [new_city] = 1 iff the visit
    count of the city is 0, [rare_city] = 1 iff it is in (0, 2].  [odd_hour]
    and [uncommon_hour] are computed only when there are at least 3 prior
    successes: [odd_hour] = 1 iff the count of the candidate's hour is 0,
    [uncommon_hour] = 1 iff it is in (0, 2].  Each feature is 0 whenever its
    own condition fails; a geo-degraded login affects the two city features
    only. *)
Theorem login_features_city_hour
    (recent_rows : list LoginEvent) (login_cities login_hours_hist : gmap string Z)
    (device_trust : gmap string bool) (ip_city : string) (is_private_ip : bool)
    (device_hash : option string) (known_device ip_changed : bool)
    (consecutive_fails : Z) (now : Py.datetime)
    (last_success_ts : option Py.datetime) (speed_kmh : option R) :
  let f := fst (login_features recent_rows login_cities login_hours_hist
                  device_trust ip_city is_private_ip device_hash known_device
                  ip_changed consecutive_fails now last_success_ts speed_kmh) in
  let prior := count_successes (all_but_last recent_rows) in
  let seen_city := Py.get login_cities ip_city 0 in
  let hour_count := Py.get login_hours_hist (pretty (Py.hour now)) 0 in
  let city_eligible := is_private_ip = false /\ ip_city <> "Unknown" /\ 1 <= prior in
  let hour_eligible := 3 <= prior in
  indicator f "new_city" (city_eligible /\ seen_city = 0) /\
  indicator f "rare_city" (city_eligible /\ 0 < seen_city <= 2) /\
  indicator f "odd_hour" (hour_eligible /\ hour_count = 0) /\
  indicator f "uncommon_hour" (hour_eligible /\ 0 < hour_count <= 2).
Proof.
  intros f prior seen_city hour_count city_eligible hour_eligible.
  destruct (login_features_city_hour_values recent_rows login_cities
              login_hours_hist device_trust ip_city is_private_ip device_hash
              known_device ip_changed consecutive_fails now last_success_ts
              speed_kmh) as (Hnew & Hrare & Hodd & Hunc).
  fold f prior seen_city hour_count in Hnew, Hrare, Hodd, Hunc.
  assert (Hcity : negb (is_private_ip || String.eqb ip_city "Unknown") && (1 <=? prior) = true
                  <-> city_eligible).
  { unfold city_eligible.
    destruct is_private_ip; destruct (String.eqb_spec ip_city "Unknown");
      destruct (Z.leb_spec 1 prior); simpl; split;
      try discriminate; try (intros (? & ? & ?)); try congruence; try lia;
      intros _; repeat split; try assumption; try reflexivity. }
  assert (Hhour : (3 <=? prior) = true <-> hour_eligible).
  { unfold hour_eligible. apply Z.leb_le. }
  repeat split.
  - eapply indicator_of_flag; [exact Hnew |].
    rewrite <- Hcity, <- Z.eqb_eq. apply andb_true_iff.
  - eapply indicator_of_flag; [exact Hrare |].
    rewrite <- Hcity. split.
    + intros Hb. apply andb_true_iff in Hb as [Hc Hs].
      apply andb_true_iff in Hs as [H1 H2].
      apply Z.leb_le in H1. apply Z.ltb_lt in H2. split; [exact Hc | lia].
    + intros [Hc Hs]. apply andb_true_iff. split; [exact Hc |].
      apply andb_true_iff. split; [apply Z.leb_le | apply Z.ltb_lt]; lia.
  - eapply indicator_of_flag; [exact Hodd |].
    rewrite <- Hhour, <- Z.eqb_eq. apply andb_true_iff.
  - eapply indicator_of_flag; [exact Hunc |].
    rewrite <- Hhour. split.
    + intros Hb. apply andb_true_iff in Hb as [Hc Hs].
      apply andb_true_iff in Hs as [H1 H2].
      apply Z.leb_le in H1. apply Z.ltb_lt in H2. split; [exact Hc | lia].
    + intros [Hc Hs]. apply andb_true_iff. split; [exact Hc |].
      apply andb_true_iff. split; [apply Z.leb_le | apply Z.ltb_lt]; lia.
Qed.

End RiskEngineFacts.

(** ** Runtime configuration *)

Module ConfigFacts.

Import RiskEngine Spec PyFacts.

Section Update.
Context `{Py.Parsers}.

Lemma assign_field_cases {A} (new_cfg : gmap string Py.val) (key : string)
    (conv : Py.val -> Py.result A) (set : RiskConfig -> A -> RiskConfig)
    (c : RiskConfig) :
  (exists v a, new_cfg !! key = Some v /\ conv v = Py.Ok a /\
     assign_field new_cfg key conv set c = (Py.Ok tt, set c a)) \/
  (new_cfg !! key = None /\ assign_field new_cfg key conv set c = (Py.Ok tt, c)) \/
  (exists v e, new_cfg !! key = Some v /\ conv v = Py.Err e /\
     assign_field new_cfg key conv set c = (Py.Err e, c)).
Proof.
  unfold assign_field.
  destruct (new_cfg !! key) as [v |]; [| right; left; split; reflexivity].
  destruct (conv v) as [a | e] eqn:Hc.
  - left. exists v, a. repeat split; assumption || reflexivity.
  - right. right. exists v, e. repeat split; assumption || reflexivity.
Qed.

Lemma assign_weights_cases (new_cfg : gmap string Py.val) (c : RiskConfig) :
  (exists c', assign_weights new_cfg c = (Py.Ok tt, c') /\
     malformed new_cfg FWeights = false /\
     scale c' = scale c /\ intercept c' = intercept c /\
     step_up_threshold c' = step_up_threshold c /\
     hard_deny_threshold c' = hard_deny_threshold c) \/
  (exists e, assign_weights new_cfg c = (Py.Err e, c) /\
     malformed new_cfg FWeights = true).
Proof.
  unfold assign_weights, malformed.
  destruct (new_cfg !! "weights") as [[| | | | | items] |];
    try (left; eexists; repeat split; reflexivity).
  destruct (float_items items) as [ws | e].
  - left. eexists. repeat split; reflexivity.
  - right. exists e. split; reflexivity.
Qed.

Lemma update_statements_cases (new_cfg : gmap string Py.val) (c : RiskConfig) :
  (exists c', update_statements new_cfg c = (Py.Ok tt, c') /\
     first_malformed new_cfg = None) \/
  (exists e c' f, update_statements new_cfg c = (Py.Err e, c') /\
     first_malformed new_cfg = Some f /\
     (forall g, (field_index f <= field_index g)%nat -> retained g c c') /\
     (f = FWeights -> c' = c)).
Proof.
  unfold update_statements, seq_stmt, first_malformed. cbn [List.find].
  destruct (assign_weights_cases new_cfg c)
    as [(c0 & -> & -> & Hs0 & Hi0 & Ht0 & Hh0) | (e0 & -> & ->)].
  2:{ right. exists e0, c, FWeights. repeat split; try reflexivity.
      intros []; simpl; intros; reflexivity. }
  cbv iota. unfold malformed.
  destruct (assign_field_cases new_cfg "scale" Py.float set_scale c0)
    as [(v1 & a1 & -> & -> & ->) | [(-> & ->) | (v1 & e1 & -> & -> & ->)]];
    simpl Py.is_ok; simpl negb; cbv iota.
  3:{ right. exists e1, c0, FScale. repeat split; try reflexivity; try discriminate.
      intros []; simpl; intros; try lia; congruence. }
  all: match goal with
       | |- context [assign_field ?m "intercept" Py.float set_intercept ?c1] =>
           destruct (assign_field_cases m "intercept" Py.float set_intercept c1)
             as [(v2 & a2 & -> & -> & ->) | [(-> & ->) | (v2 & e2 & -> & -> & ->)]]
       end;
    simpl Py.is_ok; simpl negb; cbv iota;
    try (right; do 2 eexists; exists FIntercept;
         repeat split; try reflexivity; try discriminate;
         intros []; simpl; intros; try lia; congruence).
  all: match goal with
       | |- context [assign_field ?m "step_up_threshold" Py.int set_step_up_threshold ?c1] =>
           destruct (assign_field_cases m "step_up_threshold" Py.int
                       set_step_up_threshold c1)
             as [(v3 & a3 & -> & -> & ->) | [(-> & ->) | (v3 & e3 & -> & -> & ->)]]
       end;
    simpl Py.is_ok; simpl negb; cbv iota;
    try (right; do 2 eexists; exists FStepUp;
         repeat split; try reflexivity; try discriminate;
         intros []; simpl; intros; try lia; congruence).
  all: match goal with
       | |- context [assign_field ?m "hard_deny_threshold" Py.int set_hard_deny_threshold ?c1] =>
           destruct (assign_field_cases m "hard_deny_threshold" Py.int
                       set_hard_deny_threshold c1)
             as [(v4 & a4 & -> & -> & ->) | [(-> & ->) | (v4 & e4 & -> & -> & ->)]]
       end;
    simpl Py.is_ok; simpl negb; cbv iota;
    try (left; eexists; split; reflexivity);
    try (right; do 2 eexists; exists FHardDeny;
         repeat split; try reflexivity; try discriminate;
         intros []; simpl; intros; try lia; congruence).
Qed.

(** The statements that precede the first malformed field have run: each
    of those fields holds the value that the update gives it. *)
Lemma update_statements_assigned (new_cfg : gmap string Py.val) (c : RiskConfig)
    (f : Field) :
  first_malformed new_cfg = Some f ->
  forall g, (field_index g < field_index f)%nat ->
    Views.assigned g new_cfg c (snd (update_statements new_cfg c)).
Proof.
  unfold update_statements, seq_stmt, assign_weights, assign_field,
    first_malformed, malformed, Views.assigned, Views.updated_weights,
    Views.updated_float, Views.updated_int.
  cbn [List.find].
  destruct (new_cfg !! "weights") as [[| | | | | items] |];
    try destruct (float_items items) as [ws | e0];
    simpl Py.is_ok; simpl negb; cbv iota;
    try (intros [= <-] []; simpl; intros; lia).
  all: destruct (new_cfg !! "scale") as [v1 |];
    try destruct (Py.float v1) as [a1 | e1];
    simpl Py.is_ok; simpl negb; cbv iota;
    try (intros [= <-] []; simpl; intros; try lia; reflexivity).
  all: destruct (new_cfg !! "intercept") as [v2 |];
    try destruct (Py.float v2) as [a2 | e2];
    simpl Py.is_ok; simpl negb; cbv iota;
    try (intros [= <-] []; simpl; intros; try lia; reflexivity).
  all: destruct (new_cfg !! "step_up_threshold") as [v3 |];
    try destruct (Py.int v3) as [a3 | e3];
    simpl Py.is_ok; simpl negb; cbv iota;
    try (intros [= <-] []; simpl; intros; try lia; reflexivity).
  all: destruct (new_cfg !! "hard_deny_threshold") as [v4 |];
    try destruct (Py.int v4) as [a4 | e4];
    simpl Py.is_ok; simpl negb; cbv iota;
    try (intros [= <-] []; simpl; intros; try lia; reflexivity);
    try discriminate.
Qed.

(** C8, amended. A malformed update makes [update_config] raise; the
    malformed field and every field that is assigned after it (order:
    weights, scale, intercept, step_up_threshold, hard_deny_threshold)
    retain their prior values, and when the weights are the malformed field
    the whole prior configuration is retained.  Fields assigned before the
    malformed one keep their new values: each holds the converted entry of
    the update when the update has one (there is no rollback). *)
Theorem update_config_failure (new_cfg : gmap string Py.val) (CONFIG : RiskConfig)
    (f : Field) (Hf : first_malformed new_cfg = Some f) :
  Py.is_ok (fst (update_config new_cfg CONFIG)) = false /\
  (forall g, (field_index f <= field_index g)%nat ->
     retained g CONFIG (snd (update_config new_cfg CONFIG))) /\
  (f = FWeights -> snd (update_config new_cfg CONFIG) = CONFIG) /\
  (forall g, (field_index g < field_index f)%nat ->
     Views.assigned g new_cfg CONFIG (snd (update_config new_cfg CONFIG))).
Proof.
  pose proof (update_statements_assigned new_cfg CONFIG f Hf) as Hnew.
  unfold update_config in *.
  destruct (update_statements_cases new_cfg CONFIG)
    as [(c' & Hrun & Hnone) | (e & c' & f' & Hrun & Hsome & Hret & Hw)].
  - congruence.
  - rewrite Hrun in *. simpl in *.
    assert (f' = f) as -> by congruence.
    repeat split; assumption.
Qed.

(** A well-formed update never raises. *)
Lemma update_config_success (new_cfg : gmap string Py.val) (CONFIG : RiskConfig) :
  first_malformed new_cfg = None ->
  Py.is_ok (fst (update_config new_cfg CONFIG)) = true.
Proof.
  intros Hnone. unfold update_config.
  destruct (update_statements_cases new_cfg CONFIG)
    as [(c' & Hrun & _) | (e & c' & f' & Hrun & Hsome & _)].
  - rewrite Hrun. reflexivity.
  - congruence.
Qed.

End Update.

(** A request that sets new weights and an explicit null scale:
    [{"weights": {"bias": 9.0}, "scale": null}]. *)
Lemma null_scale_dict :
  Main.model_to_dict_exclude_unset
    {| Main.in_weights := Some (Some [("bias", 9%R)]);
       Main.in_scale := Some None;
       Main.in_intercept := None;
       Main.in_step_up_threshold := None;
       Main.in_hard_deny_threshold := None |}
  = <["weights" := Py.VDict [("bias", Py.VFloat 9)]]> (<["scale" := Py.VNone]> ∅).
Proof. reflexivity. Qed.

Lemma null_scale_run (c : RiskConfig) :
  @update_config Instances.no_literals
    (<["weights" := Py.VDict [("bias", Py.VFloat 9)]]> (<["scale" := Py.VNone]> ∅)) c
  = (Py.Err (Py.Raise Py.TypeError
       "float() argument must be a string or a real number, not 'NoneType'"),
     set_weights c (<["bias" := 9%R]> (weights c))).
Proof.
  unfold update_config, update_statements, seq_stmt, assign_weights, assign_field.
  rewrite lookup_insert_eq. simpl float_items. cbv iota. cbv beta.
  rewrite lookup_insert_ne by discriminate. rewrite lookup_insert_eq.
  reflexivity.
Qed.

Lemma default_bias : weights CONFIG_initial !! "bias" = Some (-1.5)%R.
Proof. reflexivity. Qed.

(** C8, as stated, fails: the update [{"weights": {"bias": 9.0},
    "scale": null}] makes [update_config] raise at the scale, after the
    weights have been assigned; the bias is 9.0 instead of -1.5 afterwards.
    The request passes the typed boundary of [put_risk_config], whose
    fields are all optional. *)
Lemma update_config_partial_counterexample :
  let body := {| Main.in_weights := Some (Some [("bias", 9%R)]);
                 Main.in_scale := Some None;
                 Main.in_intercept := None;
                 Main.in_step_up_threshold := None;
                 Main.in_hard_deny_threshold := None |} in
  let g := Main.startup 60 90 in
  let out := @Main.put_risk_config Instances.no_literals body g in
  Py.is_ok (fst out) = false /\
  weights (Main.CONFIG g) !! "bias" = Some (-1.5)%R /\
  weights (Main.CONFIG (snd out)) !! "bias" = Some 9%R /\
  Main.CONFIG (snd out) <> Main.CONFIG g.
Proof.
  intros body g out.
  assert (Hout : out =
    (Py.Err (Py.Raise Py.TypeError
       "float() argument must be a string or a real number, not 'NoneType'"),
     {| Main.RISK_STEP_UP_THRESHOLD := 60; Main.RISK_HARD_DENY := 90;
        Main.CONFIG := set_weights (Main.CONFIG g)
                         (<["bias" := 9%R]> (weights (Main.CONFIG g))) |})).
  { unfold out, Main.put_risk_config. unfold body. rewrite null_scale_dict.
    rewrite null_scale_run. reflexivity. }
  rewrite Hout. simpl fst. simpl snd.
  assert (Hnew : weights (set_weights (Main.CONFIG g)
                   (<["bias" := 9%R]> (weights (Main.CONFIG g)))) !! "bias" = Some 9%R).
  { simpl weights. apply lookup_insert_eq. }
  split; [reflexivity |]. split; [reflexivity |]. split; [exact Hnew |].
  intros Heq.
  assert (Heq' : set_weights (Main.CONFIG g)
                   (<["bias" := 9%R]> (weights (Main.CONFIG g))) = Main.CONFIG g)
    by exact Heq.
  assert (Hold : weights (Main.CONFIG g) !! "bias" = Some (-1.5)%R) by reflexivity.
  rewrite Heq', Hold in Hnew. inversion Hnew. lra.
Qed.

Lemma null_scale_first_malformed :
  @first_malformed Instances.no_literals
    (<["weights" := Py.VDict [("bias", Py.VFloat 9)]]> (<["scale" := Py.VNone]> ∅))
  = Some FScale.
Proof.
  unfold first_malformed. cbn [List.find]. unfold malformed.
  rewrite lookup_insert_eq. simpl.
  rewrite lookup_insert_ne by discriminate. rewrite lookup_insert_eq.
  reflexivity.
Qed.

Lemma update_config_failure_witness :
  let new_cfg : gmap string Py.val :=
    <["weights" := Py.VDict [("bias", Py.VFloat 9)]]> (<["scale" := Py.VNone]> ∅) in
  let out := @update_config Instances.no_literals new_cfg CONFIG_initial in
  @first_malformed Instances.no_literals new_cfg = Some FScale /\
  Py.is_ok (fst out) = false /\
  scale (snd out) = scale CONFIG_initial /\
  weights (snd out)
  = @Views.updated_weights Instances.no_literals new_cfg CONFIG_initial.
Proof.
  intros new_cfg out.
  destruct (@update_config_failure Instances.no_literals new_cfg CONFIG_initial
              FScale null_scale_first_malformed) as (Hraise & Hkept & _ & Hnew).
  split; [exact null_scale_first_malformed |].
  split; [exact Hraise |].
  split; [apply (Hkept FScale); simpl; lia |].
  apply (Hnew FWeights). simpl. lia.
Defined.

(** Through [put_risk_config] the module thresholds are assigned only after
    [update_config] has returned: a failing call leaves them as they were,
    and a successful call leaves them equal to those of the configuration. *)
Lemma put_risk_config_thresholds `{Py.Parsers} (body : Main.RiskConfigIn)
    (g : Main.Globals) :
  let out := Main.put_risk_config body g in
  (Py.is_ok (fst out) = false ->
     Main.RISK_STEP_UP_THRESHOLD (snd out) = Main.RISK_STEP_UP_THRESHOLD g /\
     Main.RISK_HARD_DENY (snd out) = Main.RISK_HARD_DENY g) /\
  (Py.is_ok (fst out) = true -> aligned (snd out)).
Proof.
  unfold Main.put_risk_config, update_config.
  destruct (update_statements _ (Main.CONFIG g)) as [[u | e] c]; simpl.
  - split; [discriminate |]. intros _. split; reflexivity.
  - split; [| discriminate]. intros _. split; reflexivity.
Qed.

Lemma startup_aligned (s h : Z) : aligned (Main.startup s h).
Proof. split; reflexivity. Qed.

End ConfigFacts.

(** ** Threat-intelligence fusion and the decision policy *)

Module MainFacts.

Import RiskEngine Main Spec.

Lemma bump_values :
  ThreatIntel.bump "ti_bad_ip" = 30 /\ ThreatIntel.bump "ti_tor_exit" = 25 /\
  ThreatIntel.bump "ti_bad_asn" = 15 /\ ThreatIntel.bump "ti_disposable_email" = 15 /\
  ThreatIntel.bump "ti_breached_cred" = 0.
Proof. repeat split; reflexivity. Qed.

Section Fusion.
Context `{ThreatIntel.IpAddress}.

(** The bump that [lookup_ip] suggests is the sum of the bumps of the
    flags that it raises. *)
Lemma lookup_ip_suggests (TI_ENABLE : bool) (st : ThreatIntel.State) (ip : string) :
  let r := ThreatIntel.lookup_ip TI_ENABLE st ip in
  ThreatIntel.ti_score_bump_suggest r =
    sum_bumps (applicable_bumps (ThreatIntel.ti_bad_ip r) (ThreatIntel.ti_tor_exit r)
                 (ThreatIntel.ti_bad_asn r) false false) /\
  ThreatIntel.ti_bad_asn r = false /\
  (ThreatIntel.ti_bad_ip r =
     TI_ENABLE && bool_decide (is_Some (ThreatIntel.ip_address ip))
     && ThreatIntel._ip_in (ThreatIntel.ip_bad st) ip).
Proof.
  unfold ThreatIntel.lookup_ip, ThreatIntel._asn_for_ip.
  destruct TI_ENABLE; simpl; [| repeat split; reflexivity].
  destruct (ThreatIntel.ip_address ip) as [a |] eqn:Hip; simpl;
    [| repeat split; reflexivity].
  destruct (ThreatIntel._ip_in (ThreatIntel.ip_bad st) ip);
    destruct (ThreatIntel._ip_in (ThreatIntel.ip_tor st) ip);
    simpl; repeat split; reflexivity.
Qed.

Lemma fusion_total (base extra_ip : Z) (parts : list string)
    (ti_ip : ThreatIntel.IpFlags) (ti_email : ThreatIntel.EmailFlags)
    (ti_breach : bool) :
  fst (login_ti_fusion base parts ti_ip ti_email ti_breach) =
  Z.min 100 (base + (ThreatIntel.ti_score_bump_suggest ti_ip
                     + (if ThreatIntel.ti_disposable_email ti_email
                        then ThreatIntel.bump "ti_disposable_email" else 0)
                     + (if ti_breach then ThreatIntel.bump "ti_breached_cred" else 0))).
Proof.
  unfold login_ti_fusion.
  destruct (ThreatIntel.ti_disposable_email ti_email); destruct ti_breach;
    simpl; f_equal; lia.
Qed.

(** C3. The fused score is [min(100, calibrated + sum of the applicable
    fixed bumps)]; the bad-IP bump is 30, so a bad IP alone takes a
    calibrated score of 50 to exactly 80, and a bad IP takes every
    calibrated score of 70 or more to exactly 100. *)
Theorem ti_fusion_adds_bumps (TI_ENABLE : bool) (st : ThreatIntel.State)
    (ip email : string) (base_score : Z) (parts : list string) :
  let ti_ip := ThreatIntel.lookup_ip TI_ENABLE st ip in
  let ti_email := ThreatIntel.check_email_domain TI_ENABLE st email in
  let ti_breach := ThreatIntel.check_breached_cred email in
  let total := fst (login_ti_fusion base_score parts ti_ip ti_email ti_breach) in
  total = Z.min 100 (base_score + sum_bumps
            (applicable_bumps (ThreatIntel.ti_bad_ip ti_ip)
               (ThreatIntel.ti_tor_exit ti_ip) (ThreatIntel.ti_bad_asn ti_ip)
               (ThreatIntel.ti_disposable_email ti_email) ti_breach)) /\
  ThreatIntel.bump "ti_bad_ip" = 30 /\
  (ThreatIntel.ti_bad_ip ti_ip = true -> ThreatIntel.ti_tor_exit ti_ip = false ->
   ThreatIntel.ti_disposable_email ti_email = false ->
   base_score = 50 -> total = 80) /\
  (ThreatIntel.ti_bad_ip ti_ip = true -> 70 <= base_score -> total = 100).
Proof.
  intros ti_ip ti_email ti_breach total.
  destruct (lookup_ip_suggests TI_ENABLE st ip) as (Hsug & Hasn & _).
  fold ti_ip in Hsug, Hasn.
  assert (Htotal : total = Z.min 100 (base_score + sum_bumps
            (applicable_bumps (ThreatIntel.ti_bad_ip ti_ip)
               (ThreatIntel.ti_tor_exit ti_ip) (ThreatIntel.ti_bad_asn ti_ip)
               (ThreatIntel.ti_disposable_email ti_email) ti_breach))).
  { unfold total. rewrite (fusion_total base_score 0), Hsug, Hasn.
    unfold ti_breach, ThreatIntel.check_breached_cred.
    destruct (ThreatIntel.ti_bad_ip ti_ip); destruct (ThreatIntel.ti_tor_exit ti_ip);
      destruct (ThreatIntel.ti_disposable_email ti_email); reflexivity. }
  split; [exact Htotal |]. split; [reflexivity |].
  rewrite Htotal, Hasn. unfold ti_breach, ThreatIntel.check_breached_cred.
  split.
  - intros -> -> -> ->. reflexivity.
  - intros -> Hbase.
    destruct (ThreatIntel.ti_tor_exit ti_ip);
      destruct (ThreatIntel.ti_disposable_email ti_email);
      destruct bump_values as (B1 & B2 & B3 & B4 & B5);
      unfold applicable_bumps, sum_bumps; cbn [app fold_right];
      rewrite ?B1, ?B2, ?B4, ?B5; lia.
Qed.

End Fusion.

(** A feed that lists 203.0.113.7 as a bad address, and nothing else. *)
Lemma ti_fusion_adds_bumps_witness :
  let st := @ThreatIntel.Build_State Instances.exact_match_ips
              ["203.0.113.7"] [] ∅ ∅ in
  let ti_ip := @ThreatIntel.lookup_ip Instances.exact_match_ips true st "203.0.113.7" in
  let ti_email := @ThreatIntel.check_email_domain Instances.exact_match_ips true st
                    "user@example.org" in
  ThreatIntel.ti_bad_ip ti_ip = true /\
  fst (login_ti_fusion 50 [] ti_ip ti_email false) = 80 /\
  fst (login_ti_fusion 70 [] ti_ip ti_email false) = 100.
Proof.
  intros st ti_ip ti_email.
  destruct (@ti_fusion_adds_bumps Instances.exact_match_ips true st "203.0.113.7"
              "user@example.org" 50 []) as (_ & _ & H80 & _).
  destruct (@ti_fusion_adds_bumps Instances.exact_match_ips true st "203.0.113.7"
              "user@example.org" 70 []) as (_ & _ & _ & H100).
  split; [reflexivity |]. split.
  - apply H80; reflexivity.
  - apply H100; [reflexivity | lia].
Defined.

Lemma had_prior_success_existsb (recent : list LoginEvent) :
  existsb ev_success recent = true <-> had_prior_success recent.
Proof.
  unfold had_prior_success. rewrite existsb_exists. reflexivity.
Qed.

(** The decision in terms of the module thresholds that [login] reads. *)
Lemma login_decision_cases (g : Globals) (recent : list LoginEvent)
    (total_score : Z) (parts : list string) (ip device_hash : option string)
    (now : Py.datetime) :
  let d := decision_of (snd (login_decision g recent total_score parts ip
                               device_hash now)) in
  (d = HARD_DENY /\ RISK_HARD_DENY g <= total_score /\ had_prior_success recent) \/
  (d = STEP_UP /\ ~ (RISK_HARD_DENY g <= total_score /\ had_prior_success recent)
     /\ RISK_STEP_UP_THRESHOLD g <= total_score) \/
  (d = ALLOW /\ ~ (RISK_HARD_DENY g <= total_score /\ had_prior_success recent)
     /\ total_score < RISK_STEP_UP_THRESHOLD g).
Proof.
  unfold login_decision.
  pose proof (had_prior_success_existsb recent) as Hhad.
  destruct (Z.leb_spec (RISK_HARD_DENY g) total_score) as [Hh | Hh];
    destruct (existsb ev_success recent); simpl.
  - left. repeat split; [assumption | apply Hhad; reflexivity].
  - destruct (Z.leb_spec (RISK_STEP_UP_THRESHOLD g) total_score); simpl;
      [right; left | right; right]; repeat split; try assumption;
      intros [_ Hs]; apply Hhad in Hs; discriminate.
  - destruct (Z.leb_spec (RISK_STEP_UP_THRESHOLD g) total_score); simpl;
      [right; left | right; right]; repeat split; try assumption;
      intros [Hs _]; lia.
  - destruct (Z.leb_spec (RISK_STEP_UP_THRESHOLD g) total_score); simpl;
      [right; left | right; right]; repeat split; try assumption;
      intros [Hs _]; lia.
Qed.

Lemma count_successes_zero (recent : list LoginEvent) :
  count_successes recent = 0 <-> ~ had_prior_success recent.
Proof.
  unfold count_successes, had_prior_success.
  induction recent as [| r rest IH].
  - simpl. split; [intros _ (e & [] & _) | reflexivity].
  - rewrite filter_cons. destruct (decide (ev_success r = true)) as [Hr | Hr].
    + simpl. split; [lia |]. intros Hno. exfalso. apply Hno.
      exists r. split; [left; reflexivity | exact Hr].
    + rewrite IH. split.
      * intros Hno (e & [-> | Hin] & He); [contradiction |].
        apply Hno. exists e. split; assumption.
      * intros Hno (e & Hin & He). apply Hno.
        exists e. split; [right; exact Hin | exact He].
Qed.

(** The policy in terms of the module thresholds that [login] reads: a
    finalized attempt with fused score S is hard-denied iff S >= the
    hard-deny threshold and the history before the candidate holds a
    successful login; otherwise step-up is signalled iff S >= the step-up
    threshold, and the attempt is allowed otherwise.  An account with zero
    prior successful logins is never hard-denied, however large S is. *)
Theorem login_decision_policy (g : Globals) (recent : list LoginEvent)
    (S : Z) (parts : list string) (ip device_hash : option string)
    (now : Py.datetime) :
  let d := decision_of (snd (login_decision g recent S parts ip device_hash now)) in
  let deny := RISK_HARD_DENY g <= S /\ had_prior_success recent in
  (d = HARD_DENY <-> deny) /\
  (d = STEP_UP <-> ~ deny /\ RISK_STEP_UP_THRESHOLD g <= S) /\
  (d = ALLOW <-> ~ deny /\ S < RISK_STEP_UP_THRESHOLD g) /\
  (count_successes recent = 0 -> d <> HARD_DENY).
Proof.
  intros d deny.
  pose proof (login_decision_cases g recent S parts ip device_hash now) as Hc.
  cbv zeta in Hc. fold d in Hc. fold deny in Hc.
  rewrite count_successes_zero.
  destruct Hc as [(Hdec & Hd) | [(Hdec & Hn & Hd) | (Hdec & Hn & Hd)]];
    rewrite Hdec.
  - split; [split; [intros _; exact Hd | reflexivity] |].
    split; [split; [discriminate | intros [Hn _]; contradiction] |].
    split; [split; [discriminate | intros [Hn _]; contradiction] |].
    intros Hno. destruct Hd as [_ Hhad]. contradiction.
  - split; [split; [discriminate | intros Hdeny; contradiction] |].
    split; [split; [intros _; split; assumption | reflexivity] |].
    split; [split; [discriminate | intros [_ Hlt]; lia] |].
    intros _. discriminate.
  - split; [split; [discriminate | intros Hdeny; contradiction] |].
    split; [split; [discriminate | intros [_ Hge]; lia] |].
    split; [split; [intros _; split; assumption | reflexivity] |].
    intros _. discriminate.
Qed.

Lemma login_decision_policy_witness :
  count_successes ([] : list LoginEvent) = 0 /\
  decision_of (snd (login_decision (startup 60 90) [] 100 [] None None 0)) <> HARD_DENY.
Proof.
  split; [reflexivity |].
  destruct (login_decision_policy (startup 60 90) [] 100 [] None None 0)
    as (_ & _ & _ & Hnever).
  apply Hnever. reflexivity.
Defined.

(** While the module thresholds mirror the configuration, the policy
    reads in terms of the thresholds of the [RiskConfig]. *)
Corollary login_decision_policy_config (g : Globals) (recent : list LoginEvent)
    (S : Z) (parts : list string) (ip device_hash : option string)
    (now : Py.datetime) :
  aligned g ->
  let d := decision_of (snd (login_decision g recent S parts ip device_hash now)) in
  let deny := hard_deny_threshold (CONFIG g) <= S /\ had_prior_success recent in
  (d = HARD_DENY <-> deny) /\
  (d = STEP_UP <-> ~ deny /\ step_up_threshold (CONFIG g) <= S) /\
  (d = ALLOW <-> ~ deny /\ S < step_up_threshold (CONFIG g)).
Proof.
  intros [Hs Hh] d deny.
  pose proof (login_decision_cases g recent S parts ip device_hash now) as Hc.
  cbv zeta in Hc. fold d in Hc. rewrite Hs, Hh in Hc. fold deny in Hc.
  destruct Hc as [(Hdec & Hd) | [(Hdec & Hn & Hd) | (Hdec & Hn & Hd)]];
    rewrite Hdec.
  - split; [split; [intros _; exact Hd | reflexivity] |].
    split; [split; [discriminate | intros [Hn _]; contradiction] |].
    split; [discriminate | intros [Hn _]; contradiction].
  - split; [split; [discriminate | intros Hdeny; contradiction] |].
    split; [split; [intros _; split; assumption | reflexivity] |].
    split; [discriminate | intros [_ Hlt]; lia].
  - split; [split; [discriminate | intros Hdeny; contradiction] |].
    split; [split; [discriminate | intros [_ Hge]; lia] |].
    split; [intros _; split; assumption | reflexivity].
Qed.

(** The hard-deny threshold is the last field that [update_config]
    assigns: whatever requests are made, successful or not, the threshold
    that [login] reads stays that of the configuration. *)
Lemma put_risk_config_hard_deny `{Py.Parsers} (body : RiskConfigIn) (g : Globals) :
  RISK_HARD_DENY g = hard_deny_threshold (CONFIG g) ->
  RISK_HARD_DENY (snd (put_risk_config body g))
  = hard_deny_threshold (CONFIG (snd (put_risk_config body g))).
Proof.
  intros Hg. unfold put_risk_config, update_config.
  destruct (ConfigFacts.update_statements_cases
              (model_to_dict_exclude_unset body) (CONFIG g))
    as [(c' & -> & _) | (e & c' & f & -> & _ & Hret & _)]; simpl.
  - reflexivity.
  - rewrite Hg. symmetry. apply (Hret FHardDeny). destruct f; simpl; lia.
Qed.

(** Hence the hard-deny half of the policy reads in terms of the
    [RiskConfig] after any sequence of requests. *)
Lemma login_hard_deny_config (g : Globals) (recent : list LoginEvent)
    (S : Z) (parts : list string) (ip device_hash : option string)
    (now : Py.datetime) :
  RISK_HARD_DENY g = hard_deny_threshold (CONFIG g) ->
  let d := decision_of (snd (login_decision g recent S parts ip device_hash now)) in
  (d = HARD_DENY <-> hard_deny_threshold (CONFIG g) <= S /\ had_prior_success recent) /\
  (count_successes recent = 0 -> d <> HARD_DENY).
Proof.
  intros Hg d.
  pose proof (login_decision_cases g recent S parts ip device_hash now) as Hc.
  cbv zeta in Hc. fold d in Hc. rewrite Hg in Hc.
  rewrite count_successes_zero.
  destruct Hc as [(Hdec & Hd) | [(Hdec & Hn & Hd) | (Hdec & Hn & Hd)]];
    rewrite Hdec.
  - split; [split; [intros _; exact Hd | reflexivity] |].
    intros Hno. destruct Hd as [_ Hhad]. contradiction.
  - split; [split; [discriminate | intros Hdeny; contradiction] | discriminate].
  - split; [split; [discriminate | intros Hdeny; contradiction] | discriminate].
Qed.

(** The request [{"step_up_threshold": 10, "hard_deny_threshold": null}]
    raises at [int(None)], after the step-up threshold of the configuration
    has been assigned and before the module thresholds are. *)
Lemma null_hard_deny_run `{Py.Parsers} (g : Globals) :
  put_risk_config Samples.null_hard_deny_body g
  = (Py.Err (Py.Raise Py.TypeError
       "int() argument must be a string, a bytes-like object or a real number, not 'NoneType'"),
     {| RISK_STEP_UP_THRESHOLD := RISK_STEP_UP_THRESHOLD g;
        RISK_HARD_DENY := RISK_HARD_DENY g;
        CONFIG := set_step_up_threshold (CONFIG g) 10 |}).
Proof.
  unfold put_risk_config, update_config, update_statements, seq_stmt,
    assign_weights, assign_field.
  change (model_to_dict_exclude_unset Samples.null_hard_deny_body)
    with (<["step_up_threshold" := Py.VInt 10]>
            (<["hard_deny_threshold" := Py.VNone]> (∅ : gmap string Py.val))).
  rewrite !lookup_insert_ne by discriminate.
  rewrite !lookup_empty.
  rewrite lookup_insert_eq.
  rewrite lookup_insert_ne by discriminate. rewrite lookup_insert_eq.
  reflexivity.
Qed.

(** C1. The claim fails on the code in one reachable state.  On a server
    started with the thresholds s and h (60 and 90 by default), the
    request [{"step_up_threshold": 10, "hard_deny_threshold": null}]
    raises, leaves the step-up threshold of the [RiskConfig] at 10 and the
    one that [login] reads at s; from then on every attempt with a fused
    score S, 10 <= S < s and S < h, is allowed without step-up, although
    S >= the step-up threshold of the [RiskConfig] and the attempt is not
    hard-denied. *)
Theorem login_thresholds_out_of_sync `{Py.Parsers} (s h : Z) :
  let out := put_risk_config Samples.null_hard_deny_body (startup s h) in
  let g := snd out in
  Py.is_ok (fst out) = false /\
  step_up_threshold (CONFIG g) = 10 /\ RISK_STEP_UP_THRESHOLD g = s /\
  hard_deny_threshold (CONFIG g) = h /\ RISK_HARD_DENY g = h /\
  forall (recent : list LoginEvent) (S : Z) (parts : list string)
         (ip device_hash : option string) (now : Py.datetime),
    10 <= S < s -> S < h ->
    let d := decision_of (snd (login_decision g recent S parts ip device_hash now)) in
    let deny := hard_deny_threshold (CONFIG g) <= S /\ had_prior_success recent in
    d = ALLOW /\
    ~ (d = STEP_UP <-> ~ deny /\ step_up_threshold (CONFIG g) <= S).
Proof.
  intros out g. unfold g, out. rewrite null_hard_deny_run.
  cbn [fst snd Py.is_ok CONFIG RISK_STEP_UP_THRESHOLD RISK_HARD_DENY startup
       set_step_up_threshold set_hard_deny_threshold step_up_threshold
       hard_deny_threshold].
  repeat (split; [reflexivity |]).
  intros recent S parts ip device_hash now HS Hh.
  unfold login_decision.
  cbn [RISK_STEP_UP_THRESHOLD RISK_HARD_DENY].
  destruct (Z.leb_spec h S) as [Hh' | _]; [lia |].
  destruct (Z.leb_spec s S) as [Hs | _]; [lia |].
  cbn. split; [reflexivity |].
  intros [_ Hback].
  assert (Hd : ALLOW = STEP_UP); [| discriminate].
  apply Hback. split; [| lia]. intros [Hge _]. lia.
Qed.

(** At the default thresholds a fused score of 30 shows the divergence. *)
Lemma login_thresholds_out_of_sync_witness :
  let g := snd (@put_risk_config Instances.no_literals Samples.null_hard_deny_body
                  (startup 60 90)) in
  step_up_threshold (CONFIG g) = 10 /\ RISK_STEP_UP_THRESHOLD g = 60 /\
  decision_of (snd (login_decision g [] 30 [] None None 0)) = ALLOW.
Proof.
  destruct (@login_thresholds_out_of_sync Instances.no_literals 60 90)
    as (_ & Hcfg & Hglobal & _ & _ & Hlogin).
  split; [exact Hcfg |]. split; [exact Hglobal |].
  apply (Hlogin [] 30 [] None None 0); lia.
Defined.

(** ** Transaction statistics *)

Lemma stats_of_learn (db : gmap Z UserIntel) (user_id : Z) (amount : R)
    (category : string) (merchant : option string) :
  stats_of (_learn_tx db user_id amount category merchant) user_id category
  = learn_stats (stats_of db user_id category) amount.
Proof.
  unfold stats_of, _learn_tx, _get_or_create_intel.
  destruct (db !! user_id) as [intel |] eqn:Hdb.
  - rewrite lookup_insert_eq. unfold learn_tx_intel. simpl.
    unfold Py.get at 1. rewrite lookup_insert_eq. reflexivity.
  - rewrite lookup_insert_eq. unfold learn_tx_intel. simpl.
    unfold Py.get at 1. rewrite lookup_insert_eq. reflexivity.
Qed.

Lemma stats_of_replay (amounts : list R) :
  forall (db : gmap Z UserIntel) (user_id : Z) (category : string),
    stats_of (replay db user_id category amounts) user_id category
    = fold_left learn_stats amounts (stats_of db user_id category).
Proof.
  induction amounts as [| a rest IH]; intros db user_id category.
  - reflexivity.
  - unfold replay in *. simpl. rewrite IH, stats_of_learn. reflexivity.
Qed.

(** C10, as stated, fails: the first transaction of a category does not
    follow the EWMA form.  From the zeroed profile and amount 100 the median
    becomes 100, not (1 - 0.1) * 0 + 0.1 * 100 = 10. *)
Lemma first_update_not_ewma_counterexample :
  let s := stats_of (_learn_tx ∅ 1 100 "FOOD" None) 1 "FOOD" in
  stats_of ∅ 1 "FOOD" = zero_stats /\
  median s = 100%R /\
  median s <> ((1 - 0.1) * median zero_stats + 0.1 * 100)%R.
Proof.
  intros s. unfold s. rewrite stats_of_learn.
  change (stats_of ∅ 1 "FOOD") with zero_stats.
  split; [reflexivity |].
  split; [reflexivity |].
  unfold learn_stats, zero_stats. simpl. intros Heq. lra.
Qed.

(** C10, amended. The first transaction of a category (n = 0) seeds the
    statistics with median = amount and MAD = 0; every later update follows
    the EWMA form with alpha = 0.1 for the median and, against the updated
    median, for the MAD.  The update is deterministic: replaying the same
    amounts from two zeroed profiles yields identical category statistics. *)
Theorem learn_tx_ewma (db db' : gmap Z UserIntel) (user_id : Z) (amount : R)
    (category : string) (merchant : option string) (amounts : list R)
    (Hzero : stats_of db user_id category = zero_stats)
    (Hzero' : stats_of db' user_id category = zero_stats) :
  (forall d : gmap Z UserIntel,
     let s := stats_of d user_id category in
     let s' := stats_of (_learn_tx d user_id amount category merchant)
                 user_id category in
     n s' = n s + 1 /\
     (n s = 0 -> median s' = amount /\ mad s' = 0%R) /\
     (n s <> 0 ->
        median s' = ((1 - 0.1) * median s + 0.1 * amount)%R /\
        mad s' = ((1 - 0.1) * mad s + 0.1 * Rabs (amount - median s'))%R)) /\
  stats_of (replay db user_id category amounts) user_id category
  = stats_of (replay db' user_id category amounts) user_id category.
Proof.
  split.
  - intros d s s'. unfold s'. rewrite stats_of_learn. fold s.
    unfold learn_stats.
    destruct (Z.eqb_spec (n s) 0) as [H0 | H0]; simpl.
    + repeat split; try reflexivity; try lra; intros; contradiction.
    + repeat split; try reflexivity; intros; contradiction.
  - rewrite !stats_of_replay, Hzero, Hzero'. reflexivity.
Qed.

Lemma learn_tx_ewma_witness :
  stats_of ∅ 1 "FOOD" = zero_stats /\
  stats_of (replay ∅ 1 "FOOD" [20%R; 22%R]) 1 "FOOD"
  = stats_of (replay (<[2 := new_intel]> ∅) 1 "FOOD" [20%R; 22%R]) 1 "FOOD".
Proof.
  split; [reflexivity |].
  apply (learn_tx_ewma ∅ (<[2 := new_intel]> ∅) 1 0%R "FOOD" None [20%R; 22%R]);
    reflexivity.
Defined.

End MainFacts.

(** ** The anomaly facade *)

Module AnomalyFacts.

Import AnomalyEngine PyFacts.

Ltac run_monad :=
  unfold mbind, lift, modify, ret, raise, gets, try_except.

Section Facade.
Context `{Py.Parsers} `{Backend}.

Lemma try_iforest_outcome (cfg : DetectorConfig) (hist_rows : list Row)
    (newest_row : Row) (st : DetState) :
  fst (_try_iforest cfg hist_rows newest_row st)
  = iforest_outcome cfg hist_rows newest_row.
Proof.
  unfold _try_iforest, iforest_outcome, on_iforest, if_train, if_score_one.
  run_monad.
  generalize (featurize_rows [newest_row]). intros F1.
  destruct (len hist_rows <? if_min_train_rows (iforest_cfg cfg)); simpl;
    [reflexivity |].
  destruct (featurize_rows hist_rows) as [X | e]; simpl; [| reflexivity].
  destruct (StandardScaler_fit X) as [sc | e]; simpl; [| reflexivity].
  destruct (scaler_transform sc X) as [Xs | e]; simpl; [| reflexivity].
  destruct (IsolationForest_fit (iforest_cfg cfg) Xs) as [model | e]; simpl;
    [| reflexivity].
  destruct F1 as [X1 | e]; simpl; [| reflexivity].
  destruct (scaler_transform sc X1) as [Xs1 | e]; simpl; [| reflexivity].
  destruct (decision_function model Xs1) as [raws | e]; simpl; [| reflexivity].
  destruct (index0 raws) as [raw | e]; simpl; reflexivity.
Qed.

Lemma iforest_outcome_ok (cfg : DetectorConfig) (hist_rows : list Row)
    (newest_row : Row) (used : string) (n_train score : Z) (details : Details) :
  0 < if_min_train_rows (iforest_cfg cfg) ->
  iforest_outcome cfg hist_rows newest_row = Py.Ok (used, n_train, score, details) ->
  used = "iforest" /\
  (n_train = 0 ->
   score = 0 /\ details = {[ "reason" := Py.VStr "model_not_trained" ]}).
Proof.
  intros Hmin. unfold iforest_outcome.
  destruct (Z.ltb_spec (len hist_rows) (if_min_train_rows (iforest_cfg cfg)))
    as [Hshort | Hlong].
  - intros [= <- <- <- <-]. split; [reflexivity |]. intros _. split; reflexivity.
  - intros Hrun.
    repeat (apply bind_ok in Hrun as (? & _ & Hrun)).
    injection Hrun as <- <- <- <-.
    split; [reflexivity |]. intros Hn. lia.
Qed.

Lemma try_autoenc_no_torch (cfg : DetectorConfig) (hist_rows : list Row)
    (newest_row : Row) (st : DetState) :
  TORCH_AVAILABLE = false ->
  _try_autoenc cfg hist_rows newest_row st
  = (Py.Err (Py.Raise Py.RuntimeError
       "PyTorch is not available. Install torch to use autoencoder mode."), st).
Proof.
  intros Htorch.
  unfold _try_autoenc, on_autoenc, ae_train, _ensure_torch. run_monad.
  rewrite Htorch. destruct st; reflexivity.
Qed.

Lemma try_autoenc_short (cfg : DetectorConfig) (hist_rows : list Row)
    (newest_row : Row) (st : DetState) :
  TORCH_AVAILABLE = true ->
  len hist_rows < ae_min_train_rows (autoenc_cfg cfg) ->
  _try_autoenc cfg hist_rows newest_row st
  = (Py.Ok ("autoenc", 0, 0, {[ "reason" := Py.VStr "model_not_trained" ]}),
     {| iforest := iforest st; autoenc := ae_set_model None (autoenc st) |}).
Proof.
  intros Htorch Hshort.
  unfold _try_autoenc, on_autoenc, ae_train, ae_score_one, _ensure_torch. run_monad.
  rewrite Htorch.
  destruct (Z.ltb_spec (len hist_rows) (ae_min_train_rows (autoenc_cfg cfg)));
    [| lia].
  reflexivity.
Qed.

(** What a returned [_try_autoenc] tuple can be. *)
Lemma try_autoenc_ok (cfg : DetectorConfig) (hist_rows : list Row)
    (newest_row : Row) (st : DetState) (used : string) (n_train score : Z)
    (details : Details) :
  fst (_try_autoenc cfg hist_rows newest_row st) = Py.Ok (used, n_train, score, details) ->
  (n_train = 0 /\ len hist_rows < ae_min_train_rows (autoenc_cfg cfg)) \/
  (n_train = len hist_rows /\ ae_min_train_rows (autoenc_cfg cfg) <= len hist_rows).
Proof.
  unfold _try_autoenc, on_autoenc, ae_train, _ensure_torch. run_monad.
  destruct TORCH_AVAILABLE; [| simpl; discriminate].
  destruct (Z.ltb_spec (len hist_rows) (ae_min_train_rows (autoenc_cfg cfg)))
    as [Hshort | Hlong].
  - generalize (ae_score_one (autoenc_cfg cfg) newest_row). intros sc1. simpl.
    destruct (sc1 _) as [[sd | e] a]; simpl; [| discriminate].
    intros [= <- <- <- <-]. left. split; [reflexivity | assumption].
  - generalize (ae_score_one (autoenc_cfg cfg) newest_row). intros sc1.
    intros Hrun. right. split; [| assumption].
    revert Hrun. simpl.
    destruct (featurize_rows hist_rows) as [X | e]; simpl; [| discriminate].
    destruct (StandardScaler_fit X) as [sc | e]; simpl; [| discriminate].
    destruct (scaler_transform sc X) as [Xs | e]; simpl; [| discriminate].
    destruct (AE_new (autoenc_cfg cfg) Xs) as [m | e]; simpl; [| discriminate].
    unfold ae_run_loop. simpl.
    destruct (ae_train_loop (autoenc_cfg cfg) m Xs) as [[u | e] m']; simpl;
      [| discriminate].
    destruct (ae_forward m' Xs) as [recon | e]; simpl; [| discriminate].
    destruct (np_percentile _ (score_percentile (autoenc_cfg cfg))) as [p95 | e];
      simpl; [| discriminate].
    destruct (np_percentile _ 99.0%R) as [p99 | e]; simpl; [| discriminate].
    destruct (np_percentile _ 50.0%R) as [med | e]; simpl; [| discriminate].
    destruct (sc1 _) as [[sd | e] a]; simpl; [| discriminate].
    intros [= <- <- <- <-]. reflexivity.
Qed.

Lemma with_fallback_reason (e : Py.exn) (details : Details) (v : Py.val) :
  details !! "reason" = Some v -> with_fallback e details !! "reason" = Some v.
Proof.
  intros Hd. unfold with_fallback. apply lookup_union_Some_l. exact Hd.
Qed.

Lemma with_fallback_marks (e : Py.exn) (details : Details) :
  details !! "fallback" = None ->
  with_fallback e details !! "fallback" = Some (Py.VStr "iforest").
Proof.
  intros Hd. unfold with_fallback.
  rewrite lookup_union_r by exact Hd.
  rewrite lookup_insert_ne by discriminate. apply lookup_insert_eq.
Qed.

(** The [except] clause of [train_and_score]. *)
Lemma fallback_handler_outcome (cfg : DetectorConfig) (hist_rows : list Row)
    (newest_row : Row) (e : Py.exn) (st : DetState) :
  fst (fallback_handler cfg hist_rows newest_row e st) =
  match iforest_outcome cfg hist_rows newest_row with
  | Py.Ok (used, n_train, score, details) =>
      Py.Ok (used, score, with_fallback e details, n_train)
  | Py.Err e' => Py.Err e'
  end.
Proof.
  unfold fallback_handler. unfold mbind at 1.
  pose proof (try_iforest_outcome cfg hist_rows newest_row st) as Hout.
  destruct (_try_iforest cfg hist_rows newest_row st) as [[t | e'] st'];
    simpl in Hout; rewrite <- Hout; [| reflexivity].
  destruct t as [[[used n_train] score] details]. reflexivity.
Qed.

Lemma iforest_branch_outcome (cfg : DetectorConfig) (hist_rows : list Row)
    (newest_row : Row) (st : DetState) :
  fst ((let* t := _try_iforest cfg hist_rows newest_row in ret (returned t)) st) =
  match iforest_outcome cfg hist_rows newest_row with
  | Py.Ok t => Py.Ok (returned t)
  | Py.Err e' => Py.Err e'
  end.
Proof.
  unfold mbind.
  pose proof (try_iforest_outcome cfg hist_rows newest_row st) as Hout.
  destruct (_try_iforest cfg hist_rows newest_row st) as [[t | e'] st'];
    simpl in Hout; rewrite <- Hout; reflexivity.
Qed.

Lemma handler_zero (cfg : DetectorConfig) (hist_rows : list Row)
    (newest_row : Row) (e : Py.exn) (st : DetState)
    (used : string) (score : Z) (details : Details) :
  0 < if_min_train_rows (iforest_cfg cfg) ->
  fst (fallback_handler cfg hist_rows newest_row e st)
    = Py.Ok (used, score, details, 0) ->
  score = 0 /\ details !! "reason" = Some (Py.VStr "model_not_trained").
Proof.
  intros Hmin. rewrite fallback_handler_outcome.
  destruct (iforest_outcome cfg hist_rows newest_row)
    as [[[[u n] s] d] | e'] eqn:Hout; [| discriminate].
  intros [= -> -> <- ->].
  destruct (iforest_outcome_ok _ _ _ _ _ _ _ Hmin Hout) as [_ Hzero].
  destruct (Hzero eq_refl) as [-> ->].
  split; [reflexivity |].
  apply with_fallback_reason. apply lookup_singleton_eq.
Qed.

Lemma iforest_branch_zero (cfg : DetectorConfig) (hist_rows : list Row)
    (newest_row : Row) (st : DetState)
    (used : string) (score : Z) (details : Details) :
  0 < if_min_train_rows (iforest_cfg cfg) ->
  fst ((let* t := _try_iforest cfg hist_rows newest_row in ret (returned t)) st)
    = Py.Ok (used, score, details, 0) ->
  score = 0 /\ details !! "reason" = Some (Py.VStr "model_not_trained").
Proof.
  intros Hmin. rewrite iforest_branch_outcome.
  destruct (iforest_outcome cfg hist_rows newest_row)
    as [[[[u n] s] d] | e'] eqn:Hout; [| discriminate].
  intros [= -> -> <- ->].
  destruct (iforest_outcome_ok _ _ _ _ _ _ _ Hmin Hout) as [_ Hzero].
  destruct (Hzero eq_refl) as [-> ->].
  split; [reflexivity | apply lookup_singleton_eq].
Qed.

Lemma handler_ok (cfg : DetectorConfig) (hist_rows : list Row)
    (newest_row : Row) (e : Py.exn) (st : DetState) :
  Py.is_ok (iforest_outcome cfg hist_rows newest_row) = true ->
  Py.is_ok (fst (fallback_handler cfg hist_rows newest_row e st)) = true.
Proof.
  rewrite fallback_handler_outcome.
  destruct (iforest_outcome cfg hist_rows newest_row) as [[[[u n] s] d] | e'];
    [reflexivity | discriminate].
Qed.

Lemma iforest_branch_ok (cfg : DetectorConfig) (hist_rows : list Row)
    (newest_row : Row) (st : DetState) :
  Py.is_ok (iforest_outcome cfg hist_rows newest_row) = true ->
  Py.is_ok (fst ((let* t := _try_iforest cfg hist_rows newest_row in
                  ret (returned t)) st)) = true.
Proof.
  rewrite iforest_branch_outcome.
  destruct (iforest_outcome cfg hist_rows newest_row) as [t | e'];
    [reflexivity | discriminate].
Qed.

Lemma try_except_ok {S A} (m : M S A) (h : Py.exn -> M S A) (st : S) :
  (forall e st', Py.is_ok (fst (h e st')) = true) ->
  Py.is_ok (fst (try_except m h st)) = true.
Proof.
  intros Hh. unfold try_except.
  destruct (m st) as [[a | e] st']; [reflexivity | apply Hh].
Qed.

(** Whenever the isolation-forest path does not raise, neither does the
    facade. *)
Lemma train_and_score_ok (cfg : DetectorConfig) (hist_rows : list Row)
    (newest_row : Row) (force_method : option string) (st : DetState) :
  Py.is_ok (iforest_outcome cfg hist_rows newest_row) = true ->
  Py.is_ok (fst (train_and_score cfg hist_rows newest_row force_method st)) = true.
Proof.
  intros Hif. unfold train_and_score.
  destruct (String.eqb (chosen_method cfg force_method) "iforest");
    [apply iforest_branch_ok, Hif |].
  destruct (String.eqb (chosen_method cfg force_method) "autoenc");
    [apply try_except_ok; intros; apply handler_ok, Hif |].
  destruct (TORCH_AVAILABLE && _);
    [apply try_except_ok; intros; apply handler_ok, Hif |].
  apply iforest_branch_ok, Hif.
Qed.

Lemma train_and_score_zero (cfg : DetectorConfig) (hist_rows : list Row)
    (newest_row : Row) (force_method : option string) (st : DetState)
    (used : string) (score : Z) (details : Details) :
  0 < if_min_train_rows (iforest_cfg cfg) ->
  0 < ae_min_train_rows (autoenc_cfg cfg) ->
  fst (train_and_score cfg hist_rows newest_row force_method st)
    = Py.Ok (used, score, details, 0) ->
  score = 0 /\ details !! "reason" = Some (Py.VStr "model_not_trained").
Proof.
  intros Hif Hae. unfold train_and_score.
  destruct (String.eqb (chosen_method cfg force_method) "iforest");
    [apply iforest_branch_zero, Hif |].
  destruct (String.eqb (chosen_method cfg force_method) "autoenc").
  { unfold try_except. unfold mbind at 1.
    destruct (_try_autoenc cfg hist_rows newest_row st)
      as [[[[[u n] s] d] | e] st1] eqn:Hae_run.
    - destruct (Z.eqb_spec n 0) as [Hn | Hn].
      + pose proof (iforest_branch_zero cfg hist_rows newest_row st1 used score
                      details Hif) as Hz.
        destruct ((let* t := _try_iforest cfg hist_rows newest_row in
                   ret (returned t)) st1) as [[r | e] st2].
        * exact Hz.
        * intros Hrun. eapply handler_zero; [exact Hif | exact Hrun].
      + unfold ret. simpl. intros [= <- <- <- Hn0]. contradiction.
    - intros Hrun. eapply handler_zero; [exact Hif | exact Hrun]. }
  destruct (TORCH_AVAILABLE && (ae_min_train_rows (autoenc_cfg cfg) <=? len hist_rows))
    eqn:Hauto; [| apply iforest_branch_zero, Hif].
  apply andb_true_iff in Hauto as [_ Hlen]. apply Z.leb_le in Hlen.
  unfold try_except. unfold mbind at 1.
  destruct (_try_autoenc cfg hist_rows newest_row st)
    as [[[[[u n] s] d] | e] st1] eqn:Hae_run.
  - unfold ret. simpl. intros [= <- <- <- Hn0].
    assert (Hfst : fst (_try_autoenc cfg hist_rows newest_row st)
                   = Py.Ok (u, n, s, d)) by (rewrite Hae_run; reflexivity).
    apply try_autoenc_ok in Hfst as [[_ Hshort] | [Hn _]]; lia.
  - intros Hrun. eapply handler_zero; [exact Hif | exact Hrun].
Qed.

Lemma iforest_outcome_short (cfg : DetectorConfig) (hist_rows : list Row)
    (newest_row : Row) :
  len hist_rows < if_min_train_rows (iforest_cfg cfg) ->
  iforest_outcome cfg hist_rows newest_row
  = Py.Ok ("iforest", 0, 0, {[ "reason" := Py.VStr "model_not_trained" ]}).
Proof.
  intros Hshort. unfold iforest_outcome.
  destruct (Z.ltb_spec (len hist_rows) (if_min_train_rows (iforest_cfg cfg)));
    [reflexivity | lia].
Qed.

(** C6, amended. [train_and_score] returns a result without raising
    whenever the isolation-forest path ([_try_iforest]) does not raise on
    the given rows; exceptions of the autoencoder path are always absorbed.
    In particular it returns for every history shorter than the
    isolation-forest minimum (the empty history included), whatever the
    rows, the new row and the forced method are.  When the returned
    [n_train] is 0 the score is 0 and the details carry the reason
    ["model_not_trained"]. *)
Theorem train_and_score_availability (cfg : DetectorConfig)
    (hist_rows : list Row) (newest_row : Row) (force_method : option string)
    (st : DetState)
    (Hif : 0 < if_min_train_rows (iforest_cfg cfg))
    (Hae : 0 < ae_min_train_rows (autoenc_cfg cfg)) :
  let out := fst (train_and_score cfg hist_rows newest_row force_method st) in
  (Py.is_ok (fst (_try_iforest cfg hist_rows newest_row DetState_init)) = true ->
   Py.is_ok out = true) /\
  (len hist_rows < if_min_train_rows (iforest_cfg cfg) -> Py.is_ok out = true) /\
  (forall used score details,
     out = Py.Ok (used, score, details, 0) ->
     score = 0 /\ details !! "reason" = Some (Py.VStr "model_not_trained")).
Proof.
  intros out. split; [| split].
  - rewrite try_iforest_outcome. apply train_and_score_ok.
  - intros Hshort. apply train_and_score_ok.
    rewrite iforest_outcome_short by exact Hshort. reflexivity.
  - intros used score details. apply train_and_score_zero; assumption.
Qed.

(** Forced autoencoder with too few rows: the result is that of the
    isolation forest, passed on as it is. *)
Lemma forced_autoenc_short (cfg : DetectorConfig) (hist_rows : list Row)
    (newest_row : Row) (force_method : option string) (st : DetState) :
  chosen_method cfg force_method = "autoenc" ->
  TORCH_AVAILABLE = true ->
  len hist_rows < ae_min_train_rows (autoenc_cfg cfg) ->
  fst (train_and_score cfg hist_rows newest_row force_method st) =
  match iforest_outcome cfg hist_rows newest_row with
  | Py.Ok t => Py.Ok (returned t)
  | Py.Err e => Py.Err e
  end.
Proof.
  intros Hm Htorch Hshort. unfold train_and_score. rewrite Hm.
  change (String.eqb "autoenc" "iforest") with false.
  change (String.eqb "autoenc" "autoenc") with true. cbv iota.
  unfold try_except. unfold mbind at 1.
  rewrite try_autoenc_short by assumption.
  change (0 =? 0) with true. cbv iota.
  set (st1 := {| iforest := iforest st; autoenc := ae_set_model None (autoenc st) |}).
  pose proof (iforest_branch_outcome cfg hist_rows newest_row st1) as Hb.
  destruct ((let* t := _try_iforest cfg hist_rows newest_row in ret (returned t)) st1)
    as [[r | e] st2]; simpl in Hb.
  - exact Hb.
  - rewrite fallback_handler_outcome.
    destruct (iforest_outcome cfg hist_rows newest_row) as [t | e'];
      [discriminate | reflexivity].
Qed.

(** Forced autoencoder without PyTorch: the [except] clause runs. *)
Lemma forced_autoenc_no_torch (cfg : DetectorConfig) (hist_rows : list Row)
    (newest_row : Row) (force_method : option string) (st : DetState) :
  chosen_method cfg force_method = "autoenc" ->
  TORCH_AVAILABLE = false ->
  fst (train_and_score cfg hist_rows newest_row force_method st) =
  match iforest_outcome cfg hist_rows newest_row with
  | Py.Ok (used, n_train, score, details) =>
      Py.Ok (used, score,
             with_fallback
               (Py.Raise Py.RuntimeError
                  "PyTorch is not available. Install torch to use autoencoder mode.")
               details,
             n_train)
  | Py.Err e => Py.Err e
  end.
Proof.
  intros Hm Htorch. unfold train_and_score. rewrite Hm.
  change (String.eqb "autoenc" "iforest") with false.
  change (String.eqb "autoenc" "autoenc") with true. cbv iota.
  unfold try_except. unfold mbind at 1.
  rewrite try_autoenc_no_torch by assumption.
  apply fallback_handler_outcome.
Qed.

(** A history that the featurizer rejects makes the forced isolation
    forest raise. *)
Lemma iforest_featurize_error (cfg : DetectorConfig) (hist_rows : list Row)
    (newest_row : Row) (force_method : option string) (st : DetState)
    (e : Py.exn) :
  String.eqb (chosen_method cfg force_method) "iforest" = true \/
  (String.eqb (chosen_method cfg force_method) "autoenc" = false /\
   len hist_rows < ae_min_train_rows (autoenc_cfg cfg)) ->
  if_min_train_rows (iforest_cfg cfg) <= len hist_rows ->
  featurize_rows hist_rows = Py.Err e ->
  fst (train_and_score cfg hist_rows newest_row force_method st) = Py.Err e.
Proof.
  intros Hm Hlong Hfeat.
  assert (Hout : iforest_outcome cfg hist_rows newest_row = Py.Err e).
  { unfold iforest_outcome.
    destruct (Z.ltb_spec (len hist_rows) (if_min_train_rows (iforest_cfg cfg)));
      [lia |].
    rewrite Hfeat. reflexivity. }
  unfold train_and_score.
  destruct Hm as [-> | [Hne Hshort]].
  - rewrite iforest_branch_outcome, Hout. reflexivity.
  - destruct (String.eqb (chosen_method cfg force_method) "iforest");
      [rewrite iforest_branch_outcome, Hout; reflexivity |].
    rewrite Hne.
    destruct (Z.leb_spec (ae_min_train_rows (autoenc_cfg cfg)) (len hist_rows));
      [lia |].
    rewrite andb_false_r.
    rewrite iforest_branch_outcome, Hout. reflexivity.
Qed.

Lemma featurize_rows_replicate (r : Row) (x : list R) (k : nat) :
  featurize_row r = Py.Ok x ->
  featurize_rows (replicate k r) = Py.Ok (replicate k x).
Proof.
  intros Hr. induction k as [| k IH]; simpl; [reflexivity |].
  rewrite Hr, IH. reflexivity.
Qed.

End Facade.

(** *** Concrete runs *)

(** The published test vectors of 32-bit FNV-1a. *)
Example stable_hash_a : _stable_hash "a" = 0xE40C292C.
Proof. reflexivity. Qed.

Example stable_hash_foobar : _stable_hash "foobar" = 0xBF9CF968.
Proof. reflexivity. Qed.

Example stable_hash_empty : _stable_hash "" = 0.
Proof. reflexivity. Qed.

Lemma featurize_bad_category :
  @featurize_row Instances.no_literals Instances.bad_category_row
  = Py.Err (Py.Raise Py.AttributeError "object has no attribute 'upper'").
Proof.
  unfold featurize_row, Instances.bad_category_row.
  rewrite lookup_insert_eq.
  rewrite lookup_insert_ne by discriminate. rewrite lookup_insert_eq.
  reflexivity.
Qed.

Lemma featurize_food (amount : Z) :
  amount <> 0 ->
  exists x, @featurize_row Instances.no_literals (Instances.food_row amount) = Py.Ok x.
Proof.
  intros Hne. unfold featurize_row, Instances.food_row.
  rewrite lookup_insert_eq.
  rewrite lookup_insert_ne by discriminate. rewrite lookup_insert_eq.
  rewrite lookup_insert_ne by discriminate.
  rewrite lookup_insert_ne by discriminate. rewrite lookup_empty.
  unfold or_else. simpl Py.truthy.
  destruct (Z.eqb_spec amount 0) as [| _]; [contradiction |].
  simpl. eexists. reflexivity.
Qed.

Lemma failing_scaler_outcome (newest_row : Row) :
  @iforest_outcome Instances.no_literals Instances.failing_scaler_backend
     DetectorConfig_default (replicate 10 (Instances.food_row 20)) newest_row
  = Py.Err (Py.Raise Py.ValueError "Input X contains infinity").
Proof.
  destruct (featurize_food 20 ltac:(lia)) as [x Hx].
  unfold iforest_outcome.
  change (len (replicate 10 (Instances.food_row 20))
          <? if_min_train_rows (iforest_cfg DetectorConfig_default)) with false.
  cbv iota.
  rewrite (featurize_rows_replicate _ x 10 Hx). reflexivity.
Qed.

(** C6, as stated, fails: ten history rows whose category is the number 5
    make [featurize_rows] raise [AttributeError]; the isolation-forest path
    has no handler, so the exception leaves [train_and_score], both when
    the isolation forest is forced and in automatic mode.  The same happens
    with well-formed rows when a call into scikit-learn raises. *)
Lemma malformed_row_raises_counterexample :
  let hist := replicate 10 Instances.bad_category_row in
  let run force :=
    fst (@train_and_score Instances.no_literals (Instances.constant_backend true)
           DetectorConfig_default hist (Instances.food_row 25) force DetState_init) in
  run (Some "iforest")
    = Py.Err (Py.Raise Py.AttributeError "object has no attribute 'upper'") /\
  run None
    = Py.Err (Py.Raise Py.AttributeError "object has no attribute 'upper'") /\
  fst (@train_and_score Instances.no_literals Instances.failing_scaler_backend
         DetectorConfig_default (replicate 10 (Instances.food_row 20))
         (Instances.food_row 25) (Some "iforest") DetState_init)
    = Py.Err (Py.Raise Py.ValueError "Input X contains infinity").
Proof.
  intros hist run. unfold run. split; [| split].
  - apply iforest_featurize_error.
    + left. reflexivity.
    + unfold hist, len. simpl. lia.
    + unfold hist. simpl. rewrite featurize_bad_category. reflexivity.
  - apply iforest_featurize_error.
    + right. split; [reflexivity |]. unfold hist, len. simpl. lia.
    + unfold hist, len. simpl. lia.
    + unfold hist. simpl. rewrite featurize_bad_category. reflexivity.
  - unfold train_and_score.
    change (String.eqb (chosen_method DetectorConfig_default (Some "iforest")) "iforest")
      with true.
    cbv iota.
    rewrite iforest_branch_outcome, failing_scaler_outcome. reflexivity.
Qed.

Lemma train_and_score_availability_witness :
  0 < if_min_train_rows (iforest_cfg DetectorConfig_default) /\
  0 < ae_min_train_rows (autoenc_cfg DetectorConfig_default) /\
  Py.is_ok (fst (@train_and_score Instances.no_literals
                   (Instances.constant_backend false) DetectorConfig_default
                   [] (Instances.food_row 25) (Some "autoenc") DetState_init)) = true.
Proof.
  assert (Hif : 0 < if_min_train_rows (iforest_cfg DetectorConfig_default))
    by reflexivity.
  assert (Hae : 0 < ae_min_train_rows (autoenc_cfg DetectorConfig_default))
    by reflexivity.
  split; [exact Hif |]. split; [exact Hae |].
  destruct (@train_and_score_availability Instances.no_literals
              (Instances.constant_backend false) DetectorConfig_default
              [] (Instances.food_row 25) (Some "autoenc") DetState_init Hif Hae)
    as (_ & Hshort & _).
  apply Hshort. reflexivity.
Defined.

(** C7 on the code. (a) The autoencoder is forced, PyTorch is present and
    the history has 15 well-formed rows, fewer than the autoencoder's 40:
    training yields zero rows, the facade falls back to the isolation
    forest, which trains on the 15 rows, and the returned details carry
    neither a ["fallback"] nor a ["reason"] entry.  (b) The autoencoder is
    forced, PyTorch is absent and the history is empty: the [except] clause
    adds ["fallback"], but the ["reason"] that is returned is the isolation
    forest's ["model_not_trained"], which overwrites the text of the
    exception that caused the fallback. *)
Theorem forced_autoenc_fallback_annotation :
  (exists score details,
     fst (@train_and_score Instances.no_literals (Instances.constant_backend true)
            DetectorConfig_default (replicate 15 (Instances.food_row 20))
            (Instances.food_row 5000) (Some "autoenc") DetState_init)
       = Py.Ok ("iforest", score, details, 15) /\
     details !! "fallback" = None /\ details !! "reason" = None) /\
  (exists details,
     fst (@train_and_score Instances.no_literals (Instances.constant_backend false)
            DetectorConfig_default [] (Instances.food_row 5000)
            (Some "autoenc") DetState_init)
       = Py.Ok ("iforest", 0, details, 0) /\
     details !! "fallback" = Some (Py.VStr "iforest") /\
     details !! "reason" = Some (Py.VStr "model_not_trained")).
Proof.
  split.
  - destruct (featurize_food 20 ltac:(lia)) as [x Hx].
    destruct (featurize_food 5000 ltac:(lia)) as [y Hy].
    rewrite forced_autoenc_short;
      [| reflexivity | reflexivity | unfold len; simpl; lia].
    unfold iforest_outcome.
    change (len (replicate 15 (Instances.food_row 20))
            <? if_min_train_rows (iforest_cfg DetectorConfig_default)) with false.
    cbv iota.
    rewrite (featurize_rows_replicate _ x 15 Hx).
    cbn [featurize_rows]. rewrite Hy.
    simpl.
    eexists. eexists. split; [reflexivity |].
    split.
    + apply lookup_singleton_ne. discriminate.
    + apply lookup_singleton_ne. discriminate.
  - rewrite forced_autoenc_no_torch; [| reflexivity | reflexivity].
    unfold iforest_outcome.
    change (len [] <? if_min_train_rows (iforest_cfg DetectorConfig_default)) with true.
    cbv iota.
    eexists. split; [reflexivity |].
    split.
    + apply with_fallback_marks. apply lookup_singleton_ne. discriminate.
    + apply with_fallback_reason. apply lookup_singleton_eq.
Qed.

End AnomalyFacts.

(** * Further properties of the risk engine *)

Module RiskEngineMore.

Import RiskEngine Spec Views PyFacts RiskEngineFacts.

(** The calibrated score is always in [0, 100], and at most 55 when there
    is no prior success. *)
Lemma apply_post_rules_bounds (total ps : Z) (fs : option Py.datetime)
    (now : Py.datetime) :
  0 <= apply_post_rules total ps fs now <= 100 /\
  (ps = 0 -> apply_post_rules total ps fs now <= 55).
Proof.
  rewrite post_rules_structure. split; [lia |].
  intros ->. unfold cold_start_cap. change (0 =? 0) with true. cbv iota.
  unfold device_age_decay.
  destruct fs as [first |]; [| lia].
  destruct (Z.ltb_spec 0 (days_since_first_seen now first)) as [Hd | Hd]; [| lia].
  pose proof (decayed_le (Z.min total 55) _ Hd). lia.
Qed.

Lemma login_features_prior (recent_rows : list LoginEvent)
    (login_cities login_hours_hist : gmap string Z)
    (device_trust : gmap string bool) (ip_city : string) (is_private_ip : bool)
    (device_hash : option string) (known_device ip_changed : bool)
    (consecutive_fails : Z) (now : Py.datetime)
    (last_success_ts : option Py.datetime) (speed_kmh : option R) :
  note_prior_successes
    (snd (login_features recent_rows login_cities login_hours_hist device_trust
            ip_city is_private_ip device_hash known_device ip_changed
            consecutive_fails now last_success_ts speed_kmh))
  = count_successes (all_but_last recent_rows).
Proof.
  unfold login_features.
  destruct (negb (is_private_ip || String.eqb ip_city "Unknown")
            && (1 <=? count_successes (all_but_last recent_rows)));
    destruct (3 <=? count_successes (all_but_last recent_rows)); reflexivity.
Qed.

Lemma score_login_total
    (cfg : RiskConfig) (recent_rows : list LoginEvent)
    (login_cities login_hours_hist : gmap string Z)
    (device_trust : gmap string bool) (ip_city : string) (is_private_ip : bool)
    (device_hash : option string) (known_device ip_changed : bool)
    (consecutive_fails : Z) (now : Py.datetime)
    (last_success_ts : option Py.datetime) (speed_kmh : option R)
    (known_device_first_seen : option Py.datetime) :
  fst (fst (score_login cfg recent_rows login_cities login_hours_hist device_trust
              ip_city is_private_ip device_hash known_device ip_changed
              consecutive_fails now last_success_ts speed_kmh
              known_device_first_seen))
  = apply_post_rules
      (fst (linear_score
              (fst (login_features recent_rows login_cities login_hours_hist
                      device_trust ip_city is_private_ip device_hash known_device
                      ip_changed consecutive_fails now last_success_ts speed_kmh))
              cfg))
      (count_successes (all_but_last recent_rows))
      known_device_first_seen now.
Proof.
  unfold score_login.
  rewrite <- (login_features_prior recent_rows login_cities login_hours_hist
                device_trust ip_city is_private_ip device_hash known_device
                ip_changed consecutive_fails now last_success_ts speed_kmh).
  destruct (login_features _ _ _ _ _ _ _ _ _ _ _ _ _) as [feats notes].
  cbn [fst snd].
  destruct (linear_score feats cfg) as [total parts]. reflexivity.
Qed.

(** X1. A score that [score_login] returns lies in [0, 100]; when the
    rows before the candidate hold no successful login it is at most 55.
    Floats are real numbers here: the [ValueError] that [linear_score]
    raises at [int(round(..))] for a weighted sum that is not a number is
    outside the model, and the statement is about the scores returned. *)
Theorem score_login_range
    (cfg : RiskConfig) (recent_rows : list LoginEvent)
    (login_cities login_hours_hist : gmap string Z)
    (device_trust : gmap string bool) (ip_city : string) (is_private_ip : bool)
    (device_hash : option string) (known_device ip_changed : bool)
    (consecutive_fails : Z) (now : Py.datetime)
    (last_success_ts : option Py.datetime) (speed_kmh : option R)
    (known_device_first_seen : option Py.datetime) :
  let total :=
    fst (fst (score_login cfg recent_rows login_cities login_hours_hist
                device_trust ip_city is_private_ip device_hash known_device
                ip_changed consecutive_fails now last_success_ts speed_kmh
                known_device_first_seen)) in
  0 <= total <= 100 /\
  (count_successes (all_but_last recent_rows) = 0 -> total <= 55).
Proof.
  intros total. unfold total. rewrite score_login_total.
  apply apply_post_rules_bounds.
Qed.

Lemma score_login_range_witness :
  count_successes (all_but_last [Instances.success_event 0]) = 0 /\
  fst (fst (score_login CONFIG_initial [Instances.success_event 0] ∅ ∅ ∅
              "Unknown" true (Some "d1") false false 4 0 None None None)) <= 55.
Proof.
  split; [reflexivity |].
  apply (score_login_range CONFIG_initial [Instances.success_event 0] ∅ ∅ ∅
           "Unknown" true (Some "d1") false false 4 0 None None None).
  reflexivity.
Defined.

(** The logistic function is increasing. *)
Lemma sigmoid_mono (x y : R) : (x <= y)%R -> (sigmoid x <= sigmoid y)%R.
Proof.
  intros Hxy. unfold sigmoid.
  pose proof (exp_pos (- x)) as Hx. pose proof (exp_pos (- y)) as Hy.
  assert (Hexp : (exp (- y) <= exp (- x))%R).
  { destruct (Req_dec x y) as [-> | Hne]; [lra |].
    left. apply exp_increasing. lra. }
  unfold Rdiv. rewrite !Rmult_1_l.
  apply Rinv_le_contravar; lra.
Qed.

Lemma weighted_sum_app (cfg : RiskConfig) (f1 f2 : list (string * R)) :
  weighted_sum cfg (f1 ++ f2) = (weighted_sum cfg f1 + weighted_sum cfg f2)%R.
Proof.
  induction f1 as [| [k v] f1 IH]; simpl; [lra |]. rewrite IH. lra.
Qed.

(** X2. With a non-negative scale, raising the value of one feature whose
    weight is non-negative, the others held fixed, never lowers the linear
    score. *)
Theorem linear_score_monotone (cfg : RiskConfig) (f1 f2 : list (string * R))
    (k : string) (v v' : R)
    (Hscale : (0 <= scale cfg)%R) (Hweight : (0 <= weight cfg k)%R)
    (Hv : (v <= v')%R) :
  fst (linear_score (f1 ++ (k, v) :: f2) cfg)
  <= fst (linear_score (f1 ++ (k, v') :: f2) cfg).
Proof.
  rewrite !linear_score_total, !fold_linear_step, !_sigmoid_logistic.
  rewrite !weighted_sum_app. simpl weighted_sum.
  apply Z.max_le_compat_l. apply Z.min_le_compat_r.
  apply round_mono. apply Rmult_le_compat_r; [lra |].
  apply sigmoid_mono.
  assert (Hwv : (weight cfg k * v <= weight cfg k * v')%R)
    by (apply Rmult_le_compat_l; assumption).
  apply Rplus_le_compat_r. apply Rmult_le_compat_l; [exact Hscale |]. lra.
Qed.

Lemma linear_score_monotone_witness :
  (0 <= scale CONFIG_initial)%R /\ (0 <= weight CONFIG_initial "consecutive_fails")%R /\
  fst (linear_score [("new_device", 1%R); ("consecutive_fails", 0%R)] CONFIG_initial)
  <= fst (linear_score [("new_device", 1%R); ("consecutive_fails", 3%R)] CONFIG_initial).
Proof.
  assert (Hs : (0 <= scale CONFIG_initial)%R) by (simpl; lra).
  assert (Hw : (0 <= weight CONFIG_initial "consecutive_fails")%R).
  { unfold weight.
    change (weights CONFIG_initial !! "consecutive_fails") with (Some 0.65%R). lra. }
  split; [exact Hs |]. split; [exact Hw |].
  apply (linear_score_monotone CONFIG_initial [("new_device", 1%R)] []
           "consecutive_fails" 0 3 Hs Hw). lra.
Defined.





Lemma flag_01 (b : bool) : flag b = 0%R \/ flag b = 1%R.
Proof. destruct b; unfold flag; [right | left]; lra. Qed.

(** X4. The feature vector always has the same nine names in the same
    order; every feature but [consecutive_fails] is 0 or 1;
    [consecutive_fails] is the count, with a negative count read as 0;
    [new_city] and [rare_city] are never both 1, and neither are [odd_hour]
    and [uncommon_hour]. *)
Theorem login_features_shape
    (recent_rows : list LoginEvent) (login_cities login_hours_hist : gmap string Z)
    (device_trust : gmap string bool) (ip_city : string) (is_private_ip : bool)
    (device_hash : option string) (known_device ip_changed : bool)
    (consecutive_fails : Z) (now : Py.datetime)
    (last_success_ts : option Py.datetime) (speed_kmh : option R) :
  let f := fst (login_features recent_rows login_cities login_hours_hist
                  device_trust ip_city is_private_ip device_hash known_device
                  ip_changed consecutive_fails now last_success_ts speed_kmh) in
  map fst f = FEATURE_ORDER /\
  Forall (fun kv => fst kv = "consecutive_fails" \/ snd kv = 0%R \/ snd kv = 1%R) f /\
  feature f "consecutive_fails" = Some (IZR (Z.max consecutive_fails 0)) /\
  ~ (feature f "new_city" = Some 1%R /\ feature f "rare_city" = Some 1%R) /\
  ~ (feature f "odd_hour" = Some 1%R /\ feature f "uncommon_hour" = Some 1%R).
Proof.
  intros f.
  destruct (login_features_city_hour_values recent_rows login_cities
              login_hours_hist device_trust ip_city is_private_ip device_hash
              known_device ip_changed consecutive_fails now last_success_ts
              speed_kmh) as (Hnew & Hrare & Hodd & Hunc).
  cbv zeta in Hnew, Hrare, Hodd, Hunc. fold f in Hnew, Hrare, Hodd, Hunc.
  split; [| split; [| split; [| split]]].
  - unfold f, login_features.
    destruct (negb (is_private_ip || String.eqb ip_city "Unknown")
              && (1 <=? count_successes (all_but_last recent_rows)));
      destruct (3 <=? count_successes (all_but_last recent_rows)); reflexivity.
  - unfold f, login_features.
    assert (Hspeed : match speed_kmh with
                     | Some s => if Rlt_dec 750.0 s then 1.0%R else 0.0%R
                     | None => 0.0%R
                     end = 0%R \/
                     match speed_kmh with
                     | Some s => if Rlt_dec 750.0 s then 1.0%R else 0.0%R
                     | None => 0.0%R
                     end = 1%R).
    { destruct speed_kmh as [s |]; [destruct (Rlt_dec 750.0 s) |];
        [right | left | left]; lra. }
    destruct (negb (is_private_ip || String.eqb ip_city "Unknown")
              && (1 <=? count_successes (all_but_last recent_rows)));
      destruct (3 <=? count_successes (all_but_last recent_rows));
      cbn [fst];
      repeat (apply Forall_cons; split;
              [cbn [fst snd];
               first [ right; apply flag_01
                     | right; exact Hspeed
                     | right; left; lra
                     | left; reflexivity ] |]);
      apply Forall_nil; exact I.
  - unfold f, login_features.
    destruct (negb (is_private_ip || String.eqb ip_city "Unknown")
              && (1 <=? count_successes (all_but_last recent_rows)));
      destruct (3 <=? count_successes (all_but_last recent_rows)); reflexivity.
  - rewrite Hnew, Hrare. intros [H1 H2].
    injection H1 as H1. injection H2 as H2.
    destruct (negb (is_private_ip || String.eqb ip_city "Unknown")
              && (1 <=? count_successes (all_but_last recent_rows)));
      [| unfold flag in H1; simpl in H1; lra].
    simpl in H1, H2.
    destruct (Z.eqb_spec (Py.get login_cities ip_city 0) 0) as [H0 | H0].
    + rewrite H0 in H2. simpl in H2. unfold flag in H2. lra.
    + unfold flag in H1. lra.
  - rewrite Hodd, Hunc. intros [H1 H2].
    injection H1 as H1. injection H2 as H2.
    destruct (3 <=? count_successes (all_but_last recent_rows));
      [| unfold flag in H1; simpl in H1; lra].
    simpl in H1, H2.
    destruct (Z.eqb_spec (Py.get login_hours_hist (pretty (Py.hour now)) 0) 0)
      as [H0 | H0].
    + rewrite H0 in H2. simpl in H2. unfold flag in H2. lra.
    + unfold flag in H1. lra.
Qed.

End RiskEngineMore.

Module ConfigMore.

Import RiskEngine Spec Views PyFacts ConfigFacts.

Section Update.
Context `{Py.Parsers}.

(** A well-formed update runs to the end and leaves the closed form
    [updated]. *)
Lemma update_statements_ok (new_cfg : gmap string Py.val) (c : RiskConfig) :
  first_malformed new_cfg = None ->
  update_statements new_cfg c = (Py.Ok tt, updated new_cfg c).
Proof.
  unfold first_malformed. cbn [List.find].
  destruct (malformed new_cfg FWeights) eqn:Hw; [discriminate |].
  destruct (malformed new_cfg FScale) eqn:Hs; [discriminate |].
  destruct (malformed new_cfg FIntercept) eqn:Hi; [discriminate |].
  destruct (malformed new_cfg FStepUp) eqn:Ht; [discriminate |].
  destruct (malformed new_cfg FHardDeny) eqn:Hh; [discriminate |].
  intros _.
  unfold malformed in *.
  unfold update_statements, seq_stmt, assign_weights, assign_field, updated,
    updated_weights, updated_float, updated_int.
  destruct c as [w s i t h]. cbn [weights scale intercept step_up_threshold
                                    hard_deny_threshold].
  destruct (new_cfg !! "weights") as [[| | | | | items] |];
    try (destruct (float_items items) as [ws | e]; [| discriminate]);
    destruct (new_cfg !! "scale") as [v1 |];
    try (destruct (Py.float v1) as [r1 | e1]; [| discriminate]);
    destruct (new_cfg !! "intercept") as [v2 |];
    try (destruct (Py.float v2) as [r2 | e2]; [| discriminate]);
    destruct (new_cfg !! "step_up_threshold") as [v3 |];
    try (destruct (Py.int v3) as [r3 | e3]; [| discriminate]);
    destruct (new_cfg !! "hard_deny_threshold") as [v4 |];
    try (destruct (Py.int v4) as [r4 | e4]; [| discriminate]);
    reflexivity.
Qed.

Lemma lookup_dict_update (ws : list (string * R)) :
  forall (d : gmap string R) (k : string),
    dict_update d ws !! k
    = match last_binding k ws with
      | Some v => Some v
      | None => d !! k
      end.
Proof.
  unfold dict_update.
  induction ws as [| [k' v] rest IH]; intros d k; [reflexivity |].
  simpl fold_left. rewrite IH. simpl last_binding.
  destruct (last_binding k rest) as [v' |]; [reflexivity |].
  destruct (String.eqb_spec k' k) as [-> | Hne].
  - apply lookup_insert_eq.
  - apply lookup_insert_ne. exact Hne.
Qed.

Lemma dict_update_twice (d : gmap string R) (ws : list (string * R)) :
  dict_update (dict_update d ws) ws = dict_update d ws.
Proof.
  apply map_eq. intros k. rewrite !lookup_dict_update.
  destruct (last_binding k ws); reflexivity.
Qed.

Lemma updated_twice (new_cfg : gmap string Py.val) (c : RiskConfig) :
  updated new_cfg (updated new_cfg c) = updated new_cfg c.
Proof.
  unfold updated, updated_weights, updated_float, updated_int.
  cbn [weights scale intercept step_up_threshold hard_deny_threshold].
  f_equal.
  - destruct (new_cfg !! "weights") as [[| | | | | items] |]; try reflexivity.
    destruct (float_items items) as [ws | e]; [| reflexivity].
    apply dict_update_twice.
  - destruct (new_cfg !! "scale") as [v |]; [| reflexivity].
    destruct (Py.float v); reflexivity.
  - destruct (new_cfg !! "intercept") as [v |]; [| reflexivity].
    destruct (Py.float v); reflexivity.
  - destruct (new_cfg !! "step_up_threshold") as [v |]; [| reflexivity].
    destruct (Py.int v); reflexivity.
  - destruct (new_cfg !! "hard_deny_threshold") as [v |]; [| reflexivity].
    destruct (Py.int v); reflexivity.
Qed.

(** X5. A well-formed update never raises; [update_config] returns the
    configuration it has just installed; every field that the update does
    not mention keeps its value; and applying the same update a second
    time changes nothing. *)
Theorem update_config_well_formed (new_cfg : gmap string Py.val)
    (CONFIG : RiskConfig) (Hok : first_malformed new_cfg = None) :
  let c := snd (update_config new_cfg CONFIG) in
  fst (update_config new_cfg CONFIG) = Py.Ok c /\
  (new_cfg !! "weights" = None -> weights c = weights CONFIG) /\
  (new_cfg !! "scale" = None -> scale c = scale CONFIG) /\
  (new_cfg !! "intercept" = None -> intercept c = intercept CONFIG) /\
  (new_cfg !! "step_up_threshold" = None ->
     step_up_threshold c = step_up_threshold CONFIG) /\
  (new_cfg !! "hard_deny_threshold" = None ->
     hard_deny_threshold c = hard_deny_threshold CONFIG) /\
  update_config new_cfg c = (Py.Ok c, c).
Proof.
  intros c. unfold c, update_config.
  rewrite (update_statements_ok new_cfg CONFIG Hok). cbn [fst snd].
  rewrite (update_statements_ok new_cfg _ Hok). rewrite updated_twice.
  unfold get_config.
  split; [reflexivity |].
  unfold updated, updated_weights, updated_float, updated_int.
  cbn [weights scale intercept step_up_threshold hard_deny_threshold].
  repeat split; try (intros ->; reflexivity).
Qed.

(** X6. The weights of an update are merged into the table: a name that
    the update binds gets the value of its last binding, every other name
    keeps its weight, and no name is ever removed. *)
Theorem update_config_merges_weights (new_cfg : gmap string Py.val)
    (CONFIG : RiskConfig) (items : list (string * Py.val))
    (ws : list (string * R)) (k : string)
    (Hok : first_malformed new_cfg = None)
    (Hitems : new_cfg !! "weights" = Some (Py.VDict items))
    (Hws : float_items items = Py.Ok ws) :
  weights (snd (update_config new_cfg CONFIG)) !! k
  = match last_binding k ws with
    | Some v => Some v
    | None => weights CONFIG !! k
    end.
Proof.
  unfold update_config.
  rewrite (update_statements_ok new_cfg CONFIG Hok). cbn [fst snd].
  unfold updated, updated_weights. cbn [weights].
  rewrite Hitems, Hws. apply lookup_dict_update.
Qed.

End Update.

Lemma update_statements_weights_frame `{Py.Parsers}
    (new_cfg : gmap string Py.val) (c : RiskConfig) :
  (forall items, new_cfg !! "weights" <> Some (Py.VDict items)) ->
  weights (snd (update_statements new_cfg c)) = weights c.
Proof.
  intros Hnd.
  unfold update_statements, seq_stmt, assign_weights, assign_field.
  destruct (new_cfg !! "weights") as [[| | | | | items] |];
    try (exfalso; exact (Hnd items eq_refl));
    destruct (new_cfg !! "scale") as [v1 |];
    try destruct (Py.float v1) as [r1 | e1];
    try reflexivity;
    destruct (new_cfg !! "intercept") as [v2 |];
    try destruct (Py.float v2) as [r2 | e2];
    try reflexivity;
    destruct (new_cfg !! "step_up_threshold") as [v3 |];
    try destruct (Py.int v3) as [r3 | e3];
    try reflexivity;
    destruct (new_cfg !! "hard_deny_threshold") as [v4 |];
    try destruct (Py.int v4) as [r4 | e4];
    reflexivity.
Qed.

Lemma float_items_floats `{Py.Parsers} (ws : list (string * R)) :
  float_items (map (fun kv => (fst kv, Py.VFloat (snd kv))) ws) = Py.Ok ws.
Proof.
  induction ws as [| [k v] rest IH]; [reflexivity |].
  simpl. rewrite IH. reflexivity.
Qed.

Lemma body_lookup_weights (body : Main.RiskConfigIn) :
  Main.model_to_dict_exclude_unset body !! "weights"
  = match Main.in_weights body with
    | Some o =>
        Some (Main.opt_val
                (fun ws => Py.VDict (map (fun kv => (fst kv, Py.VFloat (snd kv))) ws)) o)
    | None => None
    end.
Proof.
  destruct body as [[w |] [s |] [i |] [t |] [h |]]; reflexivity.
Qed.

Lemma body_lookup_scale (body : Main.RiskConfigIn) :
  Main.model_to_dict_exclude_unset body !! "scale"
  = match Main.in_scale body with
    | Some o => Some (Main.opt_val Py.VFloat o)
    | None => None
    end.
Proof.
  destruct body as [[w |] [s |] [i |] [t |] [h |]]; reflexivity.
Qed.

Lemma body_lookup_intercept (body : Main.RiskConfigIn) :
  Main.model_to_dict_exclude_unset body !! "intercept"
  = match Main.in_intercept body with
    | Some o => Some (Main.opt_val Py.VFloat o)
    | None => None
    end.
Proof.
  destruct body as [[w |] [s |] [i |] [t |] [h |]]; reflexivity.
Qed.

Lemma body_lookup_step_up (body : Main.RiskConfigIn) :
  Main.model_to_dict_exclude_unset body !! "step_up_threshold"
  = match Main.in_step_up_threshold body with
    | Some o => Some (Main.opt_val Py.VInt o)
    | None => None
    end.
Proof.
  destruct body as [[w |] [s |] [i |] [t |] [h |]]; reflexivity.
Qed.

Lemma body_lookup_hard_deny (body : Main.RiskConfigIn) :
  Main.model_to_dict_exclude_unset body !! "hard_deny_threshold"
  = match Main.in_hard_deny_threshold body with
    | Some o => Some (Main.opt_val Py.VInt o)
    | None => None
    end.
Proof.
  destruct body as [[w |] [s |] [i |] [t |] [h |]]; reflexivity.
Qed.

Lemma body_first_malformed `{Py.Parsers} (body : Main.RiskConfigIn) :
  (explicit_null (Main.in_scale body)
   || explicit_null (Main.in_intercept body)
   || explicit_null (Main.in_step_up_threshold body)
   || explicit_null (Main.in_hard_deny_threshold body) = false
   /\ first_malformed (Main.model_to_dict_exclude_unset body) = None) \/
  (explicit_null (Main.in_scale body)
   || explicit_null (Main.in_intercept body)
   || explicit_null (Main.in_step_up_threshold body)
   || explicit_null (Main.in_hard_deny_threshold body) = true
   /\ exists f, first_malformed (Main.model_to_dict_exclude_unset body) = Some f).
Proof.
  unfold first_malformed. cbn [List.find]. unfold malformed.
  rewrite body_lookup_weights, body_lookup_scale, body_lookup_intercept,
    body_lookup_step_up, body_lookup_hard_deny.
  destruct body as [w s i t h]. cbn [Main.in_weights Main.in_scale
    Main.in_intercept Main.in_step_up_threshold Main.in_hard_deny_threshold].
  assert (Hw : match
                 match w with
                 | Some o =>
                     Some (Main.opt_val
                       (fun ws => Py.VDict (map (fun kv => (fst kv, Py.VFloat (snd kv))) ws)) o)
                 | None => None
                 end
               with
               | Some (Py.VDict items) => negb (Py.is_ok (float_items items))
               | _ => false
               end = false).
  { destruct w as [[ws |] |]; try reflexivity.
    simpl. rewrite float_items_floats. reflexivity. }
  rewrite Hw.
  destruct s as [[s |] |]; destruct i as [[i |] |];
    destruct t as [[t |] |]; destruct h as [[h |] |]; simpl;
    first [ left; split; reflexivity | right; split; [reflexivity | eexists; reflexivity] ].
Qed.

(** X7. [PUT /risk/config] fails exactly when the request sets one of
    [scale], [intercept], [step_up_threshold], [hard_deny_threshold] to an
    explicit null; a null (or absent) [weights] is accepted and leaves the
    weights as they were, whether the call fails or not; and after a
    successful call the thresholds that [login] reads are those of the
    configuration that was returned. *)
Theorem put_risk_config_null_fields `{Py.Parsers} (body : Main.RiskConfigIn)
    (g : Main.Globals) :
  let out := Main.put_risk_config body g in
  Py.is_ok (fst out)
  = negb (explicit_null (Main.in_scale body)
          || explicit_null (Main.in_intercept body)
          || explicit_null (Main.in_step_up_threshold body)
          || explicit_null (Main.in_hard_deny_threshold body)) /\
  ((Main.in_weights body = None \/ Main.in_weights body = Some None) ->
     weights (Main.CONFIG (snd out)) = weights (Main.CONFIG g)) /\
  (forall c, fst out = Py.Ok c ->
     c = Main.CONFIG (snd out) /\
     Main.RISK_STEP_UP_THRESHOLD (snd out) = step_up_threshold c /\
     Main.RISK_HARD_DENY (snd out) = hard_deny_threshold c).
Proof.
  intros out. unfold out, Main.put_risk_config, update_config.
  split; [| split].
  - destruct (body_first_malformed body) as [[-> Hnone] | [-> [f Hsome]]].
    + rewrite (update_statements_ok _ (Main.CONFIG g) Hnone). reflexivity.
    + destruct (update_statements_cases (Main.model_to_dict_exclude_unset body)
                  (Main.CONFIG g))
        as [(c' & Hrun & Hnone) | (e & c' & f' & Hrun & _)]; [congruence |].
      rewrite Hrun. reflexivity.
  - intros Hw.
    assert (Hframe : weights (snd (update_statements
                       (Main.model_to_dict_exclude_unset body) (Main.CONFIG g)))
                     = weights (Main.CONFIG g)).
    { apply update_statements_weights_frame. intros items.
      rewrite body_lookup_weights.
      destruct Hw as [-> | ->]; discriminate. }
    destruct (update_statements _ (Main.CONFIG g)) as [[u | e] c']; exact Hframe.
  - intros c.
    destruct (update_statements _ (Main.CONFIG g)) as [[u | e] c']; cbn [fst snd];
      [| discriminate].
    intros Hc. injection Hc as <-. unfold get_config. repeat split.
Qed.

End ConfigMore.

Module ThreatIntelMore.

Import ThreatIntel ThreatIntelFeeds Main MainFacts.

Lemma parse_domains_fold (pieces : list string) :
  forall (acc : gset string) (d : string),
    d ∈ fold_left
          (fun out piece =>
             let d := Py.lower (strip piece) in
             if negb (String.eqb d "") then out ∪ {[ d ]} else out)
          pieces acc
    <-> d ∈ acc \/
        exists piece, In piece pieces /\ d = Py.lower (strip piece) /\ d <> ""%string.
Proof.
  induction pieces as [| p rest IH]; intros acc d; simpl.
  - split; [auto | intros [Hd | (piece & [] & _)]; exact Hd].
  - rewrite IH. clear IH.
    destruct (String.eqb_spec (Py.lower (strip p)) "") as [Hempty | Hne]; simpl.
    + split.
      * intros [Hd | (piece & Hin & Heq & Hn)]; [left; exact Hd |].
        right. exists piece. auto.
      * intros [Hd | (piece & [<- | Hin] & Heq & Hn)]; [left; exact Hd | |].
        -- congruence.
        -- right. exists piece. auto.
    + split.
      * intros [Hd | (piece & Hin & Heq & Hn)].
        -- apply elem_of_union in Hd. destruct Hd as [Hd | Hd]; [left; exact Hd |].
           apply elem_of_singleton in Hd. right. exists p. subst d. auto.
        -- right. exists piece. auto.
      * intros [Hd | (piece & [<- | Hin] & Heq & Hn)].
        -- left. apply elem_of_union. left. exact Hd.
        -- left. apply elem_of_union. right. apply elem_of_singleton. exact Heq.
        -- right. exists piece. auto.
Qed.

Lemma parse_domains_elem (csv d : string) :
  d ∈ _parse_domains csv
  <-> exists piece, In piece (split_comma csv) /\ d = Py.lower (strip piece)
                    /\ d <> ""%string.
Proof.
  unfold _parse_domains. rewrite parse_domains_fold.
  split; [intros [Hd | Hd]; [| exact Hd] | auto].
  exfalso. revert Hd. apply not_elem_of_empty.
Qed.

Section Feeds.
Context `{IpAddress}.

(** X8. After the feed of disposable domains is loaded from the
    comma-separated setting, an address is flagged exactly when threat
    intelligence is enabled, the address has an [@], and the part after the
    first [@], stripped and lower-cased, equals a non-empty stripped and
    lower-cased piece of the setting.  An address without a domain is
    never flagged. *)
Theorem check_email_domain_feed (TI_ENABLE : bool) (st : State)
    (TI_BAD_EMAIL_DOMAINS email : string) :
  ti_disposable_email
    (check_email_domain TI_ENABLE
       (reload_bad_domains TI_ENABLE TI_BAD_EMAIL_DOMAINS st) email)
  = true
  <-> TI_ENABLE = true /\
      exists dom piece,
        after_at email = Some dom /\
        In piece (split_comma TI_BAD_EMAIL_DOMAINS) /\
        Py.lower (strip dom) = Py.lower (strip piece) /\
        Py.lower (strip piece) <> ""%string.
Proof.
  unfold check_email_domain, reload_bad_domains.
  destruct TI_ENABLE; simpl.
  2:{ split; [discriminate | intros [Hf _]; discriminate]. }
  destruct (String.eqb_spec email "") as [-> | Hne]; simpl.
  { split; [discriminate | intros (_ & dom & piece & Hat & _); discriminate]. }
  destruct (after_at email) as [dom |]; simpl.
  2:{ split; [discriminate | intros (_ & dom & piece & Hat & _); discriminate]. }
  rewrite bool_decide_eq_true, parse_domains_elem.
  split.
  - intros (piece & Hin & Heq & Hn). split; [reflexivity |].
    exists dom, piece. rewrite <- Heq. auto.
  - intros (_ & dom' & piece & Hat & Hin & Heq & Hn).
    injection Hat as <-. exists piece. rewrite Heq. auto.
Qed.

(** X9. The threat-intelligence stage of [login] never lowers a score,
    never takes it above 100, adds at most 70 points, and only appends to
    the trace, at most three tokens; with threat intelligence disabled, or
    for an unparsable address and an e-mail without a domain, it changes
    nothing but the cap at 100. *)
Theorem ti_pipeline_bounds (TI_ENABLE : bool) (st : State) (ip email : string)
    (base_score : Z) (parts : list string) :
  let ti_ip := lookup_ip TI_ENABLE st ip in
  let ti_email := check_email_domain TI_ENABLE st email in
  let ti_breach := check_breached_cred email in
  let out := login_ti_fusion base_score parts ti_ip ti_email ti_breach in
  Z.min 100 base_score <= fst out <= 100 /\
  fst out <= base_score + 70 /\
  (exists added, snd out = parts ++ added /\ (length added <= 3)%nat) /\
  (TI_ENABLE = false -> out = (Z.min 100 base_score, parts)) /\
  (ip_address ip = None -> after_at email = None ->
     out = (Z.min 100 base_score, parts)).
Proof.
  intros ti_ip ti_email ti_breach out.
  unfold out, ti_breach, ti_email, ti_ip, login_ti_fusion, check_breached_cred,
    check_email_domain, lookup_ip, _asn_for_ip.
  destruct bump_values as (B1 & B2 & B3 & B4 & B5).
  destruct TI_ENABLE; simpl negb; cbv iota.
  2:{ simpl. rewrite Z.add_0_r.
      repeat split; try lia; try reflexivity.
      exists []. rewrite app_nil_r. split; [reflexivity | simpl; lia]. }
  simpl orb.
  destruct (ip_address ip) as [a |] eqn:Hip;
    [destruct (_ip_in (ip_bad st) ip); destruct (_ip_in (ip_tor st) ip) |];
    (destruct (String.eqb email ""); [| destruct (after_at email) as [dom |];
       [destruct (bool_decide (Py.lower (strip dom) ∈ bad_domains st)) |]]);
    cbn [ti_disposable_email ti_bad_ip ti_tor_exit ti_bad_asn
         ti_score_bump_suggest no_flags mark_bad_ip mark_tor_exit fst snd];
    rewrite ?B1, ?B2, ?B3, ?B4, ?B5;
    (split; [lia |]); (split; [lia |]);
    (split; [rewrite <- ?app_assoc; eexists; split;
             [first [reflexivity | symmetry; apply app_nil_r] | simpl; lia] |]);
    (split; [discriminate |]);
    try (intros; discriminate);
    intros _ _; f_equal; lia.
Qed.

Lemma within_get (ip : string) (out : IpFlags) (cache : Cache) :
  forall i, within ip out i cache -> cache_get ip cache = Some out.
Proof.
  induction cache as [| [k v] rest IH]; intros i; simpl; [intros [] |].
  destruct (String.eqb k ip); [intros ->; reflexivity |].
  destruct i as [| i']; [intros [] | apply IH].
Qed.

Lemma within_S (ip : string) (out : IpFlags) (cache : Cache) :
  forall i, within ip out i cache -> within ip out (S i) cache.
Proof.
  induction cache as [| [k v] rest IH]; intros i; simpl; [intros [] |].
  destruct (String.eqb k ip); [auto |].
  destruct i as [| i']; [intros [] | apply IH].
Qed.

Lemma within_remove (ip ip' : string) (out : IpFlags) (cache : Cache) :
  ip' <> ip ->
  forall i, within ip out i cache -> within ip out i (cache_remove ip' cache).
Proof.
  intros Hne. induction cache as [| [k v] rest IH]; intros i; simpl; [intros [] |].
  destruct (String.eqb_spec k ip) as [-> | Hk].
  - intros ->. destruct (String.eqb_spec ip ip') as [Heq | _]; [congruence |].
    simpl. rewrite String.eqb_refl. reflexivity.
  - destruct i as [| i']; [intros [] |]. intros Hw.
    destruct (String.eqb_spec k ip') as [-> | Hk'].
    + apply within_S, IH, Hw.
    + simpl. destruct (String.eqb_spec k ip); [contradiction |].
      apply IH, Hw.
Qed.

Lemma within_removelast (ip : string) (out : IpFlags) (cache : Cache) :
  forall i, within ip out i cache -> (S i < length cache)%nat ->
            within ip out i (removelast cache).
Proof.
  induction cache as [| [k v] rest IH]; intros i; [intros [] |].
  intros Hw Hlen.
  destruct rest as [| kv rest'].
  { simpl in Hlen. lia. }
  change (removelast ((k, v) :: kv :: rest'))
    with ((k, v) :: removelast (kv :: rest')).
  simpl in Hw. simpl.
  destruct (String.eqb k ip); [exact Hw |].
  destruct i as [| i']; [destruct Hw |].
  apply IH; [exact Hw |]. simpl in Hlen. simpl. lia.
Qed.

Lemma lookup_ip_cached_step (TI_ENABLE : bool) (st : State) (cache : Cache)
    (ip ip' : string) (out : IpFlags) (i : nat) :
  within ip out i cache -> Z.of_nat (S i) < maxsize ->
  within ip out (S i) (snd (lookup_ip_cached TI_ENABLE st cache ip')) /\
  (ip' = ip -> fst (lookup_ip_cached TI_ENABLE st cache ip') = out).
Proof.
  intros Hw Hi. unfold lookup_ip_cached.
  destruct (String.eqb_spec ip' ip) as [-> | Hne].
  - rewrite (within_get _ _ _ _ Hw). cbn [fst snd]. split; [| reflexivity].
    simpl. rewrite String.eqb_refl. reflexivity.
  - split; [| contradiction].
    destruct (cache_get ip' cache) as [v |]; cbn [fst snd]; simpl.
    + destruct (String.eqb_spec ip' ip); [contradiction |].
      apply within_remove; assumption.
    + destruct (String.eqb_spec ip' ip); [contradiction |].
      destruct (Z.ltb_spec (Z.of_nat (length cache)) maxsize) as [Hlt | Hge];
        [exact Hw |].
      apply within_removelast; [exact Hw | lia].
Qed.

Lemma lookups_within (TI_ENABLE : bool) (ip : string) (out : IpFlags)
    (calls : list (State * string)) :
  forall (cache : Cache) (i : nat),
    within ip out i cache ->
    Z.of_nat (i + length calls) < maxsize ->
    within ip out (i + length calls) (lookups TI_ENABLE calls cache).
Proof.
  unfold lookups.
  induction calls as [| [st' ip'] rest IH]; intros cache i Hw Hlen; simpl.
  - rewrite Nat.add_0_r. exact Hw.
  - simpl in Hlen.
    replace (i + S (length rest))%nat with (S i + length rest)%nat by lia.
    apply IH; [| lia].
    apply lookup_ip_cached_step; [exact Hw | lia].
Qed.

(** X10. [lookup_ip] is memoised and nothing clears its cache: once an
    address has been looked up, the same answer is returned for it after
    any change of the feeds and after fewer than 10000 further lookups,
    whatever the feeds say by then. *)
Theorem lookup_ip_cached_stale (TI_ENABLE : bool) (st1 st2 : State)
    (cache : Cache) (ip : string) (calls : list (State * string))
    (Hcalls : Z.of_nat (length calls) < maxsize) :
  let first := lookup_ip_cached TI_ENABLE st1 cache ip in
  let later := lookups TI_ENABLE calls (snd first) in
  fst (lookup_ip_cached TI_ENABLE st2 later ip) = fst first.
Proof.
  intros first later.
  assert (Hw0 : within ip (fst first) 0 (snd first)).
  { unfold first, lookup_ip_cached.
    destruct (cache_get ip cache); cbn [fst snd]; simpl;
      rewrite String.eqb_refl; reflexivity. }
  pose proof (lookups_within TI_ENABLE ip (fst first) calls (snd first) 0 Hw0) as Hw.
  simpl in Hw. specialize (Hw Hcalls). fold later in Hw.
  unfold lookup_ip_cached. rewrite (within_get _ _ _ _ Hw). reflexivity.
Qed.

End Feeds.

End ThreatIntelMore.

Module AnomalyMore.

Import AnomalyEngine Views PyFacts AnomalyFacts.

Lemma trunc_range (y : R) (c : Z) :
  (0 <= y <= IZR c)%R -> 0 <= Py.trunc y <= c.
Proof.
  intros [Hlo Hhi]. unfold Py.trunc.
  destruct (Rle_dec 0 y) as [_ | Hn]; [| contradiction].
  split.
  - rewrite <- (floor_IZR 0). apply floor_mono. exact Hlo.
  - rewrite <- (floor_IZR c). apply floor_mono. exact Hhi.
Qed.

Lemma np_clip_range (x lo hi : R) : (lo <= hi)%R -> (lo <= np_clip x lo hi <= hi)%R.
Proof.
  intros Hle. unfold np_clip, Rmin, Rmax.
  destruct (Rle_dec x lo); destruct (Rle_dec _ hi); lra.
Qed.

Lemma trunc_clip_100 (x : R) : 0 <= Py.trunc (np_clip x 0.0 100.0) <= 100.
Proof.
  apply trunc_range.
  pose proof (np_clip_range x 0.0 100.0) as Hc. lra.
Qed.

Lemma trunc_clip_50 (x : R) : 0 <= Py.trunc (np_clip x 0.0 50.0) <= 50.
Proof.
  apply trunc_range.
  pose proof (np_clip_range x 0.0 50.0) as Hc. lra.
Qed.

Section Results.
Context `{Py.Parsers} `{Backend}.

Lemma iforest_outcome_range (cfg : DetectorConfig) (hist_rows : list Row)
    (newest_row : Row) (used : string) (n_train score : Z) (details : Details) :
  iforest_outcome cfg hist_rows newest_row = Py.Ok (used, n_train, score, details) ->
  used = "iforest"%string /\ 0 <= score <= 100 /\
  (n_train = 0 \/ n_train = len hist_rows).
Proof.
  unfold iforest_outcome.
  destruct (len hist_rows <? if_min_train_rows (iforest_cfg cfg)).
  - intros [= <- <- <- <-]. split; [reflexivity |]. split; [lia | left; reflexivity].
  - intros Hrun.
    repeat (apply bind_ok in Hrun as (? & _ & Hrun)).
    injection Hrun as <- <- <- <-.
    split; [reflexivity |]. split; [apply trunc_clip_100 | right; reflexivity].
Qed.

Lemma ae_score_one_range (cfg : AEConfig) (row : Row) (a : AEState)
    (score : Z) (details : Details) :
  fst (ae_score_one cfg row a) = Py.Ok (score, details) ->
  0 <= score <= 100 /\ TORCH_AVAILABLE = true.
Proof.
  unfold ae_score_one, _ensure_torch. run_monad.
  generalize (featurize_rows [row]). intros F1.
  destruct TORCH_AVAILABLE; [| simpl; discriminate].
  simpl.
  destruct (ae_fitted a) as [model |]; [destruct (ae_scaler a) as [sc |] |];
    try (unfold not_trained; cbn [fst]; intros [= <- <-]; split; [lia | reflexivity]).
  destruct F1 as [X | e]; simpl; [| discriminate].
  destruct (scaler_transform sc X) as [Xs | e]; simpl; [| discriminate].
  destruct (ae_forward model Xs) as [y | e]; simpl; [| discriminate].
  intros [= <- <-]. split; [| reflexivity].
  destruct (Rle_dec _ _).
  - pose proof (trunc_clip_50
      (mse_all y Xs / (Py.get (thresholds a) "p95" (mse_all y Xs) + 1e-9) * 50.0)).
    lia.
  - match goal with
    | |- 0 <= 50 + Py.trunc (np_clip ?x _ _) <= 100 =>
        pose proof (trunc_clip_50 x)
    end.
    lia.
Qed.

Lemma try_autoenc_range (cfg : DetectorConfig) (hist_rows : list Row)
    (newest_row : Row) (st : DetState) (used : string) (n_train score : Z)
    (details : Details) :
  fst (_try_autoenc cfg hist_rows newest_row st) = Py.Ok (used, n_train, score, details) ->
  used = "autoenc"%string /\ 0 <= score <= 100 /\ TORCH_AVAILABLE = true.
Proof.
  unfold _try_autoenc. unfold mbind at 1.
  destruct (on_autoenc (ae_train (autoenc_cfg cfg) hist_rows) st) as [[n | e] st1];
    [| simpl; discriminate].
  unfold mbind, on_autoenc, ret.
  destruct (ae_score_one (autoenc_cfg cfg) newest_row (autoenc st1))
    as [[[s d] | e] a] eqn:Hsc; simpl; [| discriminate].
  intros [= <- <- <- <-].
  assert (Hr : fst (ae_score_one (autoenc_cfg cfg) newest_row (autoenc st1))
               = Py.Ok (s, d)) by (rewrite Hsc; reflexivity).
  apply ae_score_one_range in Hr. destruct Hr as [Hr Ht].
  split; [reflexivity |]. split; assumption.
Qed.

(** X11. Whatever the libraries answer, a result returned by
    [train_and_score] has a score between 0 and 100, names the isolation
    forest or the autoencoder as the method used, and reports as training
    size either 0 or the length of the history; the autoencoder is named
    only when PyTorch is available and the history has at least the
    autoencoder's minimum of rows. *)
Theorem train_and_score_result (cfg : DetectorConfig) (hist_rows : list Row)
    (newest_row : Row) (force_method : option string) (st : DetState)
    (used : string) (score n_train : Z) (details : Details)
    (Hret : fst (train_and_score cfg hist_rows newest_row force_method st)
            = Py.Ok (used, score, details, n_train)) :
  0 <= score <= 100 /\
  (n_train = 0 \/ n_train = len hist_rows) /\
  (used = "iforest"%string \/
   used = "autoenc"%string /\ TORCH_AVAILABLE = true /\
   n_train = len hist_rows /\
   ae_min_train_rows (autoenc_cfg cfg) <= len hist_rows).
Proof.
  assert (Hif : forall st',
    fst ((let* t := _try_iforest cfg hist_rows newest_row in ret (returned t)) st')
      = Py.Ok (used, score, details, n_train) ->
    0 <= score <= 100 /\ (n_train = 0 \/ n_train = len hist_rows) /\
    (used = "iforest"%string \/
     used = "autoenc"%string /\ TORCH_AVAILABLE = true /\
     n_train = len hist_rows /\
     ae_min_train_rows (autoenc_cfg cfg) <= len hist_rows)).
  { intros st'. rewrite iforest_branch_outcome.
    destruct (iforest_outcome cfg hist_rows newest_row)
      as [[[[u n] s] d] | e'] eqn:Hout; [| discriminate].
    intros [= -> -> -> ->].
    apply iforest_outcome_range in Hout. destruct Hout as (-> & Hs & Hn).
    split; [exact Hs |]. split; [exact Hn |]. left. reflexivity. }
  assert (Hh : forall e st',
    fst (fallback_handler cfg hist_rows newest_row e st')
      = Py.Ok (used, score, details, n_train) ->
    0 <= score <= 100 /\ (n_train = 0 \/ n_train = len hist_rows) /\
    (used = "iforest"%string \/
     used = "autoenc"%string /\ TORCH_AVAILABLE = true /\
     n_train = len hist_rows /\
     ae_min_train_rows (autoenc_cfg cfg) <= len hist_rows)).
  { intros e st'. rewrite fallback_handler_outcome.
    destruct (iforest_outcome cfg hist_rows newest_row)
      as [[[[u n] s] d] | e'] eqn:Hout; [| discriminate].
    intros [= -> -> <- ->].
    apply iforest_outcome_range in Hout. destruct Hout as (-> & Hs & Hn).
    split; [exact Hs |]. split; [exact Hn |]. left. reflexivity. }
  revert Hret. unfold train_and_score.
  destruct (String.eqb (chosen_method cfg force_method) "iforest"); [apply Hif |].
  destruct (String.eqb (chosen_method cfg force_method) "autoenc").
  - unfold try_except. unfold mbind at 1.
    destruct (_try_autoenc cfg hist_rows newest_row st)
      as [[[[[u n] s] d] | e] st1] eqn:Hae; [| apply Hh].
    assert (Hae' : fst (_try_autoenc cfg hist_rows newest_row st)
                   = Py.Ok (u, n, s, d)) by (rewrite Hae; reflexivity).
    destruct (Z.eqb_spec n 0) as [Hz | Hnz].
    + pose proof (Hif st1) as Hif1.
      destruct ((let* t := _try_iforest cfg hist_rows newest_row in ret (returned t)) st1)
        as [[r | e] st2]; [exact Hif1 | apply Hh].
    + unfold ret. cbn [fst]. intros [= -> -> -> ->].
      destruct (try_autoenc_range _ _ _ _ _ _ _ _ Hae') as (-> & Hs & Ht).
      destruct (try_autoenc_ok _ _ _ _ _ _ _ _ Hae') as [[Hn0 _] | [Hn Hmin]];
        [contradiction |].
      split; [exact Hs |]. split; [right; exact Hn |]. right. auto.
  - destruct (TORCH_AVAILABLE
              && (ae_min_train_rows (autoenc_cfg cfg) <=? len hist_rows)) eqn:Hauto;
      [| apply Hif].
    unfold try_except. unfold mbind at 1.
    destruct (_try_autoenc cfg hist_rows newest_row st)
      as [[[[[u n] s] d] | e] st1] eqn:Hae; [| apply Hh].
    assert (Hae' : fst (_try_autoenc cfg hist_rows newest_row st)
                   = Py.Ok (u, n, s, d)) by (rewrite Hae; reflexivity).
    unfold ret, returned. cbn [fst]. intros [= -> -> -> ->].
    destruct (try_autoenc_range _ _ _ _ _ _ _ _ Hae') as (-> & Hs & Ht).
    apply andb_true_iff in Hauto. destruct Hauto as [_ Hmin].
    apply Z.leb_le in Hmin.
    destruct (try_autoenc_ok _ _ _ _ _ _ _ _ Hae') as [[Hn0 Hshort] | [Hn _]];
      [lia |].
    split; [exact Hs |]. split; [right; exact Hn |]. right. auto.
Qed.


Lemma hash_bucket_range (s : string) (k : Z) :
  0 < k -> (0 <= IZR (_stable_hash s mod (k + 1)) / IZR k <= 1)%R.
Proof.
  intros Hk.
  pose proof (Z.mod_pos_bound (_stable_hash s) (k + 1)) as Hb.
  assert (Hlo : (0 <= IZR (_stable_hash s mod (k + 1)))%R) by (apply IZR_le; lia).
  assert (Hhi : (IZR (_stable_hash s mod (k + 1)) <= IZR k)%R) by (apply IZR_le; lia).
  assert (Hkr : (0 < IZR k)%R) by (apply IZR_lt; lia).
  split.
  - apply Rmult_le_pos; [exact Hlo | left; apply Rinv_0_lt_compat; exact Hkr].
  - apply Rmult_le_reg_r with (IZR k); [exact Hkr |].
    unfold Rdiv. rewrite Rmult_assoc, Rinv_l by lra. lra.
Qed.

Lemma featurize_row_ok (r : Row) (x : list R) :
  featurize_row r = Py.Ok x -> feature_row_ok x.
Proof.
  unfold featurize_row. intros Hrun.
  apply bind_ok in Hrun as (amt & _ & Hrun).
  apply bind_ok in Hrun as (cat & _ & Hrun).
  apply bind_ok in Hrun as (merch & _ & Hrun).
  injection Hrun as <-.
  do 3 eexists. split; [reflexivity |].
  split; [| split].
  - rewrite <- ln_1.
    assert (Hm : (0.0 <= Rmax amt 0.0)%R) by apply Rmax_r.
    destruct (Req_dec (Rmax amt 0.0) 0) as [-> | Hne].
    + replace (1 + 0)%R with 1%R by lra. lra.
    + left. apply ln_increasing; lra.
  - replace 999.0%R with (IZR 999) by lra.
    apply (hash_bucket_range cat 999). lia.
  - replace 1999.0%R with (IZR 1999) by lra.
    apply (hash_bucket_range merch 1999). lia.
Qed.

Lemma featurize_rows_ok (rows : list Row) :
  forall X, featurize_rows rows = Py.Ok X ->
            length X = length rows /\ Forall feature_row_ok X.
Proof.
  induction rows as [| r rest IH]; intros X; simpl.
  - intros [= <-]. split; [reflexivity | constructor].
  - intros Hrun.
    apply bind_ok in Hrun as (x & Hx & Hrun).
    apply bind_ok in Hrun as (xs & Hxs & Hrun).
    injection Hrun as <-.
    destruct (IH xs Hxs) as [Hlen Hall].
    split; [simpl; congruence |].
    constructor; [exact (featurize_row_ok r x Hx) | exact Hall].
Qed.

Lemma fnv_step_range (h : Z) (ch : ascii) : 0 <= fnv_step h ch < 4294967296.
Proof.
  unfold fnv_step.
  change 4294967295 with (Z.ones 32). rewrite Z.land_ones by lia.
  change (2 ^ 32) with 4294967296. apply Z.mod_pos_bound. lia.
Qed.

Lemma stable_hash_range (s : string) : 0 <= _stable_hash s < 4294967296.
Proof.
  unfold _stable_hash. destruct (String.eqb s ""); [lia |].
  assert (Hgen : forall l h, 0 <= h < 4294967296 ->
                             0 <= fold_left fnv_step l h < 4294967296).
  { induction l as [| c l IH]; intros h Hh; simpl; [exact Hh |].
    apply IH. apply fnv_step_range. }
  apply Hgen. lia.
Qed.

(** X22. Whenever [featurize_rows] returns, the matrix has one row of
    three columns for every input row: the logarithm of the amount, which
    is never negative, and the category and merchant buckets, which lie
    between 0 and 1; the hash behind the buckets is a 32-bit number. *)
Theorem featurize_rows_shape (rows : list Row) (X : Matrix)
    (Hret : featurize_rows rows = Py.Ok X) :
  length X = length rows /\
  Forall (fun x => exists a c m, x = [a; c; m] /\ (0 <= a)%R /\
                                 (0 <= c <= 1)%R /\ (0 <= m <= 1)%R) X /\
  (forall s, 0 <= _stable_hash s < 2 ^ 32).
Proof.
  destruct (featurize_rows_ok rows X Hret) as [Hlen Hall].
  split; [exact Hlen |]. split; [exact Hall |].
  intros s. change (2 ^ 32) with 4294967296. apply stable_hash_range.
Qed.

End Results.

End AnomalyMore.

Module MainAuthFacts.

Import MainAuth.

Lemma logins_app (attempts1 attempts2 : list (Py.datetime * Py.datetime * bool)) :
  forall user,
    logins user (attempts1 ++ attempts2)
    = (fst (logins user attempts1) ++ fst (logins (snd (logins user attempts1)) attempts2),
       snd (logins (snd (logins user attempts1)) attempts2)).
Proof.
  induction attempts1 as [| [[now now'] ok] rest IH]; intros user; simpl.
  - destruct (logins user attempts2); reflexivity.
  - destruct (login_gate user now now' ok) as [g u1]. rewrite IH.
    destruct (logins u1 rest) as [gs u2]. simpl.
    destruct (logins u2 attempts2); reflexivity.
Qed.

Lemma logins_locked (t : Py.datetime) (attempts : list (Py.datetime * Py.datetime * bool)) :
  forall user,
    lock_until user = Some t ->
    Forall (fun a => fst (fst a) < t) attempts ->
    logins user attempts = (map (fun _ => Locked) attempts, user).
Proof.
  induction attempts as [| [[now now'] ok] rest IH]; intros user Hlock Hall;
    [reflexivity |].
  inversion Hall as [| a l Hnow Hrest]; subst. simpl in Hnow.
  simpl. unfold login_gate. rewrite Hlock.
  destruct (Z.ltb_spec now t) as [_ | Hge]; [| lia].
  rewrite (IH user Hlock Hrest). reflexivity.
Qed.

Lemma logins_failures (fails : list (Py.datetime * Py.datetime)) :
  forall (c : Z) (fa : option Z),
    or_0 fa = c -> 0 <= c -> c + Z.of_nat (length fails) < MAX_FAILS ->
    logins {| failed_attempts := fa; lock_until := None |}
      (map (fun f => (fst f, snd f, false)) fails)
    = (map (fun _ => BadPassword) fails,
       {| failed_attempts := if fails is [] then fa
                             else Some (c + Z.of_nat (length fails));
          lock_until := None |}).
Proof.
  induction fails as [| [now now'] rest IH]; intros c fa Hc Hpos Hlen;
    [reflexivity |].
  simpl map. cbn [logins]. unfold login_gate at 1.
  cbn [lock_until failed_attempts negb]. rewrite Hc.
  change (length ((now, now') :: rest)) with (S (length rest)) in *.
  destruct (Z.leb_spec MAX_FAILS (c + 1)) as [Hge | _]; [lia |].
  rewrite (IH (c + 1) (Some (c + 1))); [| reflexivity | lia | lia].
  f_equal. f_equal.
  destruct rest; simpl; f_equal; lia.
Qed.

(** X12. From an account without failures, four wrong passwords are
    answered 401 and leave the account open; the fifth locks it for 15
    minutes from that moment.  While the lock lasts every attempt, right
    or wrong, is answered 423 and changes nothing: the counter is not
    incremented and the lock is not extended.  Once the lock has expired
    the right password is accepted, reports five consecutive failures and
    resets the account, and one more wrong password locks it again at
    once. *)
Theorem login_lockout (fa : option Z) (fails : list (Py.datetime * Py.datetime))
    (now5 now5' : Py.datetime)
    (during : list (Py.datetime * Py.datetime * bool))
    (Hfresh : or_0 fa = 0)
    (Hfour : length fails = 4%nat)
    (Hduring : Forall (fun a => fst (fst a) < now5' + timedelta_minutes LOCK_WINDOW_MIN)
                 during) :
  let user := {| failed_attempts := fa; lock_until := None |} in
  let locked := {| failed_attempts := Some 5;
                   lock_until := Some (now5' + timedelta_minutes LOCK_WINDOW_MIN) |} in
  logins user (map (fun f => (fst f, snd f, false)) fails
               ++ [(now5, now5', false)] ++ during)
  = (map (fun _ => BadPassword) fails ++ [BadPassword]
     ++ map (fun _ => Locked) during,
     locked) /\
  (forall now now', now5' + timedelta_minutes LOCK_WINDOW_MIN <= now ->
     login_gate locked now now' true
     = (Verified 5, {| failed_attempts := Some 0; lock_until := None |}) /\
     login_gate locked now now' false
     = (BadPassword,
        {| failed_attempts := Some 6;
           lock_until := Some (now' + timedelta_minutes LOCK_WINDOW_MIN) |})).
Proof.
  intros user locked. split.
  - rewrite logins_app.
    unfold user.
    rewrite (logins_failures fails 0 fa Hfresh); [| lia | rewrite Hfour; unfold MAX_FAILS; lia].
    cbn [fst snd].
    rewrite logins_app. f_equal.
    + f_equal.
      assert (Hstep : logins
                {| failed_attempts := if fails is [] then fa
                                      else Some (0 + Z.of_nat (length fails));
                   lock_until := None |} [(now5, now5', false)]
              = ([BadPassword], locked)).
      { destruct fails as [| f fails']; [discriminate Hfour |].
        rewrite Hfour. reflexivity. }
      rewrite Hstep. cbn [fst snd].
      rewrite (logins_locked (now5' + timedelta_minutes LOCK_WINDOW_MIN) during locked
                 eq_refl Hduring).
      reflexivity.
    + assert (Hstep : logins
                {| failed_attempts := if fails is [] then fa
                                      else Some (0 + Z.of_nat (length fails));
                   lock_until := None |} [(now5, now5', false)]
              = ([BadPassword], locked)).
      { destruct fails as [| f fails']; [discriminate Hfour |].
        rewrite Hfour. reflexivity. }
      rewrite Hstep. cbn [fst snd].
      rewrite (logins_locked (now5' + timedelta_minutes LOCK_WINDOW_MIN) during locked
                 eq_refl Hduring).
      reflexivity.
  - intros now now' Hexp. unfold login_gate, locked.
    cbn [lock_until failed_attempts].
    destruct (Z.ltb_spec now (now5' + timedelta_minutes LOCK_WINDOW_MIN)) as [Hlt | _];
      [lia |].
    split; reflexivity.
Qed.

End MainAuthFacts.

Module MainNetFacts.

Import RiskEngine ThreatIntel ThreatIntelFeeds MainNet PyFacts.

Lemma haversine_arg_sym (lat1 lon1 lat2 lon2 : R) :
  (sin (math_radians (lat2 - lat1) / 2.0) ^ 2
   + cos (math_radians lat1) * cos (math_radians lat2)
     * sin (math_radians (lon2 - lon1) / 2.0) ^ 2
   = sin (math_radians (lat1 - lat2) / 2.0) ^ 2
     + cos (math_radians lat2) * cos (math_radians lat1)
       * sin (math_radians (lon1 - lon2) / 2.0) ^ 2)%R.
Proof.
  unfold math_radians.
  replace ((lat1 - lat2) * (PI / 180) / 2.0)%R
    with (- ((lat2 - lat1) * (PI / 180) / 2.0))%R by lra.
  replace ((lon1 - lon2) * (PI / 180) / 2.0)%R
    with (- ((lon2 - lon1) * (PI / 180) / 2.0))%R by lra.
  rewrite !sin_neg. ring.
Qed.

Lemma asin_nonneg (x : R) : (0 <= x <= 1)%R -> (0 <= asin x)%R.
Proof.
  intros [Hlo Hhi].
  destruct (Rle_dec 0 (asin x)) as [Hok | Hneg]; [exact Hok |].
  exfalso.
  pose proof (asin_bound x) as [Hb _].
  pose proof PI_RGT_0 as Hpi.
  assert (Hs : (sin (asin x) < 0)%R) by (apply sin_lt_0_var; lra).
  rewrite sin_asin in Hs by lra. lra.
Qed.

(** The quantity under the square root lies in [0, 1] when the two
    latitudes are between -90 and 90 degrees. *)
Lemma haversine_arg_range (lat1 lon1 lat2 lon2 : R) :
  (-90 <= lat1 <= 90)%R -> (-90 <= lat2 <= 90)%R ->
  (0 <= sin (math_radians (lat2 - lat1) / 2.0) ^ 2
        + cos (math_radians lat1) * cos (math_radians lat2)
          * sin (math_radians (lon2 - lon1) / 2.0) ^ 2 <= 1)%R.
Proof.
  intros H1 H2.
  pose proof PI_RGT_0 as Hpi.
  set (p1 := math_radians lat1). set (p2 := math_radians lat2).
  assert (Hp1 : (- (PI / 2) <= p1 <= PI / 2)%R).
  { unfold p1, math_radians. split; nra. }
  assert (Hp2 : (- (PI / 2) <= p2 <= PI / 2)%R).
  { unfold p2, math_radians. split; nra. }
  assert (Hc1 : (0 <= cos p1)%R) by (apply cos_ge_0; lra).
  assert (Hc2 : (0 <= cos p2)%R) by (apply cos_ge_0; lra).
  assert (Hd : (math_radians (lat2 - lat1) / 2.0 = (p2 - p1) / 2)%R).
  { unfold p1, p2, math_radians. lra. }
  rewrite Hd.
  set (s := sin ((p2 - p1) / 2)).
  set (t := sin (math_radians (lon2 - lon1) / 2.0)).
  assert (Ht : (-1 <= t <= 1)%R) by apply SIN_bound.
  assert (Ht2 : (0 <= t ^ 2 <= 1)%R) by (split; nra).
  assert (Hs2 : (0 <= s ^ 2)%R) by nra.
  assert (Hcc : (0 <= cos p1 * cos p2)%R) by nra.
  split; [nra |].
  (* sin^2((p2-p1)/2) = (1 - cos (p2 - p1)) / 2 *)
  assert (Hhalf : (s ^ 2 = (1 - cos (p2 - p1)) / 2)%R).
  { pose proof (cos_2a_sin ((p2 - p1) / 2)) as Hc.
    replace (2 * ((p2 - p1) / 2))%R with (p2 - p1)%R in Hc by lra.
    unfold s. rewrite Hc. simpl. lra. }
  pose proof (cos_minus p2 p1) as Hm.
  pose proof (cos_plus p2 p1) as Hpl.
  pose proof (COS_bound (p2 + p1)) as [_ Hub].
  rewrite Hhalf, Hm.
  assert (Hle : (cos p1 * cos p2 * t ^ 2 <= cos p1 * cos p2)%R) by nra.
  nra.
Qed.

Lemma haversine_sym (lat1 lon1 lat2 lon2 : R) :
  _haversine_km lat1 lon1 lat2 lon2 = _haversine_km lat2 lon2 lat1 lon1.
Proof.
  unfold _haversine_km. cbv zeta.
  rewrite (haversine_arg_sym lat1 lon1 lat2 lon2). reflexivity.
Qed.

Lemma haversine_same_point (lat lon : R) : _haversine_km lat lon lat lon = Py.Ok 0%R.
Proof.
  unfold _haversine_km, math_radians. cbv zeta.
  replace ((lat - lat) * (PI / 180) / 2.0)%R with 0%R by lra.
  replace ((lon - lon) * (PI / 180) / 2.0)%R with 0%R by lra.
  rewrite sin_0.
  replace (0 ^ 2 + cos (lat * (PI / 180)) * cos (lat * (PI / 180)) * 0 ^ 2)%R
    with 0%R by (simpl; lra).
  unfold math_sqrt. destruct (Rle_dec 0 0) as [_ | Hn]; [| lra].
  simpl. rewrite sqrt_0. unfold math_asin.
  destruct (Rle_dec (-1) 0) as [_ | Hn]; [| lra].
  destruct (Rle_dec 0 1) as [_ | Hn]; [| lra].
  simpl. rewrite asin_0. f_equal. lra.
Qed.

Lemma haversine_valid_latitudes (lat1 lon1 lat2 lon2 : R) :
  (-90 <= lat1 <= 90)%R -> (-90 <= lat2 <= 90)%R ->
  exists d, _haversine_km lat1 lon1 lat2 lon2 = Py.Ok d /\
            (0 <= d <= 6371 * PI)%R.
Proof.
  intros H1 H2.
  pose proof (haversine_arg_range lat1 lon1 lat2 lon2 H1 H2) as [Hlo Hhi].
  unfold _haversine_km. cbv zeta.
  set (a := (sin (math_radians (lat2 - lat1) / 2.0) ^ 2
             + cos (math_radians lat1) * cos (math_radians lat2)
               * sin (math_radians (lon2 - lon1) / 2.0) ^ 2)%R) in *.
  unfold math_sqrt. destruct (Rle_dec 0 a) as [_ | Hn]; [| contradiction].
  simpl.
  assert (Hr : (0 <= sqrt a <= 1)%R).
  { split; [apply sqrt_pos |].
    rewrite <- sqrt_1. apply sqrt_le_1; lra. }
  unfold math_asin.
  destruct (Rle_dec (-1) (sqrt a)) as [_ | Hn]; [| lra].
  destruct (Rle_dec (sqrt a) 1) as [_ | Hn]; [| lra].
  simpl. eexists. split; [reflexivity |].
  pose proof (asin_nonneg (sqrt a) Hr) as Hge.
  pose proof (asin_bound (sqrt a)) as [_ Hle].
  pose proof PI_RGT_0 as Hpi.
  split; nra.
Qed.

(** X13. The great-circle distance does not depend on the order of the
    two points and is 0 from a point to itself; for latitudes between -90
    and 90 degrees it is always computed (no domain error), is never
    negative and never exceeds half the circumference, [6371 * PI]
    kilometres. *)
Theorem haversine_distance (lat1 lon1 lat2 lon2 : R) :
  _haversine_km lat1 lon1 lat2 lon2 = _haversine_km lat2 lon2 lat1 lon1 /\
  _haversine_km lat1 lon1 lat1 lon1 = Py.Ok 0%R /\
  ((-90 <= lat1 <= 90)%R -> (-90 <= lat2 <= 90)%R ->
   exists d, _haversine_km lat1 lon1 lat2 lon2 = Py.Ok d /\
             (0 <= d <= 6371 * PI)%R).
Proof.
  split; [apply haversine_sym |].
  split; [apply haversine_same_point | apply haversine_valid_latitudes].
Qed.

Section Net.
Context `{IpAddress}.
Variable ip_network : string -> option ip_net.
Variable is_private : ip_addr -> bool.
Variable GEO_PROVIDER : string.
Variable _geo_ipinfo : string -> R * R * string.
Variable _geo_maxmind : string -> R * R * string.
Variable TRUSTED_PROXIES : list string.

Lemma forwarded_ip_valid (req : Request) (hs : list string) (ip : string) :
  forwarded_ip hs req = Some ip -> is_Some (ip_address ip).
Proof.
  induction hs as [| h rest IH]; simpl; [discriminate |].
  destruct (headers req !! h) as [v |]; [| exact IH].
  destruct (String.eqb v ""); [exact IH |].
  destruct (ip_address (strip (hd EmptyString (split_comma v)))) eqn:Hip;
    [| exact IH].
  intros [= <-]. rewrite Hip. eauto.
Qed.

(** X14. The client address is the peer of the connection unless that
    peer is a trusted proxy: with no trusted proxy configured, or from any
    other peer, the forwarding headers are ignored.  Whatever the headers
    hold, the result is the peer or a string that parses as an address;
    and behind a trusted proxy a valid first entry of [x-forwarded-for]
    is the answer. *)
Theorem client_ip_trust (req : Request) :
  let peer := default "0.0.0.0"%string (client_host req) in
  let ip := _client_ip ip_network TRUSTED_PROXIES req in
  (TRUSTED_PROXIES = [] -> ip = peer) /\
  (_ip_in_trusted ip_network TRUSTED_PROXIES peer = false -> ip = peer) /\
  (ip = peer \/ is_Some (ip_address ip)) /\
  (forall v,
     _ip_in_trusted ip_network TRUSTED_PROXIES peer = true ->
     headers req !! "x-forwarded-for" = Some v -> v <> ""%string ->
     is_Some (ip_address (strip (hd EmptyString (split_comma v)))) ->
     ip = strip (hd EmptyString (split_comma v))).
Proof.
  intros peer ip. unfold ip, _client_ip. fold peer.
  split; [| split; [| split]].
  - intros Hnone. unfold _ip_in_trusted. rewrite Hnone. reflexivity.
  - intros ->. reflexivity.
  - destruct (_ip_in_trusted ip_network TRUSTED_PROXIES peer); [| left; reflexivity].
    destruct (forwarded_ip _TRUSTED_PROXY_HEADERS req) as [fwd |] eqn:Hf;
      [| left; reflexivity].
    right. exact (forwarded_ip_valid req _ fwd Hf).
  - intros v -> Hv Hne [a Ha].
    unfold _TRUSTED_PROXY_HEADERS. cbn [forwarded_ip]. rewrite Hv.
    destruct (String.eqb_spec v "") as [Hv0 | _]; [contradiction |].
    rewrite Ha. reflexivity.
Qed.

Lemma last_two_of_candidate (pre post : list LoginEvent) (prev cand : LoginEvent) :
  ev_success prev = true -> ev_success cand = true ->
  Forall (fun r => ev_success r = false) post ->
  _last_two_success ((pre ++ prev :: post) ++ [cand]) = [prev; cand].
Proof.
  intros Hprev Hcand Hpost. unfold _last_two_success.
  assert (Hf : List.filter ev_success ((pre ++ prev :: post) ++ [cand])
               = List.filter ev_success pre ++ [prev; cand]).
  { rewrite !List.filter_app. simpl. rewrite Hprev, Hcand.
    assert (Hnil : List.filter ev_success post = []).
    { clear -Hpost. induction post as [| r rest IH]; [reflexivity |].
      inversion Hpost as [| ? ? Hr Hrest]; subst. simpl. rewrite Hr. auto. }
    rewrite Hnil. rewrite <- app_assoc. reflexivity. }
  rewrite Hf. rewrite length_app. simpl length.
  destruct (Nat.leb_spec 2 (length (List.filter ev_success pre) + 2)) as [_ | Hlt];
    [| lia].
  replace (length (List.filter ev_success pre) + 2 - 2)%nat
    with (length (List.filter ev_success pre)) by lia.
  apply drop_app_length.
Qed.

Lemma last_two_no_success (recent : list LoginEvent) (cand : LoginEvent) :
  ev_success cand = true ->
  Forall (fun r => ev_success r = false) recent ->
  _last_two_success (recent ++ [cand]) = [cand].
Proof.
  intros Hcand Hall. unfold _last_two_success.
  rewrite List.filter_app. simpl. rewrite Hcand.
  assert (Hnil : List.filter ev_success recent = []).
  { induction recent as [| r rest IH]; [reflexivity |].
    inversion Hall as [| ? ? Hr Hrest]; subst. simpl. rewrite Hr. auto. }
  rewrite Hnil. reflexivity.
Qed.

Lemma geo_for_private (ip : string) :
  _is_private is_private ip = true ->
  _geo_for_ip is_private GEO_PROVIDER _geo_ipinfo _geo_maxmind ip
  = (0.0%R, 0.0%R, "Unknown"%string).
Proof. intros Hp. unfold _geo_for_ip. rewrite Hp. reflexivity. Qed.

(** X15. Impossible travel needs two places: the first successful login
    of an account has no speed at all, and when the previous successful
    login and the present one resolve to the same coordinates (as all
    private, loopback and unresolvable addresses do) the speed is 0,
    however close together the two logins are.  In both cases the
    [impossible_travel] feature is 0. *)
Theorem login_speed_same_place (recent : list LoginEvent) (ip : string)
    (device_hash : option string) (now : Py.datetime) :
  let geo := _geo_for_ip is_private GEO_PROVIDER _geo_ipinfo _geo_maxmind in
  let speed :=
    login_speed is_private GEO_PROVIDER _geo_ipinfo _geo_maxmind
      (recent ++ [candidate_event ip device_hash now]) in
  (Forall (fun r => ev_success r = false) recent -> speed = Py.Ok None) /\
  (forall pre prev post,
     recent = pre ++ prev :: post -> ev_success prev = true ->
     Forall (fun r => ev_success r = false) post ->
     fst (geo (ip_or_loopback (ev_ip prev))) = fst (geo (ip_or_loopback (Some ip))) ->
     speed = Py.Ok (Some 0%R)) /\
  (forall s login_cities login_hours_hist device_trust ip_city is_private_ip
          known_device ip_changed consecutive_fails last_success_ts,
     speed = Py.Ok s -> s = None \/ s = Some 0%R ->
     feature
       (fst (login_features (recent ++ [candidate_event ip device_hash now])
               login_cities login_hours_hist device_trust ip_city is_private_ip
               device_hash known_device ip_changed consecutive_fails now
               last_success_ts s))
       "impossible_travel" = Some 0%R).
Proof.
  intros geo speed. split; [| split].
  - intros Hall. unfold speed, login_speed.
    rewrite (last_two_no_success recent (candidate_event ip device_hash now) eq_refl Hall).
    reflexivity.
  - intros pre prev post -> Hprev Hpost Hgeo.
    unfold speed, login_speed.
    rewrite (last_two_of_candidate pre post prev (candidate_event ip device_hash now)
               Hprev eq_refl Hpost).
    fold geo. cbn [ev_ip candidate_event ev_ts].
    destruct (geo (ip_or_loopback (ev_ip prev))) as [[lat1 lon1] c1].
    destruct (geo (ip_or_loopback (Some ip))) as [[lat2 lon2] c2].
    cbn [fst] in Hgeo. injection Hgeo as <- <-.
    rewrite haversine_same_point.
    simpl. f_equal. f_equal. unfold Rdiv. apply Rmult_0_l.
  - intros s login_cities login_hours_hist device_trust ip_city is_private_ip
      known_device ip_changed consecutive_fails last_success_ts _ Hs.
    unfold login_features.
    destruct (negb (is_private_ip || String.eqb ip_city "Unknown")
              && (1 <=? count_successes (all_but_last
                          (recent ++ [candidate_event ip device_hash now]))));
      destruct (3 <=? count_successes (all_but_last
                          (recent ++ [candidate_event ip device_hash now])));
      cbn [fst]; unfold feature; cbn [List.find fst snd String.eqb Ascii.eqb Bool.eqb];
      cbv iota; simpl fmap;
      (destruct Hs as [-> | ->];
       [f_equal; lra
       | destruct (Rlt_dec 750.0 0) as [Hlt | _]; [exfalso; lra | f_equal; lra]]).
Qed.

End Net.

End MainNetFacts.

Module MainIntelFacts.

Import RiskEngine Main MainNet MainIntel PyFacts RiskEngineFacts MainFacts.

Lemma stats_of_learn_other (db : gmap Z UserIntel) (user_id : Z) (amount : R)
    (category category' : string) (merchant : option string) :
  category <> category' ->
  stats_of (_learn_tx db user_id amount category merchant) user_id category'
  = stats_of db user_id category'.
Proof.
  intros Hne. unfold stats_of, _learn_tx, _get_or_create_intel.
  destruct (db !! user_id) as [intel |] eqn:Hdb.
  - rewrite lookup_insert_eq. unfold learn_tx_intel. simpl.
    unfold Py.get at 1. rewrite lookup_insert_ne by exact Hne. reflexivity.
  - rewrite lookup_insert_eq. unfold learn_tx_intel. simpl.
    unfold Py.get at 1. rewrite lookup_insert_ne by exact Hne.
    reflexivity.
Qed.

Lemma stats_of_add_txs (category : string) (txs : list Transaction) :
  forall (db : gmap Z UserIntel) (user_id : Z),
    stats_of (add_txs db user_id txs) user_id category
    = fold_left learn_stats (category_amounts category txs)
        (stats_of db user_id category).
Proof.
  unfold add_txs, category_amounts.
  induction txs as [| tx rest IH]; intros db user_id; [reflexivity |].
  simpl fold_left at 1. rewrite IH. simpl List.filter.
  unfold add_tx.
  destruct (String.eqb_spec (Py.upper (t_category tx)) category) as [<- | Hne].
  - simpl. rewrite stats_of_learn. reflexivity.
  - rewrite stats_of_learn_other by exact Hne. reflexivity.
Qed.

Lemma learn_stats_n (amounts : list R) :
  forall s, n (fold_left learn_stats amounts s) = n s + Z.of_nat (length amounts).
Proof.
  induction amounts as [| a rest IH]; intros s; simpl; [lia |].
  rewrite IH. unfold learn_stats.
  destruct (n s =? 0); simpl; lia.
Qed.

Lemma learn_stats_step_bounds (s : CatStats) (a lo hi : R) :
  0 <= n s -> (0 <= mad s)%R ->
  (n s = 0 \/ (lo <= median s <= hi)%R) ->
  (lo <= a <= hi)%R ->
  let s' := learn_stats s a in
  0 < n s' /\ (0 <= mad s')%R /\ (lo <= median s' <= hi)%R.
Proof.
  intros Hn Hmad Hmed Ha. unfold learn_stats.
  destruct (Z.eqb_spec (n s) 0) as [Hz | Hnz]; simpl.
  - split; [lia |]. split; lra.
  - destruct Hmed as [Hz | Hmed]; [contradiction |].
    split; [lia |].
    pose proof (Rabs_pos (a - ((1 - 0.1) * median s + 0.1 * a))) as Habs.
    split; [nra | split; nra].
Qed.

Lemma learn_stats_bounds (amounts : list R) (lo hi : R) :
  forall s,
    0 <= n s -> (0 <= mad s)%R ->
    (n s = 0 \/ (lo <= median s <= hi)%R) ->
    Forall (fun a => (lo <= a <= hi)%R) amounts ->
    let s' := fold_left learn_stats amounts s in
    (0 <= mad s')%R /\ (0 < n s' -> n s = 0 \/ (lo <= median s <= hi)%R ->
                        amounts <> [] \/ 0 < n s -> (lo <= median s' <= hi)%R).
Proof.
  induction amounts as [| a rest IH]; intros s Hn Hmad Hmed Hall; simpl.
  - split; [exact Hmad |]. intros Hpos _ [Hne | Hpos']; [congruence |].
    destruct Hmed as [Hz | Hmed]; [lia | exact Hmed].
  - inversion Hall as [| ? ? Ha Hrest]; subst.
    destruct (learn_stats_step_bounds s a lo hi Hn Hmad Hmed Ha) as (Hn1 & Hmad1 & Hmed1).
    assert (Hn1' : 0 <= n (learn_stats s a)) by lia.
    destruct (IH (learn_stats s a) Hn1' Hmad1 (or_intror Hmed1) Hrest) as [Hm Hb].
    split; [exact Hm |]. intros Hpos _ _. apply Hb; auto.
Qed.

Lemma merchant_count_learn (db : gmap Z UserIntel) (user_id : Z) (amount : R)
    (category key : string) (merchant : option string) :
  merchant_count (_learn_tx db user_id amount category merchant) user_id key
  = merchant_count db user_id key
    + (if str_truthy merchant && String.eqb (Py.lower (str_or_empty merchant)) key
       then 1 else 0).
Proof.
  unfold merchant_count, _learn_tx, _get_or_create_intel.
  destruct (db !! user_id) as [intel |] eqn:Hdb; rewrite lookup_insert_eq;
    unfold learn_tx_intel; cbn [tx_merchant_counts new_intel];
    destruct (str_truthy merchant); simpl; try lia;
    destruct (String.eqb_spec (Py.lower (str_or_empty merchant)) key) as [<- | Hne];
    unfold Py.get;
    rewrite ?lookup_insert_eq, ?lookup_insert_ne by exact Hne;
    simpl; try rewrite lookup_empty; simpl; lia.
Qed.

Lemma or_None_truthy (m : option string) :
  str_truthy (or_None m) = str_truthy m /\
  str_or_empty (or_None m) = str_or_empty m.
Proof.
  unfold or_None, str_or_empty.
  destruct (str_truthy m) eqn:Hm; [rewrite Hm; split; reflexivity |].
  split; reflexivity.
Qed.

Lemma merchant_count_add_txs (key : string) (txs : list Transaction) :
  forall (db : gmap Z UserIntel) (user_id : Z),
    merchant_count (add_txs db user_id txs) user_id key
    = merchant_count db user_id key + merchant_uses key txs.
Proof.
  unfold add_txs, merchant_uses.
  induction txs as [| tx rest IH]; intros db user_id; simpl; [lia |].
  rewrite IH. unfold add_tx. rewrite merchant_count_learn.
  destruct (or_None_truthy (t_merchant tx)) as [-> ->].
  destruct (str_truthy (t_merchant tx)
            && String.eqb (Py.lower (str_or_empty (t_merchant tx))) key);
    simpl length; lia.
Qed.

Lemma add_txs_other_user (txs : list Transaction) :
  forall (db : gmap Z UserIntel) (user_id other : Z),
    other <> user_id -> add_txs db user_id txs !! other = db !! other.
Proof.
  unfold add_txs.
  induction txs as [| tx rest IH]; intros db user_id other Hne; [reflexivity |].
  simpl. rewrite IH by exact Hne.
  unfold add_tx, _learn_tx, _get_or_create_intel.
  destruct (db !! user_id); rewrite ?lookup_insert_ne by congruence;
    reflexivity.
Qed.

(** X16. After any sequence of added transactions, starting from a user
    without a profile, the profile holds for every category (named in any
    case of ASCII letters) the number of its transactions, a MAD that is
    not negative and a median inside the range of its amounts, and for
    every merchant (in any case of ASCII letters) the number of
    transactions that named it; the profiles of other users are not
    touched.  Floats are real numbers here: the bound on the median is
    that of the exact weighted average, which binary64 rounding can leave
    by a rounding error (two amounts of 13.0 give 13.000000000000002). *)
Theorem learned_profile (db : gmap Z UserIntel) (user_id : Z)
    (txs : list Transaction) (category key : string) (lo hi : R)
    (Hnew : db !! user_id = None)
    (Hrange : Forall (fun a => (lo <= a <= hi)%R) (category_amounts category txs)) :
  let db' := add_txs db user_id txs in
  let s := stats_of db' user_id category in
  n s = Z.of_nat (length (category_amounts category txs)) /\
  (0 <= mad s)%R /\
  (category_amounts category txs <> [] -> (lo <= median s <= hi)%R) /\
  merchant_count db' user_id key = merchant_uses key txs /\
  (forall other, other <> user_id -> db' !! other = db !! other).
Proof.
  intros db' s. unfold s, db'.
  rewrite stats_of_add_txs, merchant_count_add_txs.
  assert (Hs0 : stats_of db user_id category = zero_stats).
  { unfold stats_of. rewrite Hnew. reflexivity. }
  assert (Hm0 : merchant_count db user_id key = 0).
  { unfold merchant_count. rewrite Hnew. reflexivity. }
  rewrite Hs0, Hm0.
  split; [rewrite learn_stats_n; simpl; lia |].
  destruct (learn_stats_bounds (category_amounts category txs) lo hi zero_stats)
    as [Hmad Hmed]; simpl; try lia; try lra; auto.
  split; [exact Hmad |].
  split.
  - intros Hne. apply Hmed; auto.
    rewrite learn_stats_n. simpl.
    destruct (category_amounts category txs); [congruence | simpl; lia].
  - split; [lia |]. intros other Hother. apply add_txs_other_user. exact Hother.
Qed.

Lemma trunc_nonneg (x : R) : (0 <= x)%R -> 0 <= Py.trunc x.
Proof.
  intros Hx. unfold Py.trunc. destruct (Rle_dec 0 x) as [_ | Hn]; [| contradiction].
  rewrite <- (floor_IZR 0). apply floor_mono. exact Hx.
Qed.

Lemma tx_z_nonneg (amt med mad : R) :
  (0 <= (if Rle_dec mad 1e-6 then 0.0 else Rabs (amt - med) / mad) * 12)%R.
Proof.
  destruct (Rle_dec mad 1e-6) as [_ | Hgt]; [lra |].
  pose proof (Rabs_pos (amt - med)) as Habs.
  assert (Hmad : (0 < mad)%R) by lra.
  assert (Hdiv : (0 <= Rabs (amt - med) / mad)%R).
  { apply Rmult_le_pos; [exact Habs |]. left. apply Rinv_0_lt_compat. exact Hmad. }
  lra.
Qed.

Section Score.
Variable format_1f : R -> string.
Variable round_2 : R -> R.

(** X17. A transaction score lies between 0 and 100 and has at most three
    reasons; the deviation of the amount counts for at most 70 points and
    only for a category with at least five learned transactions and a MAD
    above one millionth, so that without it the score is at most 30; an
    amount that is not positive earns no merchant and no currency
    points. *)
Theorem score_tx_range (intel : UserIntel) (payload : TxScoreIn) :
  let out := _score_tx format_1f round_2 intel payload in
  let total := fst (fst out) in
  let s := Py.get (tx_category_stats intel) (Py.upper (in_category payload))
             zero_stats in
  0 <= total <= 100 /\
  (length (snd (fst out)) <= 3)%nat /\
  (n s < 5 \/ (mad s <= 1e-6)%R -> total <= 30) /\
  ((in_amount payload <= 0)%R -> total <= 70).
Proof.
  intros out total s. unfold total, out, _score_tx. fold s.
  pose proof (tx_z_nonneg (in_amount payload) (median s) (mad s)) as Hz.
  pose proof (trunc_nonneg _ Hz) as Ht.
  set (z := if Rle_dec (mad s) 1e-6 then 0.0%R
            else (Rabs (in_amount payload - median s) / mad s)%R) in *.
  assert (Hz0 : (mad s <= 1e-6)%R -> Py.trunc (z * 12) = 0).
  { intros Hm. unfold z. destruct (Rle_dec (mad s) 1e-6) as [_ | Hn]; [| contradiction].
    replace (0.0 * 12)%R with (IZR 0) by lra. apply trunc_IZR. }
  unfold Rleb, Rltb.
  destruct (Z.leb_spec 5 (n s)) as [Hn5 | Hn5];
    destruct (negb (String.eqb (Py.lower (str_or_empty (in_merchant payload))) ""));
    destruct (Py.get (tx_merchant_counts intel)
                (Py.lower (str_or_empty (in_merchant payload))) 0 =? 0);
    destruct (Py.get (tx_merchant_counts intel)
                (Py.lower (str_or_empty (in_merchant payload))) 0 <=? 2);
    destruct (Rle_dec 100 (in_amount payload));
    destruct (Rle_dec 250 (in_amount payload));
    destruct (negb (str_in (Py.upper (in_currency payload)) COMMON_CURRENCIES));
    destruct (Rlt_dec 0 (in_amount payload));
    cbn [andb fst snd length app];
    (split; [lia |]); (split; [lia |]);
    (split; [intros [Hlt | Hm]; [lia | try specialize (Hz0 Hm); lia]
            | intros Hamt; try lra; lia]).
Qed.

(** X18. What has been learned is taken into account when a transaction
    is scored, whatever the case of letters: a merchant named by at least
    one earlier transaction is never scored as new, one named by three or
    more is neither new nor rare, and a category with fewer than five
    earlier transactions earns no deviation points, so that the score is
    at most 30. *)
Theorem score_after_learning (db : gmap Z UserIntel) (user_id : Z)
    (txs : list Transaction) (intel : UserIntel) (payload : TxScoreIn)
    (Hnew : db !! user_id = None)
    (Hintel : add_txs db user_id txs !! user_id = Some intel) :
  let out := _score_tx format_1f round_2 intel payload in
  let uses := merchant_uses (Py.lower (str_or_empty (in_merchant payload))) txs in
  (1 <= uses -> ~ In "new_merchant +20"%string (snd (fst out))) /\
  (3 <= uses -> ~ In "new_merchant +20"%string (snd (fst out)) /\
                ~ In "rare_merchant +10"%string (snd (fst out))) /\
  ((length (category_amounts (Py.upper (in_category payload)) txs) < 5)%nat ->
   fst (fst out) <= 30).
Proof.
  intros out uses.
  assert (Hcount : Py.get (tx_merchant_counts intel)
                     (Py.lower (str_or_empty (in_merchant payload))) 0 = uses).
  { pose proof (merchant_count_add_txs
                  (Py.lower (str_or_empty (in_merchant payload))) txs db user_id) as Hc.
    unfold merchant_count in Hc. rewrite Hintel, Hnew in Hc. exact Hc. }
  assert (Hn : n (Py.get (tx_category_stats intel) (Py.upper (in_category payload))
                    zero_stats)
               = Z.of_nat (length (category_amounts (Py.upper (in_category payload)) txs))).
  { pose proof (stats_of_add_txs (Py.upper (in_category payload)) txs db user_id) as Hs.
    unfold stats_of in Hs. rewrite Hintel, Hnew in Hs. rewrite Hs.
    rewrite learn_stats_n. simpl. lia. }
  assert (Hparts : forall (dev : list string),
            Forall (fun p => exists r, p = String.append "amount_deviation(z≈" r) dev ->
            forall q, In q dev -> q <> "new_merchant +20"%string
                                  /\ q <> "rare_merchant +10"%string).
  { intros dev Hdev q Hq. rewrite List.Forall_forall in Hdev.
    destruct (Hdev q Hq) as [r ->]. split; discriminate. }
  unfold out, _score_tx. rewrite Hcount, Hn.
  set (s := Py.get (tx_category_stats intel) (Py.upper (in_category payload)) zero_stats).
  pose proof (tx_z_nonneg (in_amount payload) (median s) (mad s)) as Hz.
  pose proof (trunc_nonneg _ Hz) as Ht.
  set (z := if Rle_dec (mad s) 1e-6 then 0.0%R
            else (Rabs (in_amount payload - median s) / mad s)%R) in *.
  set (tok := String.append "amount_deviation(z≈"
                (String.append (format_1f z)
                   (String.append ") +" (pretty (Z.min (Py.trunc (z * 12)) 70))))).
  assert (Htok : tok <> "new_merchant +20"%string /\ tok <> "rare_merchant +10"%string).
  { unfold tok. split; discriminate. }
  destruct Htok as [Htok1 Htok2].
  unfold Rleb, Rltb.
  destruct (Z.leb_spec 5
              (Z.of_nat (length (category_amounts (Py.upper (in_category payload)) txs))))
    as [Hn5 | Hn5];
    destruct (negb (String.eqb (Py.lower (str_or_empty (in_merchant payload))) ""));
    destruct (Z.eqb_spec uses 0);
    destruct (Z.leb_spec uses 2);
    destruct (Rle_dec 100 (in_amount payload));
    destruct (Rle_dec 250 (in_amount payload));
    destruct (negb (str_in (Py.upper (in_currency payload)) COMMON_CURRENCIES));
    destruct (Rlt_dec 0 (in_amount payload));
    cbn [andb fst snd app];
    (split; [intros Hu; try lia; simpl; intuition congruence |]);
    (split; [intros Hu; try lia; simpl; intuition congruence |]);
    intros Hlen; lia.
Qed.

End Score.

Section Login.
Context `{ThreatIntel.IpAddress}.
Variable is_private : ThreatIntel.ip_addr -> bool.
Variable GEO_PROVIDER : string.
Variable _geo_ipinfo : string -> R * R * string.
Variable _geo_maxmind : string -> R * R * string.

(** X19. A login that has been learned makes its hour and its city
    familiar: the profile counts one more login at that hour of the day
    and in that city and leaves the other hours, the other cities and the
    transaction statistics as they were; from then on (counts are never
    negative) a login at the same hour is never an [odd_hour] and a login
    from the same city is never a [new_city]. *)
Theorem learn_login_familiar (db : gmap Z UserIntel) (user_id : Z)
    (devices : gmap string bool) (ip : string) (device_hash : option string)
    (when : Py.datetime) :
  let old := fst (_get_or_create_intel db user_id) in
  let city := snd (_geo_for_ip is_private GEO_PROVIDER _geo_ipinfo _geo_maxmind
                     (ip_or_loopback (Some ip))) in
  let hh := pretty (Py.hour when) in
  exists intel,
    _learn_login is_private GEO_PROVIDER _geo_ipinfo _geo_maxmind
      db user_id devices ip device_hash when !! user_id = Some intel /\
    Py.get (login_hours_hist intel) hh 0 = Py.get (login_hours_hist old) hh 0 + 1 /\
    Py.get (login_cities intel) city 0 = Py.get (login_cities old) city 0 + 1 /\
    (forall h, h <> hh -> login_hours_hist intel !! h = login_hours_hist old !! h) /\
    (forall c, c <> city -> login_cities intel !! c = login_cities old !! c) /\
    tx_category_stats intel = tx_category_stats old /\
    tx_merchant_counts intel = tx_merchant_counts old /\
    (forall recent_rows device_trust ip_city is_private_ip dh known_device
            ip_changed consecutive_fails now last_success_ts speed_kmh,
       let f := fst (login_features recent_rows (login_cities intel)
                       (login_hours_hist intel) device_trust ip_city is_private_ip
                       dh known_device ip_changed consecutive_fails now
                       last_success_ts speed_kmh) in
       (0 <= Py.get (login_hours_hist old) hh 0 -> Py.hour now = Py.hour when ->
        feature f "odd_hour" = Some 0%R) /\
       (0 <= Py.get (login_cities old) city 0 -> ip_city = city ->
        feature f "new_city" = Some 0%R)).
Proof.
  intros old city hh.
  exists (learn_login_intel is_private GEO_PROVIDER _geo_ipinfo _geo_maxmind
            old devices ip device_hash when).
  assert (Hdb : _learn_login is_private GEO_PROVIDER _geo_ipinfo _geo_maxmind
                  db user_id devices ip device_hash when !! user_id
                = Some (learn_login_intel is_private GEO_PROVIDER _geo_ipinfo
                          _geo_maxmind old devices ip device_hash when)).
  { unfold _learn_login, old, _get_or_create_intel.
    destruct (db !! user_id); simpl; apply lookup_insert_eq. }
  split; [exact Hdb |].
  unfold learn_login_intel. fold city. fold hh.
  cbn [login_hours_hist login_cities tx_category_stats tx_merchant_counts].
  assert (Hh : Py.get (<[hh := Py.get (login_hours_hist old) hh 0 + 1]>
                         (login_hours_hist old)) hh 0
               = Py.get (login_hours_hist old) hh 0 + 1).
  { unfold Py.get at 1. rewrite lookup_insert_eq. reflexivity. }
  assert (Hc : Py.get (<[city := Py.get (login_cities old) city 0 + 1]>
                         (login_cities old)) city 0
               = Py.get (login_cities old) city 0 + 1).
  { unfold Py.get at 1. rewrite lookup_insert_eq. reflexivity. }
  split; [exact Hh |]. split; [exact Hc |].
  split; [intros h Hne; apply lookup_insert_ne; congruence |].
  split; [intros c Hne; apply lookup_insert_ne; congruence |].
  split; [reflexivity |]. split; [reflexivity |].
  intros recent_rows device_trust ip_city is_private_ip dh known_device
    ip_changed consecutive_fails now last_success_ts speed_kmh.
  destruct (login_features_city_hour_values recent_rows
              (<[city := Py.get (login_cities old) city 0 + 1]> (login_cities old))
              (<[hh := Py.get (login_hours_hist old) hh 0 + 1]> (login_hours_hist old))
              device_trust ip_city is_private_ip dh known_device ip_changed
              consecutive_fails now last_success_ts speed_kmh)
    as (Hnew & _ & Hodd & _).
  cbv zeta in Hnew, Hodd.
  split.
  - intros Hpos Hhour. rewrite Hodd. rewrite Hhour. fold hh. rewrite Hh.
    destruct (Z.eqb_spec (Py.get (login_hours_hist old) hh 0 + 1) 0) as [Hz | _];
      [lia |].
    rewrite andb_false_r. unfold flag. f_equal. lra.
  - intros Hpos ->. rewrite Hnew. rewrite Hc.
    destruct (Z.eqb_spec (Py.get (login_cities old) city 0 + 1) 0) as [Hz | _];
      [lia |].
    rewrite andb_false_r. unfold flag. f_equal. lra.
Qed.

End Login.

End MainIntelFacts.

Module MainStatsFacts.

Import MainStats PyFacts.

#[local] Instance Rle_total : Total Rle.
Proof. intros x y. destruct (Rle_dec x y); [left; assumption | right; lra]. Qed.

#[local] Instance Rle_transitive : Transitive Rle.
Proof. intros x y z. apply Rle_trans. Qed.

#[local] Instance Rle_antisymm : AntiSymm eq Rle.
Proof. intros x y. apply Rle_antisym. Qed.

Lemma sorted_Permutation (xs : list R) : sorted xs ≡ₚ xs.
Proof. apply merge_sort_Permutation. Qed.

Lemma sorted_length (xs : list R) : length (sorted xs) = length xs.
Proof. apply Permutation_length, sorted_Permutation. Qed.

Lemma sorted_StronglySorted (xs : list R) : StronglySorted Rle (sorted xs).
Proof. apply (StronglySorted_merge_sort Rle). Qed.

Lemma sorted_invariant (xs ys : list R) : xs ≡ₚ ys -> sorted xs = sorted ys.
Proof.
  intros Hp. apply (StronglySorted_unique Rle); try apply sorted_StronglySorted.
  rewrite !sorted_Permutation. exact Hp.
Qed.

Lemma getitem_in_range (s : list R) (i : Z) :
  0 <= i < len s -> exists x, getitem s i = Py.Ok x /\ s !! Z.to_nat i = Some x.
Proof.
  intros [Hlo Hhi]. unfold getitem.
  destruct (Z.ltb_spec i 0) as [Hneg | _]; [lia |].
  destruct (Z.leb_spec 0 i) as [_ | Hneg]; [| lia].
  destruct (s !! Z.to_nat i) as [x |] eqn:Hx; [eauto |].
  apply lookup_ge_None in Hx. unfold len in Hhi. lia.
Qed.

Lemma lookup_bounds (s : list R) (i : nat) (x lo hi : R) :
  Forall (fun y => (lo <= y <= hi)%R) s -> s !! i = Some x -> (lo <= x <= hi)%R.
Proof.
  intros Hall Hx. rewrite List.Forall_forall in Hall. apply Hall.
  apply list_elem_of_In. eapply list_elem_of_lookup_2. exact Hx.
Qed.

Lemma sorted_bounds (xs : list R) (lo hi : R) :
  Forall (fun y => (lo <= y <= hi)%R) xs ->
  Forall (fun y => (lo <= y <= hi)%R) (sorted xs).
Proof. intros Hall. rewrite sorted_Permutation. exact Hall. Qed.

Lemma median_value (xs : list R) :
  xs <> [] ->
  exists v, _median xs = Py.Ok v /\
            forall lo hi, Forall (fun y => (lo <= y <= hi)%R) xs -> (lo <= v <= hi)%R.
Proof.
  intros Hne. unfold _median.
  destruct xs as [| x0 rest]; [congruence |].
  set (xs := x0 :: rest) in *.
  assert (Hlen : 0 < len (sorted xs)).
  { unfold len. rewrite sorted_length. simpl. lia. }
  cbv zeta.
  destruct (Z.eqb_spec (len (sorted xs) mod 2) 0) as [Heven | Hodd]; simpl negb; cbv iota.
  - assert (H2 : 2 <= len (sorted xs)).
    { destruct (Z.eq_dec (len (sorted xs)) 1) as [H1 | H1];
        [rewrite H1 in Heven; discriminate | lia]. }
    destruct (getitem_in_range (sorted xs) (len (sorted xs) / 2 - 1))
      as (a & -> & Ha).
    { split; Z.div_mod_to_equations; lia. }
    destruct (getitem_in_range (sorted xs) (len (sorted xs) / 2))
      as (b & -> & Hb).
    { split; Z.div_mod_to_equations; lia. }
    simpl. eexists. split; [reflexivity |].
    intros lo hi Hall. apply sorted_bounds in Hall.
    pose proof (lookup_bounds _ _ _ _ _ Hall Ha).
    pose proof (lookup_bounds _ _ _ _ _ Hall Hb). lra.
  - destruct (getitem_in_range (sorted xs) (len (sorted xs) / 2))
      as (b & -> & Hb).
    { split; Z.div_mod_to_equations; lia. }
    exists b. split; [reflexivity |].
    intros lo hi Hall. apply sorted_bounds in Hall.
    exact (lookup_bounds _ _ _ _ _ Hall Hb).
Qed.

Lemma median_invariant (xs ys : list R) : xs ≡ₚ ys -> _median xs = _median ys.
Proof.
  intros Hp. unfold _median.
  destruct xs as [| x xs']; destruct ys as [| y ys'].
  - reflexivity.
  - apply Permutation_nil_l in Hp. discriminate.
  - apply Permutation_nil_r in Hp. discriminate.
  - rewrite (sorted_invariant _ _ Hp). reflexivity.
Qed.

(** X20. The median of a non-empty list is always computed (no index
    error), lies between any two bounds of the list, and does not depend
    on the order of the list; the MAD is always computed and is never
    negative; both are 0 for the empty list. *)
Theorem median_mad (xs ys : list R) (lo hi : R)
    (Hne : xs <> [])
    (Hperm : xs ≡ₚ ys)
    (Hall : Forall (fun y => (lo <= y <= hi)%R) xs) :
  (exists v, _median xs = Py.Ok v /\ (lo <= v <= hi)%R) /\
  _median xs = _median ys /\
  (exists d, _mad xs None = Py.Ok d /\ (0 <= d)%R) /\
  _mad xs None = _mad ys None /\
  _median [] = Py.Ok 0%R /\ _mad [] None = Py.Ok 0%R.
Proof.
  destruct (median_value xs Hne) as (v & Hv & Hb).
  split; [exists v; split; [exact Hv | apply Hb; exact Hall] |].
  split; [apply median_invariant; exact Hperm |].
  split; [| split].
  - unfold _mad. destruct xs as [| x0 rest] eqn:Hxs; [congruence |].
    rewrite <- Hxs in *. rewrite Hv. simpl Py.bind.
    destruct (median_value (map (fun x => Rabs (x - v)) xs)) as (d & Hd & Hdb).
    { rewrite Hxs. discriminate. }
    rewrite Hd. simpl. eexists. split; [reflexivity |].
    assert (Hd0 : (0 <= d <= d)%R).
    { destruct (Hdb 0%R (Rmax d (fold_right Rmax 0%R (map (fun x => Rabs (x - v)) xs))))
        as [Hlo _]; [| lra].
      apply List.Forall_forall. intros y Hy. split.
      - apply in_map_iff in Hy. destruct Hy as (x & <- & _). apply Rabs_pos.
      - eapply Rle_trans; [| apply Rmax_r].
        clear -Hy. induction (map (fun x => Rabs (x - v)) xs) as [| z l IH];
          [destruct Hy |].
        simpl. destruct Hy as [-> | Hy]; [apply Rmax_l |].
        eapply Rle_trans; [apply IH; exact Hy | apply Rmax_r]. }
    lra.
  - unfold _mad.
    destruct xs as [| x xs'] eqn:Hxs; destruct ys as [| y ys'] eqn:Hys.
    + reflexivity.
    + apply Permutation_nil_l in Hperm. discriminate.
    + apply Permutation_nil_r in Hperm. discriminate.
    + rewrite <- Hxs, <- Hys in *.
      rewrite <- (median_invariant xs ys Hperm).
      destruct (_median xs) as [m | e]; simpl; [| reflexivity].
      rewrite (median_invariant (map (fun x => Rabs (x - m)) xs)
                 (map (fun x => Rabs (x - m)) ys)); [reflexivity |].
      apply Permutation_map. exact Hperm.
  - split; unfold _median, _mad; f_equal; lra.
Qed.

Lemma floor_nonneg (x : R) : (0 <= x)%R -> 0 <= Py.floor x.
Proof. intros Hx. rewrite <- (floor_IZR 0). apply floor_mono. exact Hx. Qed.

(** X21. For a percentage between 0 and 100 the percentile of a non-empty
    list is always computed (no index error), lies between any two bounds
    of the list and does not depend on the order of the list; the
    percentile of the empty list is 0. *)
Theorem percentile_range (xs ys : list R) (p lo hi : R)
    (Hne : xs <> [])
    (Hp : (0 <= p <= 100)%R)
    (Hperm : xs ≡ₚ ys)
    (Hall : Forall (fun y => (lo <= y <= hi)%R) xs) :
  (exists v, _percentile xs p = Py.Ok v /\ (lo <= v <= hi)%R) /\
  _percentile xs p = _percentile ys p /\
  _percentile [] p = Py.Ok 0%R.
Proof.
  split; [| split].
  - unfold _percentile.
    destruct xs as [| x0 rest] eqn:Hxs; [congruence |].
    rewrite <- Hxs in *.
    assert (Hlen : 0 < len (sorted xs)).
    { unfold len. rewrite sorted_length, Hxs. simpl. lia. }
    cbv zeta.
    set (s := sorted xs) in *.
    set (k := (IZR (len s - 1) * (p / 100.0))%R).
    assert (Hn1 : (0 <= IZR (len s - 1))%R) by (apply IZR_le; lia).
    assert (Hk : (0 <= k <= IZR (len s - 1))%R).
    { unfold k. split; nra. }
    assert (Hf0 : 0 <= Py.floor k) by (apply floor_nonneg; lra).
    assert (Hf1 : Py.floor k <= len s - 1).
    { rewrite <- (floor_IZR (len s - 1)). apply floor_mono. lra. }
    pose proof (floor_bounds k) as Hfb.
    pose proof (sorted_bounds xs lo hi Hall) as Hs. fold s in Hs.
    destruct (Z.eqb_spec (Py.floor k) (Z.min (Py.floor k + 1) (len s - 1)))
      as [Heq | Hneq].
    + assert (Hlast : Py.floor k = len s - 1) by lia.
      assert (Hkk : k = IZR (len s - 1)).
      { rewrite Hlast in Hfb. lra. }
      rewrite Hkk, trunc_IZR.
      destruct (getitem_in_range s (len s - 1)) as (v & -> & Hv); [lia |].
      exists v. split; [reflexivity |].
      exact (lookup_bounds _ _ _ _ _ Hs Hv).
    + assert (Hc : Z.min (Py.floor k + 1) (len s - 1) = Py.floor k + 1) by lia.
      rewrite Hc.
      destruct (getitem_in_range s (Py.floor k)) as (a & -> & Ha); [lia |].
      destruct (getitem_in_range s (Py.floor k + 1)) as (b & -> & Hb); [lia |].
      simpl. eexists. split; [reflexivity |].
      pose proof (lookup_bounds _ _ _ _ _ Hs Ha) as Hab.
      pose proof (lookup_bounds _ _ _ _ _ Hs Hb) as Hbb.
      set (t := (k - IZR (Py.floor k))%R).
      assert (Ht : (0 <= t < 1)%R) by (unfold t; lra).
      replace (a + (b - a) * t)%R with ((1 - t) * a + t * b)%R by ring.
      split; nra.
  - unfold _percentile.
    destruct xs as [| x xs'] eqn:Hxs; destruct ys as [| y ys'] eqn:Hys.
    + reflexivity.
    + apply Permutation_nil_l in Hperm. discriminate.
    + apply Permutation_nil_r in Hperm. discriminate.
    + rewrite (sorted_invariant _ _ Hperm). reflexivity.
  - unfold _percentile. f_equal. lra.
Qed.

End MainStatsFacts.

Module MainMLFacts.

Import RiskEngine AnomalyEngine MainIntel MainML Views PyFacts AnomalyFacts AnomalyMore.

Section Endpoints.
Context `{Py.Parsers} `{Backend}.

Lemma featurize_tx_row (t : Transaction) : exists x, featurize_row (tx_row t) = Py.Ok x.
Proof.
  unfold featurize_row.
  assert (Ha : tx_row t !! "amount" = Some (Py.VFloat (t_amount t))) by reflexivity.
  assert (Hc : tx_row t !! "category" = Some (Py.VStr (Py.upper (t_category t))))
    by reflexivity.
  assert (Hm0 : tx_row t !! "merchant" = Some (opt_str (or_None (t_merchant t))))
    by reflexivity.
  rewrite Ha, Hc, Hm0.
  unfold or_else. cbn [default from_option Datatypes.id].
  assert (Hamt : exists amt,
            Py.float (if Py.truthy (Py.VFloat (t_amount t)) then Py.VFloat (t_amount t)
                      else Py.VFloat 0.0) = Py.Ok amt).
  { destruct (Py.truthy (Py.VFloat (t_amount t))); simpl; eauto. }
  destruct Hamt as [amt ->].
  assert (Hcat : exists cat,
            str_upper (if Py.truthy (Py.VStr (Py.upper (t_category t)))
                       then Py.VStr (Py.upper (t_category t)) else Py.VStr "")
            = Py.Ok cat).
  { destruct (Py.truthy (Py.VStr (Py.upper (t_category t)))); simpl; eauto. }
  destruct Hcat as [cat ->].
  assert (Hm : exists merch,
            str_lower (if Py.truthy (opt_str (or_None (t_merchant t)))
                       then opt_str (or_None (t_merchant t)) else Py.VStr "")
            = Py.Ok merch).
  { unfold or_None. destruct (t_merchant t) as [m |]; simpl.
    - destruct (negb (String.eqb m "")) eqn:Hm; simpl; [rewrite Hm |]; simpl; eauto.
    - eauto. }
  destruct Hm as [merch ->].
  simpl. eauto.
Qed.

Lemma featurize_tx_rows (txs : list Transaction) :
  exists X, featurize_rows (map tx_row txs) = Py.Ok X.
Proof.
  induction txs as [| t rest [X IH]]; simpl; [eauto |].
  destruct (featurize_tx_row t) as [x ->]. rewrite IH. simpl. eauto.
Qed.

Lemma load_rows_are_tx_rows (stored : list Transaction) (drop_newest : bool) :
  exists txs, _load_tx_rows_for_ml stored drop_newest = map tx_row txs /\
              (length txs <= 500)%nat /\ (length txs <= length stored)%nat.
Proof.
  unfold _load_tx_rows_for_ml.
  assert (Htake : (length (take 500 stored) <= 500)%nat
                  /\ (length (take 500 stored) <= length stored)%nat).
  { rewrite length_take. lia. }
  destruct (take 500 stored) as [| t rest] eqn:Hrows.
  - exists []. simpl. split; [reflexivity | lia].
  - rewrite <- Hrows in *.
    destruct (drop_newest && (2 <=? len (take 500 stored))).
    + exists (removelast (take 500 stored)). split; [reflexivity |].
      assert (Hl : (length (removelast (take 500 stored))
                    <= length (take 500 stored))%nat).
      { clear. induction (take 500 stored) as [| a l IH]; simpl; [lia |].
        destruct l; simpl in *; lia. }
      lia.
    + exists (take 500 stored). split; [reflexivity | lia].
Qed.

(** X23. The rows that the loader hands to the detectors always pass the
    featurizer: no transaction that is stored, whatever its amount,
    category and merchant are, can make [featurize_rows] raise; and at
    most 500 rows are loaded. *)
Theorem loaded_rows_featurize (stored : list Transaction) (drop_newest : bool) :
  let rows := _load_tx_rows_for_ml stored drop_newest in
  (length rows <= 500)%nat /\
  exists X, featurize_rows rows = Py.Ok X /\ length X = length rows /\
            Forall feature_row_ok X.
Proof.
  intros rows. unfold rows.
  destruct (load_rows_are_tx_rows stored drop_newest) as (txs & -> & H500 & _).
  split; [rewrite length_map; exact H500 |].
  destruct (featurize_tx_rows txs) as [X HX].
  exists X. split; [exact HX |].
  apply featurize_rows_ok. exact HX.
Qed.





Lemma if_train_count (cfg : IFConfig) (rows : list Row) (st : IFState) (n : Z) :
  fst (if_train cfg rows st) = Py.Ok n -> n = 0 \/ n = len rows.
Proof.
  unfold if_train. run_monad.
  destruct (len rows <? if_min_train_rows cfg); simpl.
  { intros [= <-]. left. reflexivity. }
  destruct (featurize_rows rows) as [X | e]; simpl; [| discriminate].
  destruct (StandardScaler_fit X) as [sc | e]; simpl; [| discriminate].
  destruct (scaler_transform sc X) as [Xs | e]; simpl; [| discriminate].
  destruct (IsolationForest_fit cfg Xs) as [m | e]; simpl; [| discriminate].
  intros [= <-]. right. reflexivity.
Qed.

Lemma ae_train_count (cfg : AEConfig) (rows : list Row) (st : AEState) (n : Z) :
  fst (ae_train cfg rows st) = Py.Ok n -> n = 0 \/ n = len rows.
Proof.
  unfold ae_train, _ensure_torch, ae_run_loop. run_monad.
  destruct TORCH_AVAILABLE; simpl; [| discriminate].
  destruct (len rows <? ae_min_train_rows cfg); simpl.
  { intros [= <-]. left. reflexivity. }
  destruct (featurize_rows rows) as [X | e]; simpl; [| discriminate].
  destruct (StandardScaler_fit X) as [sc | e]; simpl; [| discriminate].
  destruct (scaler_transform sc X) as [Xs | e]; simpl; [| discriminate].
  destruct (AE_new cfg Xs) as [m | e]; simpl; [| discriminate].
  destruct (ae_train_loop cfg m Xs) as [[u | e] m']; simpl; [| discriminate].
  destruct (ae_forward m' Xs) as [recon | e]; simpl; [| discriminate].
  destruct (np_percentile (mse_rows recon Xs) (score_percentile cfg)) as [p95 | e];
    simpl; [| discriminate].
  destruct (np_percentile (mse_rows recon Xs) 99.0%R) as [p99 | e];
    simpl; [| discriminate].
  destruct (np_percentile (mse_rows recon Xs) 50.0%R) as [med | e];
    simpl; [| discriminate].
  intros [= <-]. right. reflexivity.
Qed.

Ltac step_train := cbv beta iota zeta; cbn [det used iforest autoenc].

(** X25. [POST /ml/anomaly/train] never fails.  [ok] is true exactly when
    [n_train] is positive, and [n_train] is 0 or the number of loaded
    rows.  A forced backend is reported under its name, and an exception
    of its training is reported as [ok = false], [n_train = 0] with the
    text of the exception.  When the choice is left to the end point, an
    exception of the autoencoder is absorbed: the isolation forest is
    trained instead and its outcome reported, with the text of the
    exception as the fallback reason; only an exception of the isolation
    forest is reported as a failure. *)
Theorem ml_anomaly_train_total (stored : list Transaction) (body : AnomalyTrainIn)
    (s : TrainState) :
  let hist := _load_tx_rows_for_ml stored false in
  let forest := fst (if_train (train_if_cfg body) hist (iforest (det s))) in
  let ae := fst (ae_train (train_ae_cfg body) hist (autoenc (det s))) in
  exists out,
    fst (ml_anomaly_train stored body s) = Py.Ok out /\
    r_ok out = (0 <? r_n_train out) /\
    (r_n_train out = 0 \/ r_n_train out = len hist) /\
    (b_backend body = "iforest"%string ->
       r_backend out = "iforest"%string /\ reports forest out) /\
    (b_backend body = "ae"%string ->
       r_backend out = "ae"%string /\ reports ae out) /\
    (b_backend body <> "iforest"%string -> b_backend body <> "ae"%string ->
       if ae_min_train_rows (train_ae_cfg body) <=? len hist then
         match ae with
         | Py.Ok n => r_backend out = "autoenc"%string /\ r_n_train out = n
         | Py.Err e =>
             r_backend out = "iforest"%string /\ reports forest out /\
             (Py.is_ok forest = true ->
              r_details out !! "fallback_reason" = Some (Py.VStr (Py.str_exn e)))
         end
       else r_backend out = "iforest"%string /\ reports forest out).
Proof.
  intros hist forest ae.
  pose proof (if_train_count (train_if_cfg body) hist (iforest (det s))) as HcI.
  pose proof (ae_train_count (train_ae_cfg body) hist (autoenc (det s))) as HcA.
  fold forest in HcI. fold ae in HcA.
  unfold ml_anomaly_train, set_used, on_det, train_out, on_iforest, on_autoenc.
  fold hist. run_monad. cbv beta iota zeta. cbn [det used fst snd].
  unfold forest, ae in *. clear forest ae.
  destruct (if_train (train_if_cfg body) hist (iforest (det s))) as [rI i] eqn:EI.
  destruct (ae_train (train_ae_cfg body) hist (autoenc (det s))) as [rA a] eqn:EA.
  cbn [fst] in *.
  destruct (String.eqb_spec (b_backend body) "iforest") as [Hi | Hi].
  { step_train. rewrite EI.
    destruct rI as [n | e]; cbn;
      eexists; (split; [reflexivity |]); cbn.
    - split; [reflexivity |]. split; [apply HcI; reflexivity |].
      split; [intros _; split; [exact Hi | reflexivity] |].
      split; [intros Hae; rewrite Hae in Hi; discriminate |].
      intros Hne; contradiction.
    - split; [reflexivity |]. split; [left; reflexivity |].
      split; [intros _; split; [exact Hi | repeat split] |].
      split; [intros Hae; rewrite Hae in Hi; discriminate |].
      intros Hne; contradiction. }
  destruct (String.eqb_spec (b_backend body) "ae") as [Ha | Ha].
  { step_train. rewrite EA.
    destruct rA as [n | e]; cbn;
      eexists; (split; [reflexivity |]); cbn.
    - split; [reflexivity |]. split; [apply HcA; reflexivity |].
      split; [intros Hif; contradiction |].
      split; [intros _; split; [exact Ha | reflexivity] |].
      intros _ Hne; contradiction.
    - split; [reflexivity |]. split; [left; reflexivity |].
      split; [intros Hif; contradiction |].
      split; [intros _; split; [exact Ha | repeat split] |].
      intros _ Hne; contradiction. }
  destruct (ae_min_train_rows (train_ae_cfg body) <=? len hist) eqn:Hmin.
  - step_train. rewrite EA. destruct rA as [n | e]; cbn.
    + eexists; (split; [reflexivity |]); cbn.
      split; [reflexivity |]. split; [apply HcA; reflexivity |].
      split; [intros Hif; contradiction |].
      split; [intros Hae; contradiction |].
      intros _ _. split; reflexivity.
    + rewrite EI. destruct rI as [n | e']; cbn;
        eexists; (split; [reflexivity |]); cbn.
      * split; [reflexivity |]. split; [apply HcI; reflexivity |].
        split; [intros Hif; contradiction |].
        split; [intros Hae; contradiction |].
        intros _ _. split; [reflexivity |]. split; [reflexivity |].
        intros _. apply lookup_insert_eq.
      * split; [reflexivity |]. split; [left; reflexivity |].
        split; [intros Hif; contradiction |].
        split; [intros Hae; contradiction |].
        intros _ _. split; [reflexivity |]. split; [repeat split |].
        discriminate.
  - step_train. rewrite EI.
    destruct rI as [n | e]; cbn;
      eexists; (split; [reflexivity |]); cbn.
    + split; [reflexivity |]. split; [apply HcI; reflexivity |].
      split; [intros Hif; contradiction |].
      split; [intros Hae; contradiction |].
      intros _ _. split; reflexivity.
    + split; [reflexivity |]. split; [left; reflexivity |].
      split; [intros Hif; contradiction |].
      split; [intros Hae; contradiction |].
      intros _ _. split; [reflexivity | repeat split].
Qed.

End Endpoints.

End MainMLFacts.

Module FedFacts.

Import RiskEngine Spec Views Fed PyFacts RiskEngineFacts ConfigMore.

Lemma FEAT_NAMES_NoDup : NoDup FEAT_NAMES.
Proof. apply (bool_decide_unpack (NoDup FEAT_NAMES)). vm_compute. exact I. Qed.

Lemma feature_keys (f : string -> R) :
  (map (fun k => (k, f k)) FEAT_NAMES).*1 = FEAT_NAMES.
Proof. reflexivity. Qed.

Lemma over_features_lookup (f : string -> R) (k : string) :
  k ∈ FEAT_NAMES -> over_features f !! k = Some (f k).
Proof.
  intros Hk. unfold over_features.
  apply elem_of_list_to_map_1.
  - rewrite feature_keys. exact FEAT_NAMES_NoDup.
  - apply list_elem_of_In, in_map_iff. exists k.
    split; [reflexivity | apply list_elem_of_In; exact Hk].
Qed.

Lemma over_features_lookup_None (f : string -> R) (k : string) :
  k ∉ FEAT_NAMES -> over_features f !! k = None.
Proof.
  intros Hk. unfold over_features. apply not_elem_of_list_to_map_1.
  rewrite feature_keys. exact Hk.
Qed.

Lemma sum_squares_present (w : gmap string R) (f : string -> R) (names : list string) :
  (forall k, k ∈ names -> w !! k = Some (f k)) ->
  forall acc, sum_squares w names acc = Found (acc + sumsq f names)%R.
Proof.
  induction names as [| k rest IH]; intros Hall acc; simpl.
  - f_equal. lra.
  - unfold getitem. rewrite (Hall k) by (left). simpl.
    rewrite IH by (intros k' Hk'; apply Hall; right; exact Hk').
    f_equal. lra.
Qed.

Lemma sumsq_nonneg (f : string -> R) (names : list string) : (0 <= sumsq f names)%R.
Proof.
  induction names as [| k rest IH]; simpl; [lra |].
  pose proof (pow2_ge_0 (f k)). lra.
Qed.

Lemma sumsq_scale (f : string -> R) (s : R) (names : list string) :
  sumsq (fun k => (f k * s)%R) names = (s * s * sumsq f names)%R.
Proof.
  induction names as [| k rest IH]; simpl; [lra |].
  rewrite IH. ring.
Qed.

Lemma sumsq_ext (f g : string -> R) (names : list string) :
  (forall k, k ∈ names -> f k = g k) -> sumsq f names = sumsq g names.
Proof.
  induction names as [| k rest IH]; intros Hfg; simpl; [reflexivity |].
  rewrite (Hfg k) by (left). rewrite IH; [reflexivity |].
  intros k' Hk'. apply Hfg. right. exact Hk'.
Qed.

Lemma l2_norm_present (w : gmap string R) (f : string -> R) :
  (forall k, k ∈ FEAT_NAMES -> w !! k = Some (f k)) ->
  _l2_norm w = Found (sqrt (sumsq f FEAT_NAMES)).
Proof.
  intros Hall. unfold _l2_norm.
  rewrite (sum_squares_present w f FEAT_NAMES Hall). unfold kbind.
  rewrite Rplus_0_l. reflexivity.
Qed.

Lemma scaled_norm (S s : R) :
  (0 <= S)%R -> (0 <= s)%R -> sqrt (s * s * S) = (s * sqrt S)%R.
Proof.
  intros HS Hs. rewrite sqrt_mult by nra. rewrite sqrt_square by exact Hs.
  reflexivity.
Qed.

Lemma clip_l2_features (f : string -> R) (clip : R) :
  (0 < clip)%R ->
  let n := sqrt (sumsq f FEAT_NAMES) in
  exists s,
    _clip_l2 (over_features f) clip = Found (_scale_weights (over_features f) s) /\
    (0 < s <= 1)%R /\ (s * n <= clip)%R /\ ((n <= clip)%R -> s = 1%R).
Proof.
  intros Hclip n.
  pose proof (sumsq_nonneg f FEAT_NAMES) as HS.
  assert (Hn : (0 <= n)%R) by apply sqrt_pos.
  unfold _clip_l2.
  rewrite (l2_norm_present (over_features f) f (over_features_lookup f)).
  unfold kbind. fold n.
  destruct (Rle_dec n clip) as [Hle | Hgt].
  - exists 1%R. split.
    + f_equal. unfold _scale_weights. apply map_eq. intros k.
      rewrite lookup_fmap. destruct (over_features f !! k); simpl; [| reflexivity].
      f_equal. lra.
    + split; [lra |]. split; [lra | reflexivity].
  - destruct (Rle_dec clip 0) as [Hc0 | _]; [lra |].
    exists (clip / Rmax n 1e-12)%R.
    assert (Hmax : (0 < Rmax n 1e-12)%R).
    { eapply Rlt_le_trans; [| apply Rmax_r]. lra. }
    assert (Hmn : (n <= Rmax n 1e-12)%R) by apply Rmax_l.
    assert (Hinv : (0 < / Rmax n 1e-12)%R) by (apply Rinv_0_lt_compat; exact Hmax).
    split; [reflexivity |].
    split; [| split; [| intros Hle; lra]].
    + split; [unfold Rdiv; nra |].
      apply Rmult_le_reg_r with (Rmax n 1e-12); [exact Hmax |].
      unfold Rdiv. rewrite Rmult_assoc, Rinv_l by lra. lra.
    + apply Rmult_le_reg_r with (Rmax n 1e-12); [exact Hmax |].
      replace (clip / Rmax n 1e-12 * n * Rmax n 1e-12)%R
        with (clip * n * (/ Rmax n 1e-12 * Rmax n 1e-12))%R by (unfold Rdiv; ring).
      rewrite Rinv_l by lra. nra.
Qed.

Lemma scaled_features_lookup (f : string -> R) (s : R) (k : string) :
  k ∈ FEAT_NAMES ->
  _scale_weights (over_features f) s !! k = Some (f k * s)%R.
Proof.
  intros Hk. unfold _scale_weights.
  rewrite lookup_fmap, (over_features_lookup f k Hk). reflexivity.
Qed.

(** X26. Clipping bounds the update of a client: for a positive bound the
    difference between the local and the global weights is returned as it
    is when its L2 norm is within the bound, and otherwise scaled by a
    factor between 0 and 1 so that its norm does not exceed the bound; no
    key is ever missing. *)
Theorem clip_l2_bound (w_local w_global : gmap string R) (clip : R)
    (Hclip : (0 < clip)%R) :
  let delta := _sub_weights w_local w_global in
  exists clipped n n' s,
    _l2_norm delta = Found n /\
    _clip_l2 delta clip = Found clipped /\
    _l2_norm clipped = Found n' /\
    clipped = _scale_weights delta s /\ (0 < s <= 1)%R /\
    (n' <= clip)%R /\ (n' <= n)%R /\ ((n <= clip)%R -> n' = n).
Proof.
  intros delta. unfold delta, _sub_weights.
  set (f := fun k => (Py.get w_local k 0.0 - Py.get w_global k 0.0)%R).
  destruct (clip_l2_features f clip Hclip) as (s & Hrun & Hs & Hbound & Hone).
  pose proof (sumsq_nonneg f FEAT_NAMES) as HS.
  exists (_scale_weights (over_features f) s), (sqrt (sumsq f FEAT_NAMES)),
    (s * sqrt (sumsq f FEAT_NAMES))%R, s.
  split; [apply l2_norm_present, over_features_lookup |].
  split; [exact Hrun |].
  split.
  { rewrite (l2_norm_present _ (fun k => (f k * s)%R)
               (scaled_features_lookup f s)).
    rewrite sumsq_scale, scaled_norm by lra. reflexivity. }
  split; [reflexivity |]. split; [exact Hs |]. split; [exact Hbound |].
  pose proof (sqrt_pos (sumsq f FEAT_NAMES)) as Hn.
  split; [nra |].
  intros Hle. rewrite (Hone Hle). lra.
Qed.

Lemma noisy_items_present (w : gmap string R) (f noise : string -> R)
    (names : list string) :
  (forall k, k ∈ names -> w !! k = Some (f k)) ->
  noisy_items w noise names
  = Found (map (fun k => (k, (f k + noise k)%R)) names).
Proof.
  induction names as [| k rest IH]; intros Hall; simpl; [reflexivity |].
  unfold getitem. rewrite (Hall k) by (left). simpl.
  rewrite IH by (intros k' Hk'; apply Hall; right; exact Hk'). reflexivity.
Qed.

(** X27. With the noise switched off, a differentially private update
    moves the global weights by at most the clipping bound: the update is
    always computed (no key is missing), and the L2 norm of its difference
    from the global weights does not exceed the bound.  Floats are real
    numbers here: in binary64 [(g + d) - g] differs from [d] and the norm
    can exceed the bound by a rounding error. *)
Theorem dp_update_sensitivity (w_global w_local : gmap string R) (clip sigma : R)
    (gauss : string -> R)
    (Hclip : (0 < clip)%R) (Hsigma : (sigma <= 0)%R) :
  exists out n,
    _dp_secure_update w_global w_local clip sigma gauss = Found out /\
    _l2_norm (_sub_weights out w_global) = Found n /\
    (n <= clip)%R.
Proof.
  unfold _dp_secure_update.
  destruct (Rlt_dec 0 clip) as [_ | Hn]; [| contradiction].
  unfold _sub_weights at 1.
  set (f := fun k => (Py.get w_local k 0.0 - Py.get w_global k 0.0)%R).
  destruct (clip_l2_features f clip Hclip) as (s & -> & Hs & Hbound & _).
  unfold kbind.
  rewrite (noisy_items_present _ (fun k => (f k * s)%R) _ FEAT_NAMES
             (scaled_features_lookup f s)).
  unfold kbind.
  destruct (Rlt_dec 0 sigma) as [Hpos | _]; [lra |].
  change (list_to_map (map (fun k => (k, (f k * s + 0.0)%R)) FEAT_NAMES))
    with (over_features (fun k => (f k * s + 0.0)%R)).
  eexists. exists (s * sqrt (sumsq f FEAT_NAMES))%R.
  split; [reflexivity |]. split; [| exact Hbound].
  unfold _sub_weights, _add_weights.
  rewrite (l2_norm_present _ _ (over_features_lookup _)).
  f_equal.
  pose proof (sumsq_nonneg f FEAT_NAMES) as HS.
  rewrite <- scaled_norm by lra. f_equal.
  rewrite <- sumsq_scale. apply sumsq_ext. intros k Hk.
  unfold Py.get at 1. rewrite (over_features_lookup _ k Hk). simpl.
  unfold Py.get at 2. rewrite (over_features_lookup _ k Hk). simpl.
  lra.
Qed.

Lemma last_binding_key (k : string) (l : list (string * R)) (v : R) :
  last_binding k l = Some v -> (k, v) ∈ l.
Proof.
  induction l as [| [k' v'] rest IH]; simpl; [discriminate |].
  destruct (last_binding k rest) as [v0 |].
  - intros [= <-]. right. apply IH. reflexivity.
  - destruct (String.eqb_spec k' k) as [-> | _]; [| discriminate].
    intros [= <-]. left.
Qed.

Lemma last_binding_NoDup (k : string) (l : list (string * R)) (v : R) :
  NoDup l.*1 -> (k, v) ∈ l -> last_binding k l = Some v.
Proof.
  induction l as [| [k' v'] rest IH]; intros Hnd Hin; [inversion Hin |].
  simpl in Hnd. apply NoDup_cons in Hnd as [Hnot Hnd].
  simpl. apply elem_of_cons in Hin as [Heq | Hin].
  - injection Heq as <- <-.
    destruct (last_binding k rest) as [v0 |] eqn:Hl.
    + exfalso. apply Hnot. apply last_binding_key in Hl.
      apply list_elem_of_fmap. exists (k, v0). split; [reflexivity | exact Hl].
    + rewrite String.eqb_refl. reflexivity.
  - rewrite (IH Hnd Hin). reflexivity.
Qed.

Lemma last_binding_map_to_list (m : gmap string R) (k : string) :
  last_binding k (map_to_list m) = m !! k.
Proof.
  destruct (m !! k) as [v |] eqn:Hm.
  - apply last_binding_NoDup; [apply NoDup_fst_map_to_list |].
    apply elem_of_map_to_list. exact Hm.
  - destruct (last_binding k (map_to_list m)) as [v |] eqn:Hl; [| reflexivity].
    apply last_binding_key, elem_of_map_to_list in Hl. congruence.
Qed.

Lemma merged_fold_lookup (g : string -> R) (names : list string) (k : string) :
  forall m : gmap string R,
    fold_left (fun m k => <[k := g k]> m) names m !! k
    = if decide (k ∈ names) then Some (g k) else m !! k.
Proof.
  induction names as [| k' rest IH]; intros m; simpl.
  - destruct (decide (k ∈ [])) as [Hin | _]; [inversion Hin | reflexivity].
  - rewrite IH.
    destruct (decide (k ∈ rest)) as [Hin | Hnot].
    + destruct (decide (k ∈ k' :: rest)) as [_ | Hn]; [reflexivity |].
      exfalso. apply Hn. right. exact Hin.
    + destruct (decide (k = k')) as [-> | Hne].
      * rewrite lookup_insert_eq.
        destruct (decide (k' ∈ k' :: rest)) as [_ | Hn]; [reflexivity |].
        exfalso. apply Hn. left.
      * rewrite lookup_insert_ne by congruence.
        destruct (decide (k ∈ k' :: rest)) as [Hin | _]; [| reflexivity].
        apply elem_of_cons in Hin as [? | ?]; contradiction.
Qed.

(** X28. Applying the federated weights overwrites the weight of each of
    the ten features with the simulated one (0 when the simulation has
    none), keeps every other weight, leaves the scale, the intercept and
    the two thresholds as they are, and never fails; without simulated
    weights nothing is changed. *)
Theorem sim_apply_weights_effect `{Py.Parsers} (w : gmap string R)
    (CONFIG : RiskConfig) (Hw : w <> ∅) :
  sim_apply_weights None CONFIG
    = (Py.Ok {| applied := false; new_weights := ∅ |}, CONFIG) /\
  sim_apply_weights (Some ∅) CONFIG
    = (Py.Ok {| applied := false; new_weights := ∅ |}, CONFIG) /\
  exists out c,
    sim_apply_weights (Some w) CONFIG = (Py.Ok out, c) /\
    applied out = true /\ new_weights out = weights c /\
    (forall k, k ∈ FEAT_NAMES -> weights c !! k = Some (Py.get w k 0.0%R)) /\
    (forall k, k ∉ FEAT_NAMES -> weights c !! k = weights CONFIG !! k) /\
    scale c = scale CONFIG /\ intercept c = intercept CONFIG /\
    step_up_threshold c = step_up_threshold CONFIG /\
    hard_deny_threshold c = hard_deny_threshold CONFIG.
Proof.
  split; [reflexivity |]. split; [reflexivity |].
  unfold sim_apply_weights.
  destruct (bool_decide_reflect (w = ∅)) as [Heq | _]; [contradiction |].
  unfold _copy_weights, get_config.
  set (merged := merged_weights (weights CONFIG) w).
  unfold update_config, update_statements, seq_stmt, assign_weights, assign_field.
  rewrite lookup_singleton_eq.
  rewrite float_items_floats.
  rewrite !lookup_singleton_ne by discriminate.
  cbn [set_weights weights scale intercept step_up_threshold hard_deny_threshold
       get_config].
  assert (Hlook : forall k,
            dict_update (weights CONFIG) (map_to_list merged) !! k = merged !! k).
  { intros k. rewrite lookup_dict_update, last_binding_map_to_list.
    destruct (merged !! k) as [v |] eqn:Hm; [reflexivity |].
    unfold merged, merged_weights in Hm. rewrite merged_fold_lookup in Hm.
    destruct (decide (k ∈ FEAT_NAMES)); [discriminate | exact Hm]. }
  assert (Hmap : dict_update (weights CONFIG) (map_to_list merged) = merged).
  { apply map_eq. exact Hlook. }
  do 2 eexists. split; [reflexivity |].
  cbn [applied new_weights weights scale intercept step_up_threshold
       hard_deny_threshold].
  rewrite Hmap.
  split; [reflexivity |]. split; [reflexivity |].
  split; [| split].
  - intros k Hk. cbn [weights set_weights].
    unfold merged, merged_weights. rewrite merged_fold_lookup.
    destruct (decide (k ∈ FEAT_NAMES)); [reflexivity | contradiction].
  - intros k Hk. cbn [weights set_weights].
    unfold merged, merged_weights. rewrite merged_fold_lookup.
    destruct (decide (k ∈ FEAT_NAMES)); [contradiction | reflexivity].
  - repeat split.
Qed.

Lemma score_feats_fold (cfg : RiskConfig) (feats : list (string * R)) :
  forall z,
    fold_left (fun z nv => (z + Py.get (weights cfg) (fst nv) 0.0 * snd nv)%R) feats z
    = (z + weighted_sum cfg feats)%R.
Proof.
  induction feats as [| [k v] rest IH]; intros z; simpl.
  - lra.
  - rewrite IH, get_weight. lra.
Qed.

Lemma fed_sim_sigmoid (x : R) : FedSim._sigmoid x = sigmoid x.
Proof. unfold FedSim._sigmoid, sigmoid. f_equal; lra. Qed.

(** X29. The replay scorer of the federated evaluation computes the same
    number as the engine's linear score whenever the engine's scale is 1
    and its intercept 0 (the defaults), for every weight table and every
    feature list; its result always lies between 0 and 100. *)
Theorem score_feats_agrees (cfg : RiskConfig) (feats : list (string * R)) :
  0 <= FedSim._score_feats (weights cfg) feats <= 100 /\
  (scale cfg = 1%R -> intercept cfg = 0%R ->
   FedSim._score_feats (weights cfg) feats = fst (linear_score feats cfg)).
Proof.
  unfold FedSim._score_feats. rewrite score_feats_fold, fed_sim_sigmoid.
  set (z := (Py.get (weights cfg) "bias" 0.0 + weighted_sum cfg feats)%R).
  assert (Hp : (0 < sigmoid z < 1)%R).
  { rewrite <- _sigmoid_logistic. apply _sigmoid_range. }
  assert (Hr : 0 <= Py.round (100.0 * sigmoid z) <= 100).
  { split; [apply round_ge_lower | apply round_le_upper]; simpl; lra. }
  split; [exact Hr |].
  intros Hscale Hint.
  rewrite linear_score_total, fold_linear_step, Hscale, Hint.
  fold z. rewrite _sigmoid_logistic.
  replace (1 * z + 0)%R with z by lra.
  replace (sigmoid z * 100)%R with (100.0 * sigmoid z)%R by lra.
  lia.
Qed.

End FedFacts.

Module MainLogsFacts.

Import RiskEngine ThreatIntel Main MainLogs Views.

Lemma no_char_app (p : ascii -> bool) (s t : string) :
  no_char p (String.append s t) = no_char p s && no_char p t.
Proof.
  induction s as [| a s IH]; simpl; [reflexivity |].
  rewrite IH. apply andb_assoc.
Qed.

Lemma split_on_bar_free (s : string) :
  no_char is_bar s = true -> split_on "|" s = [s].
Proof.
  induction s as [| a s IH]; simpl; [reflexivity |].
  intros Hs. apply andb_true_iff in Hs as [Ha Hs].
  unfold is_bar in Ha. apply negb_true_iff in Ha. rewrite Ha.
  rewrite (IH Hs). reflexivity.
Qed.

Lemma split_on_bar_app (p t : string) :
  no_char is_bar p = true ->
  split_on "|" (String.append p (String "|" t)) = p :: split_on "|" t.
Proof.
  induction p as [| a p IH]; simpl; [reflexivity |].
  intros Hs. apply andb_true_iff in Hs as [Ha Hs].
  unfold is_bar in Ha. apply negb_true_iff in Ha. rewrite Ha.
  rewrite (IH Hs). reflexivity.
Qed.

Lemma split_on_join_bar (pieces : list string) :
  pieces <> [] ->
  Forall (fun s => no_char is_bar s = true) pieces ->
  split_on "|" (join_bar pieces) = pieces.
Proof.
  induction pieces as [| p rest IH]; [congruence |].
  intros _ Hall. inversion Hall as [| ? ? Hp Hrest]; subst.
  destruct rest as [| q rest'].
  - simpl. apply split_on_bar_free. exact Hp.
  - change (join_bar (p :: q :: rest'))
      with (String.append p (String "|" (join_bar (q :: rest')))).
    rewrite (split_on_bar_app p _ Hp). f_equal.
    apply IH; [discriminate | exact Hrest].
Qed.

Lemma times_byte_prefix (a : ascii) (s : string) :
  is_times_byte a = false -> String.prefix "×" (String a s) = false.
Proof.
  intros Ha.
  change (String.prefix "×" (String a s))
    with (if ascii_dec "195" a then String.prefix (String "151" EmptyString) s
          else false).
  destruct (ascii_dec "195" a) as [<- | _]; [discriminate Ha | reflexivity].
Qed.

Lemma before_times_free (s : string) :
  no_char is_times_byte s = true -> before "×" s = s.
Proof.
  induction s as [| a s IH]; [reflexivity |].
  intros Hs. simpl in Hs. apply andb_true_iff in Hs as [Ha Hs].
  apply negb_true_iff in Ha.
  change (before "×" (String a s))
    with (if String.prefix "×" (String a s) then EmptyString
          else String a (before "×" s)).
  rewrite (times_byte_prefix a s Ha), (IH Hs). reflexivity.
Qed.

Lemma before_times_part (name rest : string) :
  no_char is_times_byte name = true ->
  before "×" (String.append name (String.append " × " rest))
  = String.append name " ".
Proof.
  induction name as [| a name IH]; [reflexivity |].
  intros Hs. simpl in Hs. apply andb_true_iff in Hs as [Ha Hs].
  apply negb_true_iff in Ha.
  change (before "×" (String.append (String a name) (String.append " × " rest)))
    with (if String.prefix "×"
               (String a (String.append name (String.append " × " rest)))
          then EmptyString
          else String a (before "×" (String.append name (String.append " × " rest)))).
  rewrite (times_byte_prefix a _ Ha), (IH Hs). reflexivity.
Qed.

Lemma rstrip_last_ok (s : string) : last_char_ok s = true -> rstrip s = s.
Proof.
  induction s as [| a s IH]; [discriminate |].
  destruct s as [| b s'].
  - simpl. intros Ha. apply negb_true_iff in Ha. rewrite Ha. reflexivity.
  - intros Hs.
    change (last_char_ok (String a (String b s'))) with (last_char_ok (String b s')) in Hs.
    change (rstrip (String a (String b s')))
      with (match rstrip (String b s') with
            | EmptyString => if is_space a then EmptyString else String a EmptyString
            | r => String a r
            end).
    rewrite (IH Hs). reflexivity.
Qed.

Lemma rstrip_blank (s : string) :
  last_char_ok s = true -> rstrip (String.append s " ") = s.
Proof.
  induction s as [| a s IH]; [discriminate |].
  destruct s as [| b s'].
  - simpl. intros Ha. apply negb_true_iff in Ha. rewrite Ha. reflexivity.
  - intros Hs.
    change (last_char_ok (String a (String b s'))) with (last_char_ok (String b s')) in Hs.
    change (rstrip (String.append (String a (String b s')) " "))
      with (match rstrip (String.append (String b s') " ") with
            | EmptyString => if is_space a then EmptyString else String a EmptyString
            | r => String a r
            end).
    rewrite (IH Hs). reflexivity.
Qed.

Lemma lstrip_first_ok (s t : string) :
  first_char_ok s = true -> lstrip (String.append s t) = String.append s t.
Proof.
  destruct s as [| a s]; [discriminate |].
  simpl. intros Ha. apply negb_true_iff in Ha. rewrite Ha. reflexivity.
Qed.

Lemma token_ok_parts (s : string) :
  token_ok s = true ->
  no_char is_bar s = true /\ no_char is_times_byte s = true /\
  first_char_ok s = true /\ last_char_ok s = true /\ s <> ""%string.
Proof.
  unfold token_ok. intros Hs.
  apply andb_true_iff in Hs as [Hs Hlast].
  apply andb_true_iff in Hs as [Hs Hfirst].
  apply andb_true_iff in Hs as [Hbar Htimes].
  repeat split; try assumption.
  intros ->. discriminate Hfirst.
Qed.

Lemma lstrip_first_char (s : string) : first_char_ok s = true -> lstrip s = s.
Proof.
  destruct s as [| a s]; [discriminate |].
  simpl. intros Ha. apply negb_true_iff in Ha. rewrite Ha. reflexivity.
Qed.

(** A plain label of a reason is read back as it is. *)
Lemma label_token (s : string) :
  token_ok s = true ->
  no_char is_bar s = true /\ strip (before "×" s) = s /\ s <> ""%string.
Proof.
  intros Hs. destruct (token_ok_parts s Hs) as (Hbar & Htimes & Hfirst & Hlast & Hne).
  split; [exact Hbar |]. split; [| exact Hne].
  rewrite (before_times_free s Htimes). unfold strip.
  rewrite (lstrip_first_char s Hfirst).
  apply rstrip_last_ok. exact Hlast.
Qed.

Section Reasons.
Context `{FloatFormat}.
Hypothesis format_bar_free : forall x, no_char is_bar (format_signed_2f x) = true.

(** A rendered contribution is read back as the name of its feature. *)
Lemma part_token (p : Part) :
  token_ok (part_name p) = true ->
  no_char is_bar (render_part p) = true /\
  strip (before "×" (render_part p)) = part_name p /\
  part_name p <> ""%string.
Proof.
  intros Hs.
  destruct (token_ok_parts _ Hs) as (Hbar & Htimes & Hfirst & Hlast & Hne).
  split; [| split; [| exact Hne]].
  - unfold render_part. rewrite !no_char_app, Hbar, !format_bar_free. reflexivity.
  - unfold render_part. rewrite (before_times_part _ _ Htimes). unfold strip.
    rewrite (lstrip_first_ok _ " " Hfirst).
    apply rstrip_blank. exact Hlast.
Qed.

Lemma reason_tokens_pieces (pieces names : list string) :
  Forall2 (fun x y => no_char is_bar x = true /\ strip (before "×" x) = y
                      /\ y <> ""%string) pieces names ->
  Forall (fun x => x <> ""%string) pieces ->
  _reason_tokens (Some (join_bar pieces)) = names.
Proof.
  intros Hall Hne. unfold _reason_tokens.
  destruct pieces as [| p rest].
  { inversion Hall; subst. reflexivity. }
  assert (Htruthy : str_truthy (Some (join_bar (p :: rest))) = true).
  { inversion Hne as [| ? ? Hp _]; subst. unfold str_truthy.
    destruct p as [| a p']; [congruence |].
    destruct rest; reflexivity. }
  rewrite Htruthy. cbn [default from_option Datatypes.id].
  rewrite split_on_join_bar; [| discriminate |].
  2:{ clear -Hall. induction Hall as [| x y l l' (Hx & _) _ IH]; constructor; assumption. }
  clear Htruthy Hne.
  induction Hall as [| x y l l' (Hx & Hy & Hn) _ IH]; [reflexivity |].
  simpl. rewrite Hy.
  destruct (String.eqb_spec y "") as [-> | _]; [congruence |].
  simpl. rewrite IH. reflexivity.
Qed.

(** X30. The reasons of a stored login event are read back exactly: for
    a reason written by [login] (optional labels such as [hard_deny], the
    contributions of the linear score, the threat-intelligence labels,
    joined with bars), [_reason_tokens] returns the labels as they are and,
    for every contribution, the name of its feature, in the same order;
    this holds for all names and labels without a bar or a multiplication
    sign and without blanks at their ends, as the nine feature names are. *)
Theorem reason_tokens_round_trip (pre post : list string) (parts : list Part)
    (Hpre : Forall (fun s => token_ok s = true) pre)
    (Hparts : Forall (fun p => token_ok (part_name p) = true) parts)
    (Hpost : Forall (fun s => token_ok s = true) post) :
  _reason_tokens (Some (join_bar (pre ++ map render_part parts ++ post)))
  = pre ++ map part_name parts ++ post /\
  Forall (fun s => token_ok s = true) FEATURE_ORDER.
Proof.
  split; [| repeat constructor].
  apply reason_tokens_pieces.
  - apply Forall2_app; [| apply Forall2_app].
    + clear -Hpre. induction Hpre as [| s l Hs _ IH]; constructor;
        [apply label_token; exact Hs | exact IH].
    + clear -Hparts format_bar_free.
      induction Hparts as [| p l Hp _ IH]; simpl; constructor;
        [apply part_token; exact Hp | exact IH].
    + clear -Hpost. induction Hpost as [| s l Hs _ IH]; constructor;
        [apply label_token; exact Hs | exact IH].
  - apply Forall_app. split; [| apply Forall_app; split].
    + clear -Hpre. induction Hpre as [| s l Hs _ IH]; constructor; [| exact IH].
      apply (token_ok_parts s Hs).
    + clear -Hparts. induction Hparts as [| p l Hp _ IH]; simpl; constructor;
        [| exact IH].
      destruct (token_ok_parts _ Hp) as (_ & _ & Hfirst & _).
      unfold render_part. destruct (part_name p); [discriminate | discriminate].
    + clear -Hpost. induction Hpost as [| s l Hs _ IH]; constructor; [| exact IH].
      apply (token_ok_parts s Hs).
Qed.

End Reasons.

End MainLogsFacts.

(** ** The theorems above at concrete inputs *)

Module Examples.

Import RiskEngine Spec Views.

Lemma update_config_well_formed_witness :
  @first_malformed Instances.no_literals Samples.scale_update = None /\
  (let c := snd (@update_config Instances.no_literals Samples.scale_update
                   CONFIG_initial) in
   @update_config Instances.no_literals Samples.scale_update c = (Py.Ok c, c)).
Proof.
  split; [reflexivity |].
  apply (@ConfigMore.update_config_well_formed Instances.no_literals
           Samples.scale_update CONFIG_initial eq_refl).
Defined.

Lemma update_config_merges_weights_witness :
  @first_malformed Instances.no_literals Samples.bias_update = None /\
  weights (snd (@update_config Instances.no_literals Samples.bias_update
                  CONFIG_initial)) !! "bias" = Some 9%R.
Proof.
  split; [reflexivity |].
  exact (@ConfigMore.update_config_merges_weights Instances.no_literals
           Samples.bias_update CONFIG_initial [("bias", Py.VFloat 9)]
           [("bias", 9%R)] "bias" eq_refl eq_refl eq_refl).
Defined.

Lemma lookup_ip_cached_stale_witness :
  let first := @ThreatIntelFeeds.lookup_ip_cached Instances.exact_match_ips true
                 Samples.bad_feed [] "6.6.6.6" in
  let later := @ThreatIntelFeeds.lookups Instances.exact_match_ips true
                 [(Samples.empty_feed, "1.1.1.1"%string)] (snd first) in
  ThreatIntel.ti_bad_ip (fst first) = true /\
  ThreatIntel.ti_bad_ip
    (@ThreatIntel.lookup_ip Instances.exact_match_ips true Samples.empty_feed "6.6.6.6")
  = false /\
  fst (@ThreatIntelFeeds.lookup_ip_cached Instances.exact_match_ips true
         Samples.empty_feed later "6.6.6.6") = fst first.
Proof.
  split; [reflexivity |]. split; [reflexivity |].
  apply (@ThreatIntelMore.lookup_ip_cached_stale Instances.exact_match_ips true
           Samples.bad_feed Samples.empty_feed [] "6.6.6.6"
           [(Samples.empty_feed, "1.1.1.1"%string)]).
  reflexivity.
Defined.

Lemma train_and_score_result_witness :
  fst (@AnomalyEngine.train_and_score Instances.no_literals
         (Instances.constant_backend false) AnomalyEngine.DetectorConfig_default
         [] (Instances.food_row 20) (Some "iforest"%string)
         (@AnomalyEngine.DetState_init (Instances.constant_backend false)))
  = Py.Ok ("iforest"%string, 0, {[ "reason" := Py.VStr "model_not_trained" ]}, 0) /\
  0 <= 0 <= 100.
Proof.
  split; [reflexivity |].
  apply (@AnomalyMore.train_and_score_result Instances.no_literals
           (Instances.constant_backend false) AnomalyEngine.DetectorConfig_default
           [] (Instances.food_row 20) (Some "iforest"%string)
           (@AnomalyEngine.DetState_init (Instances.constant_backend false))
           "iforest"%string 0 0 {[ "reason" := Py.VStr "model_not_trained" ]}).
  reflexivity.
Defined.

Lemma login_lockout_witness :
  let user := {| MainAuth.failed_attempts := Some 0; MainAuth.lock_until := None |} in
  let locked := {| MainAuth.failed_attempts := Some 5;
                   MainAuth.lock_until := Some 900000005 |} in
  MainAuth.logins user
    [(1, 1, false); (2, 2, false); (3, 3, false); (4, 4, false); (5, 5, false);
     (6, 6, true); (7, 7, false)]
  = ([MainAuth.BadPassword; MainAuth.BadPassword; MainAuth.BadPassword;
      MainAuth.BadPassword; MainAuth.BadPassword; MainAuth.Locked; MainAuth.Locked],
     locked).
Proof.
  apply (MainAuthFacts.login_lockout (Some 0) [(1, 1); (2, 2); (3, 3); (4, 4)] 5 5
           [(6, 6, true); (7, 7, false)]).
  - reflexivity.
  - reflexivity.
  - repeat constructor.
Defined.

Lemma learned_profile_witness :
  let db' := MainIntel.add_txs ∅ 1 [Samples.cafe_tx] in
  Main.n (Main.stats_of db' 1 "FOOD") = 1 /\
  MainIntel.merchant_count db' 1 "cafe" = 1.
Proof.
  assert (Hrange : Forall (fun a => (0 <= a <= 1000)%R)
                     (MainIntel.category_amounts "FOOD" [Samples.cafe_tx])).
  { unfold MainIntel.category_amounts. simpl. repeat constructor; lra. }
  destruct (MainIntelFacts.learned_profile ∅ 1 [Samples.cafe_tx] "FOOD" "cafe" 0 1000
              (lookup_empty 1) Hrange) as (Hn & _ & _ & Hm & _).
  split; [exact Hn | exact Hm].
Defined.

Lemma score_after_learning_witness :
  let intel := Main.learn_tx_intel Main.new_intel 100 "FOOD" (Some "Cafe"%string) in
  MainIntel.add_txs ∅ 1 [Samples.cafe_tx] !! 1 = Some intel /\
  ~ In "new_merchant +20"%string
      (snd (fst (MainIntel._score_tx (fun _ => "0.0"%string) (fun z => z) intel
                   Samples.cafe_payload))).
Proof.
  assert (Hintel : MainIntel.add_txs ∅ 1 [Samples.cafe_tx] !! 1
                   = Some (Main.learn_tx_intel Main.new_intel 100 "FOOD"
                             (Some "Cafe"%string))).
  { unfold MainIntel.add_txs, MainIntel.add_tx, Main._learn_tx,
      Main._get_or_create_intel. simpl fold_left. rewrite lookup_empty.
    rewrite lookup_insert_eq. reflexivity. }
  split; [exact Hintel |].
  apply (proj1 (MainIntelFacts.score_after_learning (fun _ => "0.0"%string)
                  (fun z => z) ∅ 1 [Samples.cafe_tx] _ Samples.cafe_payload
                  (lookup_empty 1) Hintel)).
  unfold MainIntel.merchant_uses. simpl. lia.
Defined.

Lemma median_mad_witness :
  exists v, MainStats._median Samples.amounts = Py.Ok v /\ (1 <= v <= 3)%R.
Proof.
  apply (MainStatsFacts.median_mad Samples.amounts Samples.amounts 1 3).
  - discriminate.
  - reflexivity.
  - unfold Samples.amounts. repeat constructor; lra.
Defined.

Lemma percentile_range_witness :
  exists v, MainStats._percentile Samples.amounts 95 = Py.Ok v /\ (1 <= v <= 3)%R.
Proof.
  apply (MainStatsFacts.percentile_range Samples.amounts Samples.amounts 95 1 3).
  - discriminate.
  - lra.
  - reflexivity.
  - unfold Samples.amounts. repeat constructor; lra.
Defined.

Lemma clip_l2_bound_witness :
  let delta := Fed._sub_weights Samples.local_weights ∅ in
  exists clipped n n' s,
    Fed._l2_norm delta = Fed.Found n /\
    Fed._clip_l2 delta 1 = Fed.Found clipped /\
    Fed._l2_norm clipped = Fed.Found n' /\
    clipped = Fed._scale_weights delta s /\ (0 < s <= 1)%R /\
    (n' <= 1)%R /\ (n' <= n)%R /\ ((n <= 1)%R -> n' = n).
Proof.
  apply (FedFacts.clip_l2_bound Samples.local_weights ∅ 1). lra.
Defined.

Lemma dp_update_sensitivity_witness :
  exists out n,
    Fed._dp_secure_update ∅ Samples.local_weights 1 0 (fun _ => 0%R) = Fed.Found out /\
    Fed._l2_norm (Fed._sub_weights out ∅) = Fed.Found n /\
    (n <= 1)%R.
Proof.
  apply (FedFacts.dp_update_sensitivity ∅ Samples.local_weights 1 0 (fun _ => 0%R));
    lra.
Defined.

Lemma sim_apply_weights_effect_witness :
  exists out c,
    @Fed.sim_apply_weights Instances.no_literals (Some Samples.local_weights)
      CONFIG_initial = (Py.Ok out, c) /\
    Fed.applied out = true /\
    scale c = scale CONFIG_initial.
Proof.
  destruct (@FedFacts.sim_apply_weights_effect Instances.no_literals
              Samples.local_weights CONFIG_initial (insert_non_empty ∅ "bias" 3%R))
    as (_ & _ & out & c & Hrun & Happ & _ & _ & _ & Hscale & _).
  exists out, c. split; [exact Hrun |]. split; [exact Happ | exact Hscale].
Defined.

Lemma featurize_rows_shape_witness :
  @AnomalyEngine.featurize_rows Instances.no_literals [Instances.food_row 20]
  = Py.Ok [[ln (1 + Rmax (IZR 20) 0.0);
            (IZR (AnomalyEngine._stable_hash "FOOD" mod 1000) / 999.0)%R;
            (IZR (AnomalyEngine._stable_hash "" mod 2000) / 1999.0)%R]] /\
  length [[ln (1 + Rmax (IZR 20) 0.0);
           (IZR (AnomalyEngine._stable_hash "FOOD" mod 1000) / 999.0)%R;
           (IZR (AnomalyEngine._stable_hash "" mod 2000) / 1999.0)%R]]
  = length [Instances.food_row 20].
Proof.
  assert (Hrun : @AnomalyEngine.featurize_rows Instances.no_literals
                   [Instances.food_row 20]
                 = Py.Ok [[ln (1 + Rmax (IZR 20) 0.0);
                           (IZR (AnomalyEngine._stable_hash "FOOD" mod 1000) / 999.0)%R;
                           (IZR (AnomalyEngine._stable_hash "" mod 2000) / 1999.0)%R]]).
  { reflexivity. }
  split; [exact Hrun |].
  apply (proj1 (@AnomalyMore.featurize_rows_shape Instances.no_literals
                  [Instances.food_row 20] _ Hrun)).
Defined.

Lemma reason_tokens_round_trip_witness :
  MainLogs._reason_tokens
    (Some (Main.join_bar
             (["hard_deny"%string]
              ++ map (@Main.render_part Samples.plain_format) [Samples.new_device_part]
              ++ ["ti_bad_ip +30"%string])))
  = ["hard_deny"%string; "new_device"%string; "ti_bad_ip +30"%string].
Proof.
  apply (@MainLogsFacts.reason_tokens_round_trip Samples.plain_format
           (fun _ => eq_refl) ["hard_deny"%string] ["ti_bad_ip +30"%string]
           [Samples.new_device_part]).
  - repeat constructor.
  - repeat constructor.
  - repeat constructor.
Defined.

End Examples.
